(** * Dog API: query, filter, pagination and aggregation engine

    A shallow embedding of the route handlers of the Dog API
    (routes/dogs.ts, routes/breeds.ts, routes/adoption.ts, routes/health.ts,
    routes/training.ts, data/mockData.ts, schemas/index.ts) and the
    properties the specification states about them.

    Conventions of the embedding.
    - A JavaScript array is a [list]; a handler that mutates a module-level
      array takes the array and returns the new one next to its response.
      [App.State] gathers the module-level arrays, and the functions of
      [App] run a handler on the arrays its module reads.
    - An optional field ([z.….optional()], a possibly [undefined] value) is
      an [option]; [None] is [undefined].
    - An integer-valued number ([z.number().int()], an array length, a page
      number) is a [Z]; a weight, a cost and the mean of a list of scores
      are exact rationals [Q].  The adoption rate, which the handler
      rounds, is an IEEE 754 double ([Number.t]) computed with the rounding
      of the source's arithmetic.
    - A string is a [string]; a [z.enum] is an inductive type whose equality
      test stands for [===] on the enum's string values.
    - [generateId()], [generateTimestamps()] and [new Date()] read the
      environment; their results are extra arguments of the handler. *)

From Stdlib Require Import ZArith QArith Qround Lia Lqa Bool Btauto SpecFloat.
From Stdlib Require Import String Ascii List Permutation Sorted.
From stdpp Require Import base list.
Import ListNotations.

Local Open Scope string_scope.
Local Open Scope Z_scope.

(** ** JavaScript built-ins used by the handlers *)

Module JS.

(** [String.prototype.toLowerCase] on strings of ASCII characters, which is
    what the seed data and the formats of the schemas are made of: the
    letters A to Z are lowered and every other character is left as it is.
    Cased letters outside ASCII are not modelled; the laws proved about the
    filters hold for any case mapping. *)
Definition lowerChar (c : ascii) : ascii :=
  let n := nat_of_ascii c in
  if ((65 <=? n)%nat && (n <=? 90)%nat)%bool then ascii_of_nat (n + 32) else c.

Fixpoint toLowerCase (s : string) : string :=
  match s with
  | EmptyString => EmptyString
  | String c s' => String (lowerChar c) (toLowerCase s')
  end.

(** [s.includes(sub)]: [sub] occurs in [s] as a contiguous substring. *)
Fixpoint includes (s sub : string) : bool :=
  match s with
  | EmptyString => String.prefix sub EmptyString
  | String _ s' => (String.prefix sub s || includes s' sub)%bool
  end.

(** Truthiness of a string: only the empty string is falsy. *)
Definition truthy (s : string) : bool :=
  match s with EmptyString => false | String _ _ => true end.

(** [a >= b] and [a <= b] on strings: code-unit lexicographic order. *)
Definition str_ge (a b : string) : bool := String.leb b a.
Definition str_le (a b : string) : bool := String.leb a b.

(** [Array.prototype.slice(start, end)]: a negative index counts from the
    end, both indices are clipped to [0, length], and an empty array is
    returned when the clipped end is not after the clipped start. *)
Definition relIndex (len k : Z) : Z :=
  if k <? 0 then Z.max (len + k) 0 else Z.min k len.

Definition slice {A : Type} (l : list A) (start finish : Z) : list A :=
  let len := Z.of_nat (length l) in
  let k := relIndex len start in
  let final := relIndex len finish in
  firstn (Z.to_nat (final - k)) (skipn (Z.to_nat k) l).

(** [Math.ceil] on an exact rational. *)
Definition Math_ceil (x : Q) : Z := Qceiling x.

(** [Array.prototype.includes] on an array of strings. *)
Definition arr_includes (l : list string) (x : string) : bool :=
  existsb (String.eqb x) l.

End JS.

(** ** Numbers

    A JavaScript number is an IEEE 754 binary64 value.  The operations are
    those of the Standard Library's specification of floating-point
    arithmetic, at precision 53 and exponent bound 1024: every result is
    the exact result rounded to the nearest double, ties to even. *)

Module Number.

Definition prec : Z := 53.
Definition emax : Z := 1024.

Definition t : Type := spec_float.

(** The double nearest to an integer; exact below 2^53. *)
Definition ofZ (z : Z) : t := binary_normalize prec emax z 0 false.

(** [x * y] and [x / y]. *)
Definition mul (x y : t) : t := SFmul prec emax x y.
Definition div (x y : t) : t := SFdiv prec emax x y.


(** [Math.round(x)]: [x] itself when it is not finite or is an integer,
    else the integer nearest to the exact value of [x], the upper one on a
    tie; a result of zero keeps the sign of [x]. *)
Definition Math_round (x : t) : t :=
  match x with
  | S754_finite s m e =>
      if 0 <=? e then x
      else
        let n := if s then Z.neg m else Z.pos m in
        let r := (2 * n + 2 ^ (- e)) / 2 ^ (1 - e) in
        if r =? 0 then S754_zero s else ofZ r
  | S754_zero _ | S754_infinity _ | S754_nan => x
  end.


End Number.

(** ** Data model (schemas/index.ts) *)

Inductive Gender := male | female.
Inductive Size := small | medium | large | extra_large.
Inductive HealthType :=
  vaccination | checkup | treatment | surgery | emergency | dental | grooming.
Inductive TrainingType :=
  basic_obedience | advanced_obedience | agility | therapy | service
  | behavioral | socialization.
Inductive TrainingStatus := in_progress | completed | discontinued.
Inductive Progress := poor | fair | good | excellent.
Inductive AdoptionStatus := pending | approved | rejected | withdrawn.
Inductive HousingType := apartment | house | condo | farm | other_housing.
Inductive Experience := no_experience | some_experience | experienced | very_experienced.

(** [===] on the values of each enum. *)
Definition Gender_eqb (a b : Gender) : bool :=
  match a, b with male, male | female, female => true | _, _ => false end.

Definition Size_eqb (a b : Size) : bool :=
  match a, b with
  | small, small | medium, medium | large, large | extra_large, extra_large => true
  | _, _ => false
  end.

Definition HealthType_eqb (a b : HealthType) : bool :=
  match a, b with
  | vaccination, vaccination | checkup, checkup | treatment, treatment
  | surgery, surgery | emergency, emergency | dental, dental
  | grooming, grooming => true
  | _, _ => false
  end.

Definition TrainingType_eqb (a b : TrainingType) : bool :=
  match a, b with
  | basic_obedience, basic_obedience | advanced_obedience, advanced_obedience
  | agility, agility | therapy, therapy | service, service
  | behavioral, behavioral | socialization, socialization => true
  | _, _ => false
  end.

Definition TrainingStatus_eqb (a b : TrainingStatus) : bool :=
  match a, b with
  | in_progress, in_progress | completed, completed
  | discontinued, discontinued => true
  | _, _ => false
  end.

Definition Progress_eqb (a b : Progress) : bool :=
  match a, b with
  | poor, poor | fair, fair | good, good | excellent, excellent => true
  | _, _ => false
  end.

Definition AdoptionStatus_eqb (a b : AdoptionStatus) : bool :=
  match a, b with
  | pending, pending | approved, approved | rejected, rejected
  | withdrawn, withdrawn => true
  | _, _ => false
  end.

Module Dog.
Record t := mk {
    id : string;
    name : string;
    breed : string;
    age : Z;
    weight : Q;
    gender : Gender;
    color : string;
    size : Size;
    temperament : list string;
    isNeutered : bool;
    microchipId : option string;
    photos : list string;
    description : string;
    createdAt : string;
    updatedAt : string
  }.
End Dog.

(** [CreateDogSchema]: the dog without [id] and timestamps. *)
Module CreateDog.
Record t := mk {
    name : string;
    breed : string;
    age : Z;
    weight : Q;
    gender : Gender;
    color : string;
    size : Size;
    temperament : list string;
    isNeutered : bool;
    microchipId : option string;
    photos : list string;
    description : string
  }.
End CreateDog.

Module Address.
Record t := mk { street : string; city : string; state : string; zipCode : string }.
End Address.

Module AdoptionApplication.
Record t := mk {
    id : string;
    dogId : string;
    applicantName : string;
    applicantEmail : string;
    applicantPhone : string;
    address : Address.t;
    housingType : HousingType;
    hasYard : bool;
    hasOtherPets : bool;
    otherPetsDetails : option string;
    experience : Experience;
    workSchedule : string;
    reason : string;
    status : AdoptionStatus;
    notes : option string;
    createdAt : string;
    updatedAt : string
  }.
End AdoptionApplication.

(** [CreateAdoptionApplicationSchema]: the application without [id],
    [status], [notes] and the two timestamps. *)
Module CreateAdoptionApplication.
Record t := mk {
    dogId : string;
    applicantName : string;
    applicantEmail : string;
    applicantPhone : string;
    address : Address.t;
    housingType : HousingType;
    hasYard : bool;
    hasOtherPets : bool;
    otherPetsDetails : option string;
    experience : Experience;
    workSchedule : string;
    reason : string
  }.
End CreateAdoptionApplication.

Module Medication.
Record t := mk { name : string; dosage : string; frequency : string }.
End Medication.

Module HealthRecord.
Record t := mk {
    id : string;
    dogId : string;
    type : HealthType;
    date : string;
    veterinarian : string;
    clinic : string;
    description : string;
    medications : option (list Medication.t);
    cost : option Q;
    followUpDate : option string;
    notes : option string;
    attachments : option (list string);
    createdAt : string;
    updatedAt : string
  }.
End HealthRecord.

(** [CreateHealthRecordSchema]: the record without [id] and timestamps. *)
Module CreateHealthRecord.
Record t := mk {
    dogId : string;
    type : HealthType;
    date : string;
    veterinarian : string;
    clinic : string;
    description : string;
    medications : option (list Medication.t);
    cost : option Q;
    followUpDate : option string;
    notes : option string;
    attachments : option (list string)
  }.
End CreateHealthRecord.

Module TrainingRecord.
Record t := mk {
    id : string;
    dogId : string;
    type : TrainingType;
    trainer : string;
    facility : option string;
    startDate : string;
    endDate : option string;
    status : TrainingStatus;
    skills : list string;
    progress : Progress;
    cost : option Q;
    notes : option string;
    certificates : option (list string);
    createdAt : string;
    updatedAt : string
  }.
End TrainingRecord.

(** [CreateTrainingRecordSchema]: the record without [id] and timestamps. *)
Module CreateTrainingRecord.
Record t := mk {
    dogId : string;
    type : TrainingType;
    trainer : string;
    facility : option string;
    startDate : string;
    endDate : option string;
    status : TrainingStatus;
    skills : list string;
    progress : Progress;
    cost : option Q;
    notes : option string;
    certificates : option (list string)
  }.
End CreateTrainingRecord.

(** [ErrorSchema] values the handlers return with status 404. *)
Record ErrorBody := { error : string; message : string }.

(** [PaginationSchema] and [PaginatedResponseSchema]. *)
Record Pagination := { page : Z; limit : Z; total : Z; totalPages : Z }.

Record Paginated (A : Type) := { data : list A; pagination : Pagination }.
Arguments data {A} _.
Arguments pagination {A} _.

(** A handler's reply: a 2xx body, or the 404 [ErrorBody]. *)
Inductive Reply (A : Type) :=
  | Ok (status : Z) (body : A)
  | NotFound (body : ErrorBody).
Arguments Ok {A} _ _.
Arguments NotFound {A} _.

(** ** data/mockData.ts *)

(** [findById(data, id)]: the first item whose id is [id]. *)
Definition findById {T : Type} (getId : T -> string) (data : list T) (id : string)
  : option T :=
  List.find (fun item => String.eqb (getId item) id) data.

(** [generateTimestamps()] given the clock's ISO string. *)
Definition generateTimestamps (now : string) : string * string := (now, now).

(** The pagination block shared, line for line, by the four list handlers:
    [startIndex = (page - 1) * limit], [endIndex = startIndex + limit],
    [slice(startIndex, endIndex)], and the descriptor. *)
Definition paginate {A : Type} (filtered : list A) (page limit : Z) : Paginated A :=
  let startIndex := (page - 1) * limit in
  let endIndex := startIndex + limit in
  let paginated := JS.slice filtered startIndex endIndex in
  {| data := paginated;
     pagination := {| page := page;
                      limit := limit;
                      total := Z.of_nat (length filtered);
                      totalPages :=
                        JS.Math_ceil (inject_Z (Z.of_nat (length filtered)) / inject_Z limit) |} |}.

(** ** Dates

    The handlers build [Date] objects from the records' [YYYY-MM-DD]
    strings and from the clock.  A time value is a number of milliseconds
    since the epoch; the calendar arithmetic is that of the ECMAScript
    abstract operations [Day], [TimeWithinDay], [MakeDay], [MakeDate],
    [YearFromTime], [MonthFromTime] and [DateFromTime] on the proleptic
    Gregorian calendar. *)

Module JSDate.

Definition msPerDay : Z := 86400000.

Definition Day (t : Z) : Z := t / msPerDay.
Definition TimeWithinDay (t : Z) : Z := t mod msPerDay.

(** Day number of the first day of month [m] (1..12) of year [y], plus
    [d - 1]; days are counted from 1970-01-01. *)
Definition daysFromCivil (y m d : Z) : Z :=
  let y' := if m <=? 2 then y - 1 else y in
  let era := y' / 400 in
  let yoe := y' - era * 400 in
  let mp := if 2 <? m then m - 3 else m + 9 in
  let doy := (153 * mp + 2) / 5 + d - 1 in
  let doe := yoe * 365 + yoe / 4 - yoe / 100 + doy in
  era * 146097 + doe - 719468.

(** Year, month (1..12) and day of month (1..31) of a day number. *)
Definition civilFromDays (days : Z) : Z * Z * Z :=
  let z := days + 719468 in
  let era := z / 146097 in
  let doe := z - era * 146097 in
  let yoe := (doe - doe / 1460 + doe / 36524 - doe / 146096) / 365 in
  let y := yoe + era * 400 in
  let doy := doe - (365 * yoe + yoe / 4 - yoe / 100) in
  let mp := (5 * doy + 2) / 153 in
  let d := doy - (153 * mp + 2) / 5 + 1 in
  let m := if mp <? 10 then mp + 3 else mp - 9 in
  (if m <=? 2 then y + 1 else y, m, d).

Definition YearFromTime (t : Z) : Z := fst (fst (civilFromDays (Day t))).
(** [MonthFromTime] is 0-based, as in JavaScript. *)
Definition MonthFromTime (t : Z) : Z := snd (fst (civilFromDays (Day t))) - 1.
Definition DateFromTime (t : Z) : Z := snd (civilFromDays (Day t)).

(** [MakeDay(year, month, date)] with a 0-based [month] that may lie outside
    0..11 and a [date] that may lie outside the month: the overflow carries
    into the following months. *)
Definition MakeDay (year month date : Z) : Z :=
  let ym := year + month / 12 in
  let mn := month mod 12 in
  daysFromCivil ym (mn + 1) 1 + date - 1.

Definition MakeDate (day time : Z) : Z := day * msPerDay + time.

(** The host's time zone: the offset to add to a UTC time value to get the
    local one, and the offset to subtract from a local time value to get
    back to UTC. *)
Record TimeZone := { offsetAtUTC : Z -> Z; offsetAtLocal : Z -> Z }.

Definition UTCZone : TimeZone :=
  {| offsetAtUTC := fun _ => 0; offsetAtLocal := fun _ => 0 |}.

Definition LocalTime (tz : TimeZone) (t : Z) : Z := t + offsetAtUTC tz t.
Definition UTC (tz : TimeZone) (t : Z) : Z := t - offsetAtLocal tz t.

(** [d.getFullYear()] and [d.setFullYear(year)] on the time value [t]. *)
Definition getFullYear (tz : TimeZone) (t : Z) : Z := YearFromTime (LocalTime tz t).

Definition setFullYear (tz : TimeZone) (t : Z) (year : Z) : Z :=
  let lt := LocalTime tz t in
  let newDate := MakeDay year (MonthFromTime lt) (DateFromTime lt) in
  UTC tz (MakeDate newDate (TimeWithinDay lt)).

(** Parsing of the date-only form [YYYY-MM-DD], read as midnight UTC. *)
Definition digit (c : ascii) : option Z :=
  let n := Z.of_nat (nat_of_ascii c) in
  if (48 <=? n) && (n <=? 57) then Some (n - 48) else None.

Fixpoint digits (acc : Z) (l : list ascii) : option Z :=
  match l with
  | [] => Some acc
  | c :: l' =>
      match digit c with
      | Some d => digits (acc * 10 + d) l'
      | None => None
      end
  end.

Definition isLeap (y : Z) : bool :=
  ((y mod 4 =? 0) && negb (y mod 100 =? 0)) || (y mod 400 =? 0).

Definition daysInMonth (y m : Z) : Z :=
  if m =? 2 then (if isLeap y then 29 else 28)
  else if (m =? 4) || (m =? 6) || (m =? 9) || (m =? 11) then 30
  else 31.

(** [new Date(s).getTime()] for a [z.string().date()] string; [None] is
    the [NaN] of an invalid date. *)
Definition getTime (s : string) : option Z :=
  match list_ascii_of_string s with
  | [y1; y2; y3; y4; "-"%char; m1; m2; "-"%char; d1; d2] =>
      match digits 0 [y1; y2; y3; y4], digits 0 [m1; m2], digits 0 [d1; d2] with
      | Some y, Some m, Some d =>
          if (1 <=? m) && (m <=? 12) && (1 <=? d) && (d <=? daysInMonth y m)
          then Some (MakeDate (MakeDay y (m - 1) d) 0)
          else None
      | _, _, _ => None
      end
  | _ => None
  end.

(** The comparator [(a, b) => new Date(b).getTime() - new Date(a).getTime()]
    on two date strings; a [NaN] difference counts as [0] in a sort. *)
Definition compareDesc (a b : string) : Z :=
  match getTime b, getTime a with
  | Some tb, Some ta => tb - ta
  | _, _ => 0
  end.

End JSDate.

Module JSArray.

(** [Array.prototype.sort(cmp)] is stable: elements that compare equal keep
    their order.  For a comparator that is a consistent ordering the stable
    arrangement is unique, and insertion from the right computes it. *)
Fixpoint insert {A : Type} (cmp : A -> A -> Z) (x : A) (l : list A) : list A :=
  match l with
  | [] => [x]
  | y :: l' => if cmp x y <=? 0 then x :: y :: l' else y :: insert cmp x l'
  end.

Definition sort {A : Type} (cmp : A -> A -> Z) (l : list A) : list A :=
  fold_right (insert cmp) [] l.

(** A [Set] keeps its elements in insertion order; [add] of a member does
    nothing. *)
Definition Set_add {A : Type} (eqb : A -> A -> bool) (s : list A) (x : A) : list A :=
  if existsb (eqb x) s then s else (s ++ [x])%list.

(** [if (cond) { list = list.filter(pred) }] for a string that is tested
    for truthiness, and for a value that is tested against [undefined] (or
    is an enum string, which is never falsy). *)
Definition filterIfTruthy {A : Type} (o : option string) (pred : string -> A -> bool)
  (l : list A) : list A :=
  match o with
  | Some s => if JS.truthy s then List.filter (pred s) l else l
  | None => l
  end.

Definition filterIfDefined {A B : Type} (o : option B) (pred : B -> A -> bool)
  (l : list A) : list A :=
  match o with
  | Some v => List.filter (pred v) l
  | None => l
  end.

(** [arr.findIndex(pred)]: the index of the first element that satisfies
    [pred]; [None] is the [-1] of no such element. *)
Fixpoint findIndex {A : Type} (pred : A -> bool) (l : list A) : option nat :=
  match l with
  | [] => None
  | x :: l' => if pred x then Some 0%nat else option_map S (findIndex pred l')
  end.

(** A [Map] with string keys, in insertion order: [has], [set] of a key the
    map does not hold, and the mutation of the value [get(key)] returns. *)
Definition Map_has {V : Type} (m : list (string * V)) (key : string) : bool :=
  existsb (fun kv => String.eqb (fst kv) key) m.

Definition Map_setNew {V : Type} (m : list (string * V)) (key : string) (v : V)
  : list (string * V) :=
  (m ++ [(key, v)])%list.

Fixpoint Map_update {V : Type} (m : list (string * V)) (key : string) (f : V -> V)
  : list (string * V) :=
  match m with
  | [] => []
  | (k, v) :: m' =>
      if String.eqb k key then (k, f v) :: m' else (k, v) :: Map_update m' key f
  end.

End JSArray.

(** [UpdateDogSchema = CreateDogSchema.partial()]: every field may be
    absent. *)
Module UpdateDog.
Record t := mk {
    name : option string;
    breed : option string;
    age : option Z;
    weight : option Q;
    gender : option Gender;
    color : option string;
    size : option Size;
    temperament : option (list string);
    isNeutered : option bool;
    microchipId : option string;
    photos : option (list string);
    description : option string
  }.
End UpdateDog.

Module DogPhotos.
(** The body of [GET /dogs/:id/photos]. *)
Record t := mk { dogId : string; photos : list string }.
End DogPhotos.

(** ** routes/dogs.ts

    The dogs routes work on [dogs], their own copy of the seed array
    [mockDogs] ([let dogs = [...mockDogs]]); the other route modules read
    [mockDogs] itself, which no handler changes. *)

Module DogQuery.
(** [DogQuerySchema]; [page] and [limit] carry their defaults. *)
Record t := mk {
    breed : option string;
    age_min : option Z;
    age_max : option Z;
    weight_min : option Q;
    weight_max : option Q;
    gender : option Gender;
    size : option Size;
    isNeutered : option bool;
    page : Z;
    limit : Z
  }.
End DogQuery.

Module DogsRoutes.
Import JSArray.

(** The filter chain of the [GET /dogs] handler. *)
Definition applyFilters (query : DogQuery.t) (dogs : list Dog.t) : list Dog.t :=
  let filteredDogs := dogs in
  let filteredDogs :=
    filterIfTruthy (DogQuery.breed query)
      (fun b dog => JS.includes (JS.toLowerCase (Dog.breed dog)) (JS.toLowerCase b))
      filteredDogs in
  let filteredDogs :=
    filterIfDefined (DogQuery.age_min query)
      (fun m dog => m <=? Dog.age dog) filteredDogs in
  let filteredDogs :=
    filterIfDefined (DogQuery.age_max query)
      (fun m dog => Dog.age dog <=? m) filteredDogs in
  let filteredDogs :=
    filterIfDefined (DogQuery.weight_min query)
      (fun m dog => Qle_bool m (Dog.weight dog)) filteredDogs in
  let filteredDogs :=
    filterIfDefined (DogQuery.weight_max query)
      (fun m dog => Qle_bool (Dog.weight dog) m) filteredDogs in
  let filteredDogs :=
    filterIfDefined (DogQuery.gender query)
      (fun g dog => Gender_eqb (Dog.gender dog) g) filteredDogs in
  let filteredDogs :=
    filterIfDefined (DogQuery.size query)
      (fun s dog => Size_eqb (Dog.size dog) s) filteredDogs in
  let filteredDogs :=
    filterIfDefined (DogQuery.isNeutered query)
      (fun n dog => Bool.eqb (Dog.isNeutered dog) n) filteredDogs in
  filteredDogs.

(** [GET /dogs]. *)
Definition listDogsRoute (dogs : list Dog.t) (query : DogQuery.t) : Paginated Dog.t :=
  paginate (applyFilters query dogs) (DogQuery.page query) (DogQuery.limit query).

(** [GET /dogs/:id]. *)
Definition getDogRoute (dogs : list Dog.t) (id : string) : Reply Dog.t :=
  match findById Dog.id dogs id with
  | None =>
      NotFound {| error := "NOT_FOUND";
                  message := "Dog with ID " ++ id ++ " not found" |}
  | Some dog => Ok 200 dog
  end.

(** [POST /dogs]: the reply and the routes' [dogs] array afterwards. *)
Definition createDogRoute (dogs : list Dog.t) (dogData : CreateDog.t)
  (freshId now : string) : Reply Dog.t * list Dog.t :=
  let timestamps := generateTimestamps now in
  let newDog :=
    {| Dog.id := freshId;
       Dog.name := CreateDog.name dogData;
       Dog.breed := CreateDog.breed dogData;
       Dog.age := CreateDog.age dogData;
       Dog.weight := CreateDog.weight dogData;
       Dog.gender := CreateDog.gender dogData;
       Dog.color := CreateDog.color dogData;
       Dog.size := CreateDog.size dogData;
       Dog.temperament := CreateDog.temperament dogData;
       Dog.isNeutered := CreateDog.isNeutered dogData;
       Dog.microchipId := CreateDog.microchipId dogData;
       Dog.photos := CreateDog.photos dogData;
       Dog.description := CreateDog.description dogData;
       Dog.createdAt := fst timestamps;
       Dog.updatedAt := snd timestamps |} in
  (Ok 201 newDog, (dogs ++ [newDog])%list).

(** [dogs.findIndex(dog => dog.id === id)] followed by
    [dogs.splice(dogIndex, 1)]: the first dog with that id is removed. *)
Fixpoint removeFirst (id : string) (dogs : list Dog.t) : option (list Dog.t) :=
  match dogs with
  | [] => None
  | dog :: rest =>
      if String.eqb (Dog.id dog) id then Some rest
      else option_map (cons dog) (removeFirst id rest)
  end.

(** [DELETE /dogs/:id]: the reply (204 with no body) and the array
    afterwards. *)
Definition deleteDogRoute (dogs : list Dog.t) (id : string) : Reply unit * list Dog.t :=
  match removeFirst id dogs with
  | None =>
      (NotFound {| error := "NOT_FOUND";
                   message := "Dog with ID " ++ id ++ " not found" |},
       dogs)
  | Some dogs' => (Ok 204 tt, dogs')
  end.

(** A property of [{ ...old, ...patch }]: the patch's value when it has
    the key. *)
Definition spread {B : Type} (old : B) (patch : option B) : B :=
  match patch with
  | Some v => v
  | None => old
  end.

(** [{ ...dogs[dogIndex], ...updateData, updatedAt: new Date().toISOString() }]. *)
Definition updatedDog (old : Dog.t) (updateData : UpdateDog.t) (now : string) : Dog.t :=
  {| Dog.id := Dog.id old;
     Dog.name := spread (Dog.name old) (UpdateDog.name updateData);
     Dog.breed := spread (Dog.breed old) (UpdateDog.breed updateData);
     Dog.age := spread (Dog.age old) (UpdateDog.age updateData);
     Dog.weight := spread (Dog.weight old) (UpdateDog.weight updateData);
     Dog.gender := spread (Dog.gender old) (UpdateDog.gender updateData);
     Dog.color := spread (Dog.color old) (UpdateDog.color updateData);
     Dog.size := spread (Dog.size old) (UpdateDog.size updateData);
     Dog.temperament := spread (Dog.temperament old) (UpdateDog.temperament updateData);
     Dog.isNeutered := spread (Dog.isNeutered old) (UpdateDog.isNeutered updateData);
     Dog.microchipId :=
       match UpdateDog.microchipId updateData with
       | Some chip => Some chip
       | None => Dog.microchipId old
       end;
     Dog.photos := spread (Dog.photos old) (UpdateDog.photos updateData);
     Dog.description := spread (Dog.description old) (UpdateDog.description updateData);
     Dog.createdAt := Dog.createdAt old;
     Dog.updatedAt := now |}.

(** [PUT /dogs/:id]: the reply and the array afterwards.  [findIndex]
    returns an index of the array, so [dogs[dogIndex]] is a dog; the branch
    for an index without element is never taken. *)
Definition updateDogRoute (dogs : list Dog.t) (id : string) (updateData : UpdateDog.t)
  (now : string) : Reply Dog.t * list Dog.t :=
  let notFound :=
    NotFound {| error := "NOT_FOUND";
                message := "Dog with ID " ++ id ++ " not found" |} in
  match findIndex (fun dog => String.eqb (Dog.id dog) id) dogs with
  | None => (notFound, dogs)
  | Some dogIndex =>
      match dogs !! dogIndex with
      | Some old =>
          let updated := updatedDog old updateData now in
          (Ok 200 updated, <[dogIndex := updated]> dogs)
      | None => (notFound, dogs)
      end
  end.

(** [GET /dogs/:id/photos]. *)
Definition getDogPhotosRoute (dogs : list Dog.t) (id : string) : Reply DogPhotos.t :=
  match findById Dog.id dogs id with
  | None =>
      NotFound {| error := "NOT_FOUND";
                  message := "Dog with ID " ++ id ++ " not found" |}
  | Some dog => Ok 200 {| DogPhotos.dogId := id; DogPhotos.photos := Dog.photos dog |}
  end.

End DogsRoutes.

(** ** routes/adoption.ts *)

Module AdoptionQuery.
Record t := mk {
    status : option AdoptionStatus;
    dogId : option string;
    page : Z;
    limit : Z
  }.
End AdoptionQuery.

Module AvailableQuery.
(** The query schema of [GET /adoption/available]. *)
Record t := mk {
    breed : option string;
    size : option Size;
    age_max : option Z;
    goodWithKids : option bool
  }.
End AvailableQuery.

Module AdoptionStats.
Record t := mk {
    totalDogs : Z;
    availableForAdoption : Z;
    totalApplications : Z;
    pendingApplications : Z;
    approvedApplications : Z;
    rejectedApplications : Z;
    adoptionRate : Number.t
  }.
End AdoptionStats.

Module AdoptionRoutes.
Import JSArray.

Definition applyFilters (query : AdoptionQuery.t)
  (adoptionApplications : list AdoptionApplication.t) : list AdoptionApplication.t :=
  let filteredApplications := adoptionApplications in
  let filteredApplications :=
    filterIfDefined (AdoptionQuery.status query)
      (fun s app => AdoptionStatus_eqb (AdoptionApplication.status app) s)
      filteredApplications in
  let filteredApplications :=
    filterIfTruthy (AdoptionQuery.dogId query)
      (fun d app => String.eqb (AdoptionApplication.dogId app) d)
      filteredApplications in
  filteredApplications.

(** [GET /adoption/applications]. *)
Definition listAdoptionApplicationsRoute
  (adoptionApplications : list AdoptionApplication.t) (query : AdoptionQuery.t)
  : Paginated AdoptionApplication.t :=
  paginate (applyFilters query adoptionApplications)
    (AdoptionQuery.page query) (AdoptionQuery.limit query).

(** [{ id: generateId(), ...applicationData, status: 'pending', ...timestamps }]. *)
Definition newApplication (id : string) (applicationData : CreateAdoptionApplication.t)
  (timestamps : string * string) : AdoptionApplication.t :=
  {| AdoptionApplication.id := id;
     AdoptionApplication.dogId := CreateAdoptionApplication.dogId applicationData;
     AdoptionApplication.applicantName := CreateAdoptionApplication.applicantName applicationData;
     AdoptionApplication.applicantEmail := CreateAdoptionApplication.applicantEmail applicationData;
     AdoptionApplication.applicantPhone := CreateAdoptionApplication.applicantPhone applicationData;
     AdoptionApplication.address := CreateAdoptionApplication.address applicationData;
     AdoptionApplication.housingType := CreateAdoptionApplication.housingType applicationData;
     AdoptionApplication.hasYard := CreateAdoptionApplication.hasYard applicationData;
     AdoptionApplication.hasOtherPets := CreateAdoptionApplication.hasOtherPets applicationData;
     AdoptionApplication.otherPetsDetails := CreateAdoptionApplication.otherPetsDetails applicationData;
     AdoptionApplication.experience := CreateAdoptionApplication.experience applicationData;
     AdoptionApplication.workSchedule := CreateAdoptionApplication.workSchedule applicationData;
     AdoptionApplication.reason := CreateAdoptionApplication.reason applicationData;
     AdoptionApplication.status := pending;
     AdoptionApplication.notes := None;
     AdoptionApplication.createdAt := fst timestamps;
     AdoptionApplication.updatedAt := snd timestamps |}.

(** [POST /adoption/applications]: the reply and the array afterwards.
    [freshId] is what [generateId()] returns and [now] the clock's ISO
    string. *)
Definition createAdoptionApplicationRoute (mockDogs : list Dog.t)
  (adoptionApplications : list AdoptionApplication.t)
  (applicationData : CreateAdoptionApplication.t) (freshId now : string)
  : Reply AdoptionApplication.t * list AdoptionApplication.t :=
  match findById Dog.id mockDogs (CreateAdoptionApplication.dogId applicationData) with
  | None =>
      (NotFound {| error := "NOT_FOUND";
                   message := "Dog with ID "
                     ++ CreateAdoptionApplication.dogId applicationData ++ " not found" |},
       adoptionApplications)
  | Some _ =>
      let timestamps := generateTimestamps now in
      let newApp := newApplication freshId applicationData timestamps in
      (Ok 201 newApp, (adoptionApplications ++ [newApp])%list)
  end.

(** [GET /adoption/available]. *)
Definition getAvailableDogsRoute (mockDogs : list Dog.t)
  (adoptionApplications : list AdoptionApplication.t) (query : AvailableQuery.t)
  : list Dog.t :=
  let approvedDogIds :=
    map AdoptionApplication.dogId
      (List.filter (fun app => AdoptionStatus_eqb (AdoptionApplication.status app) approved)
         adoptionApplications) in
  let availableDogs :=
    List.filter (fun dog => negb (JS.arr_includes approvedDogIds (Dog.id dog))) mockDogs in
  let availableDogs :=
    filterIfTruthy (AvailableQuery.breed query)
      (fun b dog => JS.includes (JS.toLowerCase (Dog.breed dog)) (JS.toLowerCase b))
      availableDogs in
  let availableDogs :=
    filterIfDefined (AvailableQuery.size query)
      (fun s dog => Size_eqb (Dog.size dog) s) availableDogs in
  let availableDogs :=
    filterIfDefined (AvailableQuery.age_max query)
      (fun m dog => Dog.age dog <=? m) availableDogs in
  availableDogs.

(** The number of applications in a given status:
    [adoptionApplications.filter(app => app.status === s).length]. *)
Definition countStatus (s : AdoptionStatus)
  (adoptionApplications : list AdoptionApplication.t) : Z :=
  Z.of_nat (length (List.filter
    (fun app => AdoptionStatus_eqb (AdoptionApplication.status app) s)
    adoptionApplications)).

(** [GET /adoption/stats]. *)
Definition getAdoptionStatsRoute (mockDogs : list Dog.t)
  (adoptionApplications : list AdoptionApplication.t) : AdoptionStats.t :=
  let approvedCount := countStatus approved adoptionApplications in
  let pendingCount := countStatus pending adoptionApplications in
  let rejectedCount := countStatus rejected adoptionApplications in
  let dogCount := Z.of_nat (length mockDogs) in
  let adoptionRate : Number.t :=
    if 0 <? dogCount
    then Number.mul (Number.div (Number.ofZ approvedCount) (Number.ofZ dogCount))
           (Number.ofZ 100)
    else Number.ofZ 0 in
  {| AdoptionStats.totalDogs := dogCount;
     AdoptionStats.availableForAdoption := dogCount - approvedCount;
     AdoptionStats.totalApplications := Z.of_nat (length adoptionApplications);
     AdoptionStats.pendingApplications := pendingCount;
     AdoptionStats.approvedApplications := approvedCount;
     AdoptionStats.rejectedApplications := rejectedCount;
     AdoptionStats.adoptionRate :=
       Number.div (Number.Math_round (Number.mul adoptionRate (Number.ofZ 100)))
         (Number.ofZ 100) |}.

(** [GET /adoption/applications/:id]. *)
Definition getAdoptionApplicationRoute (adoptionApplications : list AdoptionApplication.t)
  (id : string) : Reply AdoptionApplication.t :=
  match findById AdoptionApplication.id adoptionApplications id with
  | None =>
      NotFound {| error := "NOT_FOUND";
                  message := "Adoption application with ID " ++ id ++ " not found" |}
  | Some application => Ok 200 application
  end.

(** [{ ...old, status, notes: notes || old.notes, updatedAt: … }]: an absent
    or empty [notes] keeps the notes the application has. *)
Definition updatedApplication (old : AdoptionApplication.t) (status : AdoptionStatus)
  (notes : option string) (now : string) : AdoptionApplication.t :=
  {| AdoptionApplication.id := AdoptionApplication.id old;
     AdoptionApplication.dogId := AdoptionApplication.dogId old;
     AdoptionApplication.applicantName := AdoptionApplication.applicantName old;
     AdoptionApplication.applicantEmail := AdoptionApplication.applicantEmail old;
     AdoptionApplication.applicantPhone := AdoptionApplication.applicantPhone old;
     AdoptionApplication.address := AdoptionApplication.address old;
     AdoptionApplication.housingType := AdoptionApplication.housingType old;
     AdoptionApplication.hasYard := AdoptionApplication.hasYard old;
     AdoptionApplication.hasOtherPets := AdoptionApplication.hasOtherPets old;
     AdoptionApplication.otherPetsDetails := AdoptionApplication.otherPetsDetails old;
     AdoptionApplication.experience := AdoptionApplication.experience old;
     AdoptionApplication.workSchedule := AdoptionApplication.workSchedule old;
     AdoptionApplication.reason := AdoptionApplication.reason old;
     AdoptionApplication.status := status;
     AdoptionApplication.notes :=
       match notes with
       | Some n => if JS.truthy n then Some n else AdoptionApplication.notes old
       | None => AdoptionApplication.notes old
       end;
     AdoptionApplication.createdAt := AdoptionApplication.createdAt old;
     AdoptionApplication.updatedAt := now |}.

(** [PUT /adoption/applications/:id/status]: the reply and the array
    afterwards. *)
Definition updateApplicationStatusRoute
  (adoptionApplications : list AdoptionApplication.t) (id : string)
  (status : AdoptionStatus) (notes : option string) (now : string)
  : Reply AdoptionApplication.t * list AdoptionApplication.t :=
  let notFound :=
    NotFound {| error := "NOT_FOUND";
                message := "Adoption application with ID " ++ id ++ " not found" |} in
  match findIndex (fun app => String.eqb (AdoptionApplication.id app) id)
          adoptionApplications with
  | None => (notFound, adoptionApplications)
  | Some applicationIndex =>
      match adoptionApplications !! applicationIndex with
      | Some old =>
          let updated := updatedApplication old status notes now in
          (Ok 200 updated, <[applicationIndex := updated]> adoptionApplications)
      | None => (notFound, adoptionApplications)
      end
  end.

End AdoptionRoutes.

(** ** routes/health.ts *)

Module HealthQuery.
Record t := mk {
    dogId : option string;
    type : option HealthType;
    veterinarian : option string;
    dateFrom : option string;
    dateTo : option string;
    page : Z;
    limit : Z
  }.
End HealthQuery.

Module VaccinationHistory.
(** The body of [GET /health/dogs/:dogId/vaccination-history];
      [upToDate] and [nextDue] may be [undefined]. *)
Record t := mk {
    dogId : string;
    vaccinations : list HealthRecord.t;
    upToDate : option bool;
    nextDue : option string
  }.
End VaccinationHistory.

Module VetAcc.
(** A value of [vetMap]. *)
Record t := mk {
    name : string;
    clinic : string;
    recordCount : Z;
    specialties : list HealthType
  }.
End VetAcc.

Module HealthRoutes.
Import JSArray.

Definition applyFilters (query : HealthQuery.t) (healthRecords : list HealthRecord.t)
  : list HealthRecord.t :=
  let filteredRecords := healthRecords in
  let filteredRecords :=
    filterIfTruthy (HealthQuery.dogId query)
      (fun d record => String.eqb (HealthRecord.dogId record) d) filteredRecords in
  let filteredRecords :=
    filterIfDefined (HealthQuery.type query)
      (fun ty record => HealthType_eqb (HealthRecord.type record) ty) filteredRecords in
  let filteredRecords :=
    filterIfTruthy (HealthQuery.veterinarian query)
      (fun v record =>
         JS.includes (JS.toLowerCase (HealthRecord.veterinarian record)) (JS.toLowerCase v))
      filteredRecords in
  let filteredRecords :=
    filterIfTruthy (HealthQuery.dateFrom query)
      (fun from record => JS.str_ge (HealthRecord.date record) from) filteredRecords in
  let filteredRecords :=
    filterIfTruthy (HealthQuery.dateTo query)
      (fun to record => JS.str_le (HealthRecord.date record) to) filteredRecords in
  filteredRecords.

(** [GET /health/records]. *)
Definition listHealthRecordsRoute (healthRecords : list HealthRecord.t)
  (query : HealthQuery.t) : Paginated HealthRecord.t :=
  paginate (applyFilters query healthRecords)
    (HealthQuery.page query) (HealthQuery.limit query).

(** [{ id: generateId(), ...recordData, ...timestamps }]. *)
Definition newRecord (id : string) (recordData : CreateHealthRecord.t)
  (timestamps : string * string) : HealthRecord.t :=
  {| HealthRecord.id := id;
     HealthRecord.dogId := CreateHealthRecord.dogId recordData;
     HealthRecord.type := CreateHealthRecord.type recordData;
     HealthRecord.date := CreateHealthRecord.date recordData;
     HealthRecord.veterinarian := CreateHealthRecord.veterinarian recordData;
     HealthRecord.clinic := CreateHealthRecord.clinic recordData;
     HealthRecord.description := CreateHealthRecord.description recordData;
     HealthRecord.medications := CreateHealthRecord.medications recordData;
     HealthRecord.cost := CreateHealthRecord.cost recordData;
     HealthRecord.followUpDate := CreateHealthRecord.followUpDate recordData;
     HealthRecord.notes := CreateHealthRecord.notes recordData;
     HealthRecord.attachments := CreateHealthRecord.attachments recordData;
     HealthRecord.createdAt := fst timestamps;
     HealthRecord.updatedAt := snd timestamps |}.

(** [POST /health/records]: the reply and the array afterwards. *)
Definition createHealthRecordRoute (mockDogs : list Dog.t)
  (healthRecords : list HealthRecord.t) (recordData : CreateHealthRecord.t)
  (freshId now : string) : Reply HealthRecord.t * list HealthRecord.t :=
  match findById Dog.id mockDogs (CreateHealthRecord.dogId recordData) with
  | None =>
      (NotFound {| error := "NOT_FOUND";
                   message := "Dog with ID "
                     ++ CreateHealthRecord.dogId recordData ++ " not found" |},
       healthRecords)
  | Some _ =>
      let timestamps := generateTimestamps now in
      let record := newRecord freshId recordData timestamps in
      (Ok 201 record, (healthRecords ++ [record])%list)
  end.

(** The vaccinations of a dog, most recent first. *)
Definition vaccinationsOf (healthRecords : list HealthRecord.t) (dogId : string)
  : list HealthRecord.t :=
  sort (fun a b => JSDate.compareDesc (HealthRecord.date a) (HealthRecord.date b))
    (List.filter
       (fun record => String.eqb (HealthRecord.dogId record) dogId
                      && HealthType_eqb (HealthRecord.type record) vaccination)
       healthRecords).

(** [new Date()] moved back by [setFullYear(getFullYear() - 1)]. *)
Definition oneYearAgo (tz : JSDate.TimeZone) (now : Z) : Z :=
  JSDate.setFullYear tz now (JSDate.getFullYear tz now - 1).

(** [new Date(s) > oneYearAgo]; a comparison with [NaN] is false. *)
Definition dateAfter (s : string) (t : Z) : bool :=
  match JSDate.getTime s with
  | Some ts => t <? ts
  | None => false
  end.

(** [GET /health/dogs/:dogId/vaccination-history]; [now] is the time value
    of [new Date()] and [tz] the host's time zone. *)
Definition getDogVaccinationHistoryRoute (mockDogs : list Dog.t)
  (healthRecords : list HealthRecord.t) (tz : JSDate.TimeZone) (now : Z)
  (dogId : string) : Reply VaccinationHistory.t :=
  match findById Dog.id mockDogs dogId with
  | None =>
      NotFound {| error := "NOT_FOUND";
                  message := "Dog with ID " ++ dogId ++ " not found" |}
  | Some _ =>
      let vaccinations := vaccinationsOf healthRecords dogId in
      let lastVaccination := head vaccinations in
      let upToDate :=
        match lastVaccination with
        | None => None
        | Some last => Some (dateAfter (HealthRecord.date last) (oneYearAgo tz now))
        end in
      let nextDue :=
        match lastVaccination with
        | None => None
        | Some last =>
            match HealthRecord.followUpDate last with
            | Some d => if JS.truthy d then Some d else None
            | None => None
            end
        end in
      Ok 200 {| VaccinationHistory.dogId := dogId;
                VaccinationHistory.vaccinations := vaccinations;
                VaccinationHistory.upToDate := upToDate;
                VaccinationHistory.nextDue := nextDue |}
  end.

(** [GET /health/records/:id]. *)
Definition getHealthRecordRoute (healthRecords : list HealthRecord.t) (id : string)
  : Reply HealthRecord.t :=
  match findById HealthRecord.id healthRecords id with
  | None =>
      NotFound {| error := "NOT_FOUND";
                  message := "Health record with ID " ++ id ++ " not found" |}
  | Some record => Ok 200 record
  end.

(** The key [`${record.veterinarian}-${record.clinic}`]. *)
Definition vetKey (record : HealthRecord.t) : string :=
  HealthRecord.veterinarian record ++ "-" ++ HealthRecord.clinic record.

(** The body of [healthRecords.forEach(record => …)]. *)
Definition addVet (vetMap : list (string * VetAcc.t)) (record : HealthRecord.t)
  : list (string * VetAcc.t) :=
  let key := vetKey record in
  let vetMap :=
    if negb (Map_has vetMap key)
    then Map_setNew vetMap key
           {| VetAcc.name := HealthRecord.veterinarian record;
              VetAcc.clinic := HealthRecord.clinic record;
              VetAcc.recordCount := 0;
              VetAcc.specialties := [] |}
    else vetMap in
  Map_update vetMap key
    (fun vet =>
       {| VetAcc.name := VetAcc.name vet;
          VetAcc.clinic := VetAcc.clinic vet;
          VetAcc.recordCount := VetAcc.recordCount vet + 1;
          VetAcc.specialties :=
            Set_add HealthType_eqb (VetAcc.specialties vet) (HealthRecord.type record) |}).

(** [GET /health/veterinarians]: the accumulators in map order (the reply
    copies the four fields of each). *)
Definition getVeterinariansRoute (healthRecords : list HealthRecord.t) : list VetAcc.t :=
  let vetMap := fold_left addVet healthRecords [] in
  map (fun kv => {| VetAcc.name := VetAcc.name (snd kv);
                    VetAcc.clinic := VetAcc.clinic (snd kv);
                    VetAcc.recordCount := VetAcc.recordCount (snd kv);
                    VetAcc.specialties := VetAcc.specialties (snd kv) |}) vetMap.

End HealthRoutes.

(** ** routes/training.ts *)

Module TrainingQuery.
Record t := mk {
    dogId : option string;
    type : option TrainingType;
    trainer : option string;
    status : option TrainingStatus;
    progress : option Progress;
    page : Z;
    limit : Z
  }.
End TrainingQuery.

Module TrainingProgress.
(** The body of [GET /training/dogs/:dogId/progress]. *)
Record t := mk {
    dogId : string;
    totalTrainings : Z;
    completedTrainings : Z;
    inProgressTrainings : Z;
    overallProgress : Progress;
    skills : list string;
    trainingRecords : list TrainingRecord.t
  }.
End TrainingProgress.

Module TrainerAcc.
(** A value of [trainerMap]. *)
Record t := mk {
    name : string;
    facility : option string;
    specialties : list TrainingType;
    recordCount : Z;
    progressScores : list Z
  }.
End TrainerAcc.

Module Trainer.
(** An element of the [trainers] array of [GET /training/trainers]. *)
Record t := mk {
    name : string;
    facility : option string;
    specialties : list TrainingType;
    recordCount : Z;
    averageProgress : Progress
  }.
End Trainer.

Module UpdateTrainingRecord.
(** The body schema of [PUT /training/records/:id]. *)
Record t := mk {
    status : option TrainingStatus;
    progress : option Progress;
    endDate : option string;
    skills : option (list string);
    notes : option string;
    certificates : option (list string)
  }.
End UpdateTrainingRecord.

Module TrainingRoutes.
Import JSArray.

Definition applyFilters (query : TrainingQuery.t) (trainingRecords : list TrainingRecord.t)
  : list TrainingRecord.t :=
  let filteredRecords := trainingRecords in
  let filteredRecords :=
    filterIfTruthy (TrainingQuery.dogId query)
      (fun d record => String.eqb (TrainingRecord.dogId record) d) filteredRecords in
  let filteredRecords :=
    filterIfDefined (TrainingQuery.type query)
      (fun ty record => TrainingType_eqb (TrainingRecord.type record) ty) filteredRecords in
  let filteredRecords :=
    filterIfTruthy (TrainingQuery.trainer query)
      (fun tr record =>
         JS.includes (JS.toLowerCase (TrainingRecord.trainer record)) (JS.toLowerCase tr))
      filteredRecords in
  let filteredRecords :=
    filterIfDefined (TrainingQuery.status query)
      (fun s record => TrainingStatus_eqb (TrainingRecord.status record) s) filteredRecords in
  let filteredRecords :=
    filterIfDefined (TrainingQuery.progress query)
      (fun p record => Progress_eqb (TrainingRecord.progress record) p) filteredRecords in
  filteredRecords.

(** [GET /training/records]. *)
Definition listTrainingRecordsRoute (trainingRecords : list TrainingRecord.t)
  (query : TrainingQuery.t) : Paginated TrainingRecord.t :=
  paginate (applyFilters query trainingRecords)
    (TrainingQuery.page query) (TrainingQuery.limit query).

Definition newRecord (id : string) (recordData : CreateTrainingRecord.t)
  (timestamps : string * string) : TrainingRecord.t :=
  {| TrainingRecord.id := id;
     TrainingRecord.dogId := CreateTrainingRecord.dogId recordData;
     TrainingRecord.type := CreateTrainingRecord.type recordData;
     TrainingRecord.trainer := CreateTrainingRecord.trainer recordData;
     TrainingRecord.facility := CreateTrainingRecord.facility recordData;
     TrainingRecord.startDate := CreateTrainingRecord.startDate recordData;
     TrainingRecord.endDate := CreateTrainingRecord.endDate recordData;
     TrainingRecord.status := CreateTrainingRecord.status recordData;
     TrainingRecord.skills := CreateTrainingRecord.skills recordData;
     TrainingRecord.progress := CreateTrainingRecord.progress recordData;
     TrainingRecord.cost := CreateTrainingRecord.cost recordData;
     TrainingRecord.notes := CreateTrainingRecord.notes recordData;
     TrainingRecord.certificates := CreateTrainingRecord.certificates recordData;
     TrainingRecord.createdAt := fst timestamps;
     TrainingRecord.updatedAt := snd timestamps |}.

(** [POST /training/records]: the reply and the array afterwards. *)
Definition createTrainingRecordRoute (mockDogs : list Dog.t)
  (trainingRecords : list TrainingRecord.t) (recordData : CreateTrainingRecord.t)
  (freshId now : string) : Reply TrainingRecord.t * list TrainingRecord.t :=
  match findById Dog.id mockDogs (CreateTrainingRecord.dogId recordData) with
  | None =>
      (NotFound {| error := "NOT_FOUND";
                   message := "Dog with ID "
                     ++ CreateTrainingRecord.dogId recordData ++ " not found" |},
       trainingRecords)
  | Some _ =>
      let timestamps := generateTimestamps now in
      let record := newRecord freshId recordData timestamps in
      (Ok 201 record, (trainingRecords ++ [record])%list)
  end.

(** The score of a progress level: the [switch] of the progress handler and
    the lookup table of the trainers handler agree on the four levels, and
    the [default] branch of the [switch] is out of reach of a [Progress]. *)
Definition progressScore (p : Progress) : Z :=
  match p with
  | poor => 1
  | fair => 2
  | good => 3
  | excellent => 4
  end.

(** [scores.reduce((a, b) => a + b, 0)]. *)
Definition sumScores (scores : list Z) : Z := fold_left Z.add scores 0.

(** The threshold chain that turns an average back into a level. *)
Definition bucket (avgScore : Q) : Progress :=
  if Qle_bool avgScore (3 # 2) then poor
  else if Qle_bool avgScore (5 # 2) then fair
  else if Qle_bool avgScore (7 # 2) then good
  else excellent.

(** [GET /training/dogs/:dogId/progress]. *)
Definition getDogTrainingProgressRoute (mockDogs : list Dog.t)
  (trainingRecords : list TrainingRecord.t) (dogId : string)
  : Reply TrainingProgress.t :=
  match findById Dog.id mockDogs dogId with
  | None =>
      NotFound {| error := "NOT_FOUND";
                  message := "Dog with ID " ++ dogId ++ " not found" |}
  | Some _ =>
      let dogTrainings :=
        List.filter (fun record => String.eqb (TrainingRecord.dogId record) dogId)
          trainingRecords in
      let completedTrainings :=
        List.filter (fun record => TrainingStatus_eqb (TrainingRecord.status record) completed)
          dogTrainings in
      let inProgressTrainings :=
        List.filter (fun record => TrainingStatus_eqb (TrainingRecord.status record) in_progress)
          dogTrainings in
      let allSkills :=
        fold_left
          (fun allSkills record =>
             fold_left (Set_add String.eqb) (TrainingRecord.skills record) allSkills)
          dogTrainings [] in
      let progressScores :=
        map (fun record => progressScore (TrainingRecord.progress record)) dogTrainings in
      let avgScore : Q :=
        if 0 <? Z.of_nat (length progressScores)
        then (inject_Z (sumScores progressScores)
              / inject_Z (Z.of_nat (length progressScores)))%Q
        else 2%Q in
      let overallProgress := bucket avgScore in
      Ok 200 {| TrainingProgress.dogId := dogId;
                TrainingProgress.totalTrainings := Z.of_nat (length dogTrainings);
                TrainingProgress.completedTrainings := Z.of_nat (length completedTrainings);
                TrainingProgress.inProgressTrainings := Z.of_nat (length inProgressTrainings);
                TrainingProgress.overallProgress := overallProgress;
                TrainingProgress.skills := allSkills;
                TrainingProgress.trainingRecords :=
                  sort (fun a b => JSDate.compareDesc (TrainingRecord.startDate a)
                                     (TrainingRecord.startDate b))
                    dogTrainings |}
  end.

(** [trainerMap]: a [Map] iterates in insertion order, so it is a list of
    key and value pairs with distinct keys. *)
Definition TrainerMap := list (string * TrainerAcc.t).

Definition Map_has (m : TrainerMap) (key : string) : bool :=
  existsb (fun kv => String.eqb (fst kv) key) m.

(** [m.set(key, v)] for a key the map does not hold yet. *)
Definition Map_setNew (m : TrainerMap) (key : string) (v : TrainerAcc.t) : TrainerMap :=
  (m ++ [(key, v)])%list.

(** The mutation of the entry [m.get(key)] by [f]. *)
Fixpoint Map_update (m : TrainerMap) (key : string) (f : TrainerAcc.t -> TrainerAcc.t)
  : TrainerMap :=
  match m with
  | [] => []
  | (k, v) :: m' =>
      if String.eqb k key then (k, f v) :: m' else (k, v) :: Map_update m' key f
  end.

(** The body of [trainingRecords.forEach(record => …)]. *)
Definition addRecord (trainerMap : TrainerMap) (record : TrainingRecord.t) : TrainerMap :=
  let key := TrainingRecord.trainer record in
  let trainerMap :=
    if negb (Map_has trainerMap key)
    then Map_setNew trainerMap key
           {| TrainerAcc.name := TrainingRecord.trainer record;
              TrainerAcc.facility := TrainingRecord.facility record;
              TrainerAcc.specialties := [];
              TrainerAcc.recordCount := 0;
              TrainerAcc.progressScores := [] |}
    else trainerMap in
  Map_update trainerMap key
    (fun trainer =>
       {| TrainerAcc.name := TrainerAcc.name trainer;
          TrainerAcc.facility := TrainerAcc.facility trainer;
          TrainerAcc.specialties :=
            Set_add TrainingType_eqb (TrainerAcc.specialties trainer)
              (TrainingRecord.type record);
          TrainerAcc.recordCount := TrainerAcc.recordCount trainer + 1;
          TrainerAcc.progressScores :=
            (TrainerAcc.progressScores trainer
             ++ [progressScore (TrainingRecord.progress record)])%list |}).

(** The [map] callback that turns an accumulator into a trainer. *)
Definition summarize (trainer : TrainerAcc.t) : Trainer.t :=
  let avgScore : Q :=
    (inject_Z (sumScores (TrainerAcc.progressScores trainer))
     / inject_Z (Z.of_nat (length (TrainerAcc.progressScores trainer))))%Q in
  {| Trainer.name := TrainerAcc.name trainer;
     Trainer.facility := TrainerAcc.facility trainer;
     Trainer.specialties := TrainerAcc.specialties trainer;
     Trainer.recordCount := TrainerAcc.recordCount trainer;
     Trainer.averageProgress := bucket avgScore |}.

(** [GET /training/trainers]. *)
Definition getTrainersRoute (trainingRecords : list TrainingRecord.t) : list Trainer.t :=
  let trainerMap := fold_left addRecord trainingRecords [] in
  map (fun kv => summarize (snd kv)) trainerMap.

(** [GET /training/records/:id]. *)
Definition getTrainingRecordRoute (trainingRecords : list TrainingRecord.t) (id : string)
  : Reply TrainingRecord.t :=
  match findById TrainingRecord.id trainingRecords id with
  | None =>
      NotFound {| error := "NOT_FOUND";
                  message := "Training record with ID " ++ id ++ " not found" |}
  | Some record => Ok 200 record
  end.

(** The patch's value for an optional property, when it has the key. *)
Definition spreadOptional {B : Type} (old patch : option B) : option B :=
  match patch with
  | Some v => Some v
  | None => old
  end.

(** [{ ...trainingRecords[recordIndex], ...updateData, updatedAt: … }]. *)
Definition updatedRecord (old : TrainingRecord.t) (updateData : UpdateTrainingRecord.t)
  (now : string) : TrainingRecord.t :=
  {| TrainingRecord.id := TrainingRecord.id old;
     TrainingRecord.dogId := TrainingRecord.dogId old;
     TrainingRecord.type := TrainingRecord.type old;
     TrainingRecord.trainer := TrainingRecord.trainer old;
     TrainingRecord.facility := TrainingRecord.facility old;
     TrainingRecord.startDate := TrainingRecord.startDate old;
     TrainingRecord.endDate :=
       spreadOptional (TrainingRecord.endDate old) (UpdateTrainingRecord.endDate updateData);
     TrainingRecord.status :=
       match UpdateTrainingRecord.status updateData with
       | Some s => s
       | None => TrainingRecord.status old
       end;
     TrainingRecord.skills :=
       match UpdateTrainingRecord.skills updateData with
       | Some l => l
       | None => TrainingRecord.skills old
       end;
     TrainingRecord.progress :=
       match UpdateTrainingRecord.progress updateData with
       | Some p => p
       | None => TrainingRecord.progress old
       end;
     TrainingRecord.cost := TrainingRecord.cost old;
     TrainingRecord.notes :=
       spreadOptional (TrainingRecord.notes old) (UpdateTrainingRecord.notes updateData);
     TrainingRecord.certificates :=
       spreadOptional (TrainingRecord.certificates old)
         (UpdateTrainingRecord.certificates updateData);
     TrainingRecord.createdAt := TrainingRecord.createdAt old;
     TrainingRecord.updatedAt := now |}.

(** [PUT /training/records/:id]: the reply and the array afterwards. *)
Definition updateTrainingRecordRoute (trainingRecords : list TrainingRecord.t)
  (id : string) (updateData : UpdateTrainingRecord.t) (now : string)
  : Reply TrainingRecord.t * list TrainingRecord.t :=
  let notFound :=
    NotFound {| error := "NOT_FOUND";
                message := "Training record with ID " ++ id ++ " not found" |} in
  match findIndex (fun record => String.eqb (TrainingRecord.id record) id)
          trainingRecords with
  | None => (notFound, trainingRecords)
  | Some recordIndex =>
      match trainingRecords !! recordIndex with
      | Some old =>
          let updated := updatedRecord old updateData now in
          (Ok 200 updated, <[recordIndex := updated]> trainingRecords)
      | None => (notFound, trainingRecords)
      end
  end.

End TrainingRoutes.

(** ** routes/breeds.ts *)

Inductive BreedGroup :=
  sporting | hound | working | terrier | toy | non_sporting | herding | mixed.

Definition BreedGroup_eqb (a b : BreedGroup) : bool :=
  match a, b with
  | sporting, sporting | hound, hound | working, working | terrier, terrier
  | toy, toy | non_sporting, non_sporting | herding, herding | mixed, mixed => true
  | _, _ => false
  end.

Module Exercise.
Inductive t := low | moderate | high | very_high.
Definition eqb (a b : t) : bool :=
  match a, b with
  | low, low | moderate, moderate | high, high | very_high, very_high => true
  | _, _ => false
  end.
End Exercise.

Module Grooming.
Inductive t := low | moderate | high.
End Grooming.

Module Trainability.
Inductive t := low | moderate | high | very_high.
End Trainability.

Module LifeSpan.
Record t := mk { min : Z; max : Z }.
End LifeSpan.

Module Breed.
Record t := mk {
    id : string;
    name : string;
    group : BreedGroup;
    origin : string;
    size : Size;
    lifeSpan : LifeSpan.t;
    temperament : list string;
    exerciseNeeds : Exercise.t;
    groomingNeeds : Grooming.t;
    trainability : Trainability.t;
    goodWithKids : bool;
    goodWithPets : bool;
    description : string;
    image : option string;
    createdAt : string;
    updatedAt : string
  }.
End Breed.

Module BreedQuery.
Record t := mk {
    group : option BreedGroup;
    size : option Size;
    exerciseNeeds : option Exercise.t;
    goodWithKids : option bool;
    goodWithPets : option bool
  }.
End BreedQuery.

Module BreedGroupInfo.
(** An element of the [groups] array of [GET /breeds/groups]. *)
Record t := mk { name : BreedGroup; description : string; count : Z }.
End BreedGroupInfo.

Module BreedsRoutes.
Import JSArray.

(** The callback of [GET /breeds], applied to the validated query. *)
Definition listBreedsRoute (mockBreeds : list Breed.t) (query : BreedQuery.t)
  : list Breed.t :=
  let filteredBreeds := mockBreeds in
  let filteredBreeds :=
    filterIfDefined (BreedQuery.group query)
      (fun g breed => BreedGroup_eqb (Breed.group breed) g) filteredBreeds in
  let filteredBreeds :=
    filterIfDefined (BreedQuery.size query)
      (fun s breed => Size_eqb (Breed.size breed) s) filteredBreeds in
  let filteredBreeds :=
    filterIfDefined (BreedQuery.exerciseNeeds query)
      (fun e breed => Exercise.eqb (Breed.exerciseNeeds breed) e) filteredBreeds in
  let filteredBreeds :=
    filterIfDefined (BreedQuery.goodWithKids query)
      (fun k breed => Bool.eqb (Breed.goodWithKids breed) k) filteredBreeds in
  let filteredBreeds :=
    filterIfDefined (BreedQuery.goodWithPets query)
      (fun p breed => Bool.eqb (Breed.goodWithPets breed) p) filteredBreeds in
  filteredBreeds.

(** The callback of [GET /breeds/:id], applied to a validated id. *)
Definition getBreedRoute (mockBreeds : list Breed.t) (id : string) : Reply Breed.t :=
  match findById Breed.id mockBreeds id with
  | None =>
      NotFound {| error := "NOT_FOUND";
                  message := "Breed with ID " ++ id ++ " not found" |}
  | Some breed => Ok 200 breed
  end.

(** The callback registered for [GET /breeds/search], applied to the
    validated [q] and [limit]; see [BreedsRouter] for the requests that
    reach it. *)
Definition searchBreedsRoute (mockBreeds : list Breed.t) (q : string) (limit : Z)
  : list Breed.t :=
  JS.slice
    (List.filter
       (fun breed => JS.includes (JS.toLowerCase (Breed.name breed)) (JS.toLowerCase q))
       mockBreeds)
    0 limit.

(** [acc[breed.group] = (acc[breed.group] || 0) + 1] on an object whose
    keys, the group names, are listed in insertion order by
    [Object.entries]. *)
Fixpoint countGroup (acc : list (BreedGroup * Z)) (group : BreedGroup)
  : list (BreedGroup * Z) :=
  match acc with
  | [] => [(group, 0 + 1)]
  | (g, n) :: acc' =>
      if BreedGroup_eqb g group then (g, n + 1) :: acc'
      else (g, n) :: countGroup acc' group
  end.

(** [groupDescriptions[name]]; every group has a description, so the
    fallback ["Mixed breed dogs"] is never used. *)
Definition groupDescriptions (name : BreedGroup) : string :=
  match name with
  | sporting => "Dogs bred for hunting and retrieving game"
  | hound => "Dogs bred for hunting by scent or sight"
  | working =>
      "Dogs bred for specific jobs like guarding, pulling sleds, or water rescue"
  | terrier => "Dogs bred to hunt and kill vermin"
  | toy => "Small companion dogs bred primarily for companionship"
  | non_sporting => "Diverse group of dogs that don't fit into other categories"
  | herding => "Dogs bred to control the movement of livestock"
  | mixed => "Dogs with mixed breed heritage"
  end.

(** The callback registered for [GET /breeds/groups]; see [BreedsRouter]
    for the requests that reach it. *)
Definition getBreedGroupsRoute (mockBreeds : list Breed.t) : list BreedGroupInfo.t :=
  let groupCounts :=
    fold_left (fun acc breed => countGroup acc (Breed.group breed)) mockBreeds [] in
  map (fun entry =>
         {| BreedGroupInfo.name := fst entry;
            BreedGroupInfo.description := groupDescriptions (fst entry);
            BreedGroupInfo.count := snd entry |})
    groupCounts.

End BreedsRoutes.

(** *** The router of routes/breeds.ts

    [breedsRoutes.openapi(route, callback)] is called for "/", "/{id}",
    "/search" and "/groups", in this order.  A GET request is answered by the
    first registered route whose path matches: its validators run, a failed
    validation is answered 400, and otherwise its callback answers; none of
    the four callbacks passes the request on.  "/{id}" matches every path of
    one segment, and its validator is [z.string().uuid()].

    A request is its path below /breeds, split into segments, together with
    what the query schemas of "/" and of "/search" make of its query string,
    [None] when the schema rejects it. *)

Module BreedsRouter.

Inductive Segment :=
  | literal (s : string)
  | parameter (name : string).

Inductive Route := listBreeds | getBreed | searchBreeds | getBreedGroups.

(** The routes and their paths, in the order of registration. *)
Definition routes : list (Route * list Segment) :=
  [ (listBreeds, []);
    (getBreed, [parameter "id"]);
    (searchBreeds, [literal "search"]);
    (getBreedGroups, [literal "groups"]) ].

Fixpoint matchesPath (pattern : list Segment) (path : list string) : bool :=
  match pattern, path with
  | [], [] => true
  | literal s :: pattern', segment :: path' =>
      (String.eqb s segment && matchesPath pattern' path')%bool
  | parameter _ :: pattern', _ :: path' => matchesPath pattern' path'
  | _, _ => false
  end.

(** The route that answers a path. *)
Definition routeOf (path : list string) : option Route :=
  option_map fst (List.find (fun route => matchesPath (snd route) path) routes).

Record Request := {
    path : list string;
    listQuery : option BreedQuery.t;
    searchQuery : option (string * Z)
  }.

Inductive Response :=
  | breedsReply (breeds : list Breed.t)
  | breedReply (reply : Reply Breed.t)
  | groupsReply (groups : list BreedGroupInfo.t)
  | badRequest
  | noRoute.

(** [isUuid] is the validator of the id parameter. *)
Definition handle (isUuid : string -> bool) (mockBreeds : list Breed.t) (request : Request)
  : Response :=
  match routeOf (path request) with
  | None => noRoute
  | Some listBreeds =>
      match listQuery request with
      | Some query => breedsReply (BreedsRoutes.listBreedsRoute mockBreeds query)
      | None => badRequest
      end
  | Some getBreed =>
      match path request with
      | [id] =>
          if isUuid id then breedReply (BreedsRoutes.getBreedRoute mockBreeds id)
          else badRequest
      | _ => noRoute
      end
  | Some searchBreeds =>
      match searchQuery request with
      | Some (q, limit) => breedsReply (BreedsRoutes.searchBreedsRoute mockBreeds q limit)
      | None => badRequest
      end
  | Some getBreedGroups => groupsReply (BreedsRoutes.getBreedGroupsRoute mockBreeds)
  end.

End BreedsRouter.

(** ** Replies on the wire

    [c.json(body)] sends [JSON.stringify(body)]: a property whose value is
    [undefined] is left out of the object.  The response schemas the routes
    declare are read as validators of such values: a [z.object] requires
    each property that is not [.optional()], and ignores unknown ones.
    String formats ([uuid], [date], [datetime], [url]) and numeric ranges
    are not checked here, so a value this validator refuses is refused by
    the declared schema as well. *)

#[local] Unset Elimination Schemes.

Inductive JSON :=
  | JNull
  | JBool (b : bool)
  | JNumber (n : Q)
  | JString (s : string)
  | JArray (items : list JSON)
  | JObject (properties : list (string * JSON)).

Inductive Schema :=
  | SString
  | SBoolean
  | SNumber
  | SArray (item : Schema)
  | SObject (shape : list (string * (Schema * bool))).

#[local] Set Elimination Schemes.

(** A property of a [z.object] shape: required, or [.optional()]. *)
Definition required (key : string) (s : Schema) : string * (Schema * bool) :=
  (key, (s, false)).
Definition optional (key : string) (s : Schema) : string * (Schema * bool) :=
  (key, (s, true)).

Fixpoint property (key : string) (properties : list (string * JSON)) : option JSON :=
  match properties with
  | [] => None
  | (k, v) :: rest => if String.eqb k key then Some v else property key rest
  end.

Fixpoint conforms (s : Schema) (j : JSON) {struct s} : bool :=
  match s, j with
  | SString, JString _ => true
  | SBoolean, JBool _ => true
  | SNumber, JNumber _ => true
  | SArray item, JArray items => forallb (conforms item) items
  | SObject shape, JObject properties =>
      (fix each (shape : list (string * (Schema * bool))) : bool :=
         match shape with
         | [] => true
         | (key, (s', isOptional)) :: shape' =>
             match property key properties with
             | Some v => conforms s' v
             | None => isOptional
             end && each shape'
         end) shape
  | _, _ => false
  end.

(** The properties of an object literal, without the [undefined] ones. *)
Definition defined (key : string) (v : option JSON) : list (string * JSON) :=
  match v with
  | Some j => [(key, j)]
  | None => []
  end.

Definition healthTypeName (ty : HealthType) : string :=
  match ty with
  | vaccination => "vaccination"
  | checkup => "checkup"
  | treatment => "treatment"
  | surgery => "surgery"
  | emergency => "emergency"
  | dental => "dental"
  | grooming => "grooming"
  end.

Definition Medication_toJSON (m : Medication.t) : JSON :=
  JObject [ ("name", JString (Medication.name m));
            ("dosage", JString (Medication.dosage m));
            ("frequency", JString (Medication.frequency m)) ].

Definition HealthRecord_toJSON (r : HealthRecord.t) : JSON :=
  JObject
    ([ ("id", JString (HealthRecord.id r));
       ("dogId", JString (HealthRecord.dogId r));
       ("type", JString (healthTypeName (HealthRecord.type r)));
       ("date", JString (HealthRecord.date r));
       ("veterinarian", JString (HealthRecord.veterinarian r));
       ("clinic", JString (HealthRecord.clinic r));
       ("description", JString (HealthRecord.description r)) ]
     ++ defined "medications"
          (option_map (fun l => JArray (map Medication_toJSON l)) (HealthRecord.medications r))
     ++ defined "cost" (option_map JNumber (HealthRecord.cost r))
     ++ defined "followUpDate" (option_map JString (HealthRecord.followUpDate r))
     ++ defined "notes" (option_map JString (HealthRecord.notes r))
     ++ defined "attachments"
          (option_map (fun l => JArray (map JString l)) (HealthRecord.attachments r))
     ++ [ ("createdAt", JString (HealthRecord.createdAt r));
          ("updatedAt", JString (HealthRecord.updatedAt r)) ])%list.

(** [HealthRecordSchema]. *)
Definition HealthRecordSchema : Schema :=
  SObject
    [ required "id" SString; required "dogId" SString; required "type" SString;
      required "date" SString; required "veterinarian" SString;
      required "clinic" SString; required "description" SString;
      optional "medications"
        (SArray (SObject [ required "name" SString; required "dosage" SString;
                           required "frequency" SString ]));
      optional "cost" SNumber; optional "followUpDate" SString;
      optional "notes" SString; optional "attachments" (SArray SString);
      required "createdAt" SString; required "updatedAt" SString ].

(** The 200 response schema of
    [GET /health/dogs/:dogId/vaccination-history]. *)
Definition VaccinationHistorySchema : Schema :=
  SObject
    [ required "dogId" SString;
      required "vaccinations" (SArray HealthRecordSchema);
      required "upToDate" SBoolean;
      optional "nextDue" SString ].

(** [JSON.stringify] of the body [{ dogId, vaccinations, upToDate, nextDue }]. *)
Definition VaccinationHistory_toJSON (body : VaccinationHistory.t) : JSON :=
  JObject
    ([ ("dogId", JString (VaccinationHistory.dogId body));
       ("vaccinations",
        JArray (map HealthRecord_toJSON (VaccinationHistory.vaccinations body))) ]
     ++ defined "upToDate" (option_map JBool (VaccinationHistory.upToDate body))
     ++ defined "nextDue" (option_map JString (VaccinationHistory.nextDue body)))%list.

(** * The application state

    The seed arrays of data/mockData.ts are module constants that no handler
    changes.  Each routes module starts from a copy of its seed,
    [let dogs = [...mockDogs]] in routes/dogs.ts,
    [let adoptionApplications = [...mockAdoptionApplications]] in
    routes/adoption.ts, [let healthRecords = [...mockHealthRecords]] in
    routes/health.ts and [let trainingRecords = [...mockTrainingRecords]] in
    routes/training.ts, and works on that copy.  The Dog collection is
    [dogs], the array dogs are created in, updated in and deleted from; the
    handlers of the other three modules look dogs up in [mockDogs]. *)

Module App.

Record State := mk {
    mockDogs : list Dog.t;
    dogs : list Dog.t;
    adoptionApplications : list AdoptionApplication.t;
    healthRecords : list HealthRecord.t;
    trainingRecords : list TrainingRecord.t
  }.

(** The state when the modules have been loaded. *)
Definition start (seedDogs : list Dog.t) (seedApplications : list AdoptionApplication.t)
  (seedHealthRecords : list HealthRecord.t) (seedTrainingRecords : list TrainingRecord.t)
  : State :=
  {| mockDogs := seedDogs;
     dogs := seedDogs;
     adoptionApplications := seedApplications;
     healthRecords := seedHealthRecords;
     trainingRecords := seedTrainingRecords |}.

Definition withDogs (s : State) (dogs' : list Dog.t) : State :=
  {| mockDogs := mockDogs s;
     dogs := dogs';
     adoptionApplications := adoptionApplications s;
     healthRecords := healthRecords s;
     trainingRecords := trainingRecords s |}.

Definition withAdoptionApplications (s : State)
  (adoptionApplications' : list AdoptionApplication.t) : State :=
  {| mockDogs := mockDogs s;
     dogs := dogs s;
     adoptionApplications := adoptionApplications';
     healthRecords := healthRecords s;
     trainingRecords := trainingRecords s |}.

Definition withHealthRecords (s : State) (healthRecords' : list HealthRecord.t) : State :=
  {| mockDogs := mockDogs s;
     dogs := dogs s;
     adoptionApplications := adoptionApplications s;
     healthRecords := healthRecords';
     trainingRecords := trainingRecords s |}.

Definition withTrainingRecords (s : State) (trainingRecords' : list TrainingRecord.t)
  : State :=
  {| mockDogs := mockDogs s;
     dogs := dogs s;
     adoptionApplications := adoptionApplications s;
     healthRecords := healthRecords s;
     trainingRecords := trainingRecords' |}.

(** [POST /dogs], [DELETE /dogs/:id] and [GET /dogs/:id] work on [dogs]. *)
Definition createDog (s : State) (dogData : CreateDog.t) (freshId now : string)
  : Reply Dog.t * State :=
  let result := DogsRoutes.createDogRoute (dogs s) dogData freshId now in
  (fst result, withDogs s (snd result)).

Definition deleteDog (s : State) (id : string) : Reply unit * State :=
  let result := DogsRoutes.deleteDogRoute (dogs s) id in
  (fst result, withDogs s (snd result)).

Definition getDog (s : State) (id : string) : Reply Dog.t :=
  DogsRoutes.getDogRoute (dogs s) id.

(** [POST /health/records], [POST /training/records] and
    [POST /adoption/applications] look the dog up in [mockDogs]. *)
Definition createHealthRecord (s : State) (recordData : CreateHealthRecord.t)
  (freshId now : string) : Reply HealthRecord.t * State :=
  let result :=
    HealthRoutes.createHealthRecordRoute (mockDogs s) (healthRecords s) recordData
      freshId now in
  (fst result, withHealthRecords s (snd result)).

Definition createTrainingRecord (s : State) (recordData : CreateTrainingRecord.t)
  (freshId now : string) : Reply TrainingRecord.t * State :=
  let result :=
    TrainingRoutes.createTrainingRecordRoute (mockDogs s) (trainingRecords s) recordData
      freshId now in
  (fst result, withTrainingRecords s (snd result)).

Definition createAdoptionApplication (s : State)
  (applicationData : CreateAdoptionApplication.t) (freshId now : string)
  : Reply AdoptionApplication.t * State :=
  let result :=
    AdoptionRoutes.createAdoptionApplicationRoute (mockDogs s) (adoptionApplications s)
      applicationData freshId now in
  (fst result, withAdoptionApplications s (snd result)).




End App.

(** * Specification vocabulary *)

(** The values the schemas let through: [page >= 1] and [1 <= limit <= 100]. *)
Definition validPaging (page limit : Z) : Prop :=
  1 <= page /\ 1 <= limit <= 100.

Definition clamp (x lo hi : Z) : Z := Z.min (Z.max x lo) hi.

(** What a paginated reply [r] owes to the filtered sequence it windows. *)
Record WindowLaw {A : Type} (filtered : list A) (pg lim : Z) (r : Paginated A) : Prop := {
  wl_items :
    data r = firstn (Z.to_nat lim) (skipn (Z.to_nat ((pg - 1) * lim)) filtered);
  wl_out_of_range :
    Z.of_nat (length filtered) <= (pg - 1) * lim -> data r = [];
  wl_length :
    Z.of_nat (length (data r))
    = clamp lim 0 (Z.max 0 (Z.of_nat (length filtered) - (pg - 1) * lim));
  wl_page : page (pagination r) = pg;
  wl_limit : limit (pagination r) = lim;
  wl_total : total (pagination r) = Z.of_nat (length filtered);
  wl_totalPages :
    (totalPages (pagination r) - 1) * lim < Z.of_nat (length filtered)
    /\ Z.of_nat (length filtered) <= totalPages (pagination r) * lim;
  wl_totalPages_empty :
    filtered = [] -> totalPages (pagination r) = 0
}.


(** ** Criteria as predicates

    The specification reads a query as a set of matchers combined with a
    logical AND.  [matches] is that conjunction, written from the
    specification's words; the handlers' filter chains are compared with
    it. *)

(** A matcher over an optional criterion: absent (or, for a string tested
    for truthiness, empty) criteria accept every record. *)
Definition matchTruthy {A : Type} (o : option string) (pred : string -> A -> bool)
  (x : A) : bool :=
  match o with
  | Some s => if JS.truthy s then pred s x else true
  | None => true
  end.

Definition matchDefined {A B : Type} (o : option B) (pred : B -> A -> bool) (x : A) : bool :=
  match o with
  | Some v => pred v x
  | None => true
  end.

(** The union of two criteria on one field, and whether at most one of the
    two is supplied. *)
Definition orElse {B : Type} (a b : option B) : option B :=
  match a with
  | Some v => Some v
  | None => b
  end.

Definition atMostOne {B : Type} (a b : option B) : bool :=
  match a, b with
  | Some _, Some _ => false
  | _, _ => true
  end.

Module DogsSpec.

Definition noCriteria (page limit : Z) : DogQuery.t :=
  {| DogQuery.breed := None; DogQuery.age_min := None; DogQuery.age_max := None;
     DogQuery.weight_min := None; DogQuery.weight_max := None;
     DogQuery.gender := None; DogQuery.size := None; DogQuery.isNeutered := None;
     DogQuery.page := page; DogQuery.limit := limit |}.

Definition matches (q : DogQuery.t) (dog : Dog.t) : bool :=
  matchTruthy (DogQuery.breed q)
    (fun b dog => JS.includes (JS.toLowerCase (Dog.breed dog)) (JS.toLowerCase b)) dog
  && matchDefined (DogQuery.age_min q) (fun m dog => m <=? Dog.age dog) dog
  && matchDefined (DogQuery.age_max q) (fun m dog => Dog.age dog <=? m) dog
  && matchDefined (DogQuery.weight_min q) (fun m dog => Qle_bool m (Dog.weight dog)) dog
  && matchDefined (DogQuery.weight_max q) (fun m dog => Qle_bool (Dog.weight dog) m) dog
  && matchDefined (DogQuery.gender q) (fun g dog => Gender_eqb (Dog.gender dog) g) dog
  && matchDefined (DogQuery.size q) (fun s dog => Size_eqb (Dog.size dog) s) dog
  && matchDefined (DogQuery.isNeutered q) (fun n dog => Bool.eqb (Dog.isNeutered dog) n) dog.

(** The query that carries the criteria of both [a] and [b]. *)
Definition union (a b : DogQuery.t) : DogQuery.t :=
  {| DogQuery.breed := orElse (DogQuery.breed a) (DogQuery.breed b);
     DogQuery.age_min := orElse (DogQuery.age_min a) (DogQuery.age_min b);
     DogQuery.age_max := orElse (DogQuery.age_max a) (DogQuery.age_max b);
     DogQuery.weight_min := orElse (DogQuery.weight_min a) (DogQuery.weight_min b);
     DogQuery.weight_max := orElse (DogQuery.weight_max a) (DogQuery.weight_max b);
     DogQuery.gender := orElse (DogQuery.gender a) (DogQuery.gender b);
     DogQuery.size := orElse (DogQuery.size a) (DogQuery.size b);
     DogQuery.isNeutered := orElse (DogQuery.isNeutered a) (DogQuery.isNeutered b);
     DogQuery.page := DogQuery.page a; DogQuery.limit := DogQuery.limit a |}.

(** No field is constrained by both [a] and [b]. *)
Definition disjoint (a b : DogQuery.t) : bool :=
  atMostOne (DogQuery.breed a) (DogQuery.breed b)
  && atMostOne (DogQuery.age_min a) (DogQuery.age_min b)
  && atMostOne (DogQuery.age_max a) (DogQuery.age_max b)
  && atMostOne (DogQuery.weight_min a) (DogQuery.weight_min b)
  && atMostOne (DogQuery.weight_max a) (DogQuery.weight_max b)
  && atMostOne (DogQuery.gender a) (DogQuery.gender b)
  && atMostOne (DogQuery.size a) (DogQuery.size b)
  && atMostOne (DogQuery.isNeutered a) (DogQuery.isNeutered b).

End DogsSpec.

Module HealthSpec.

Definition noCriteria (page limit : Z) : HealthQuery.t :=
  {| HealthQuery.dogId := None; HealthQuery.type := None;
     HealthQuery.veterinarian := None; HealthQuery.dateFrom := None;
     HealthQuery.dateTo := None; HealthQuery.page := page; HealthQuery.limit := limit |}.

Definition matches (q : HealthQuery.t) (record : HealthRecord.t) : bool :=
  matchTruthy (HealthQuery.dogId q)
    (fun d record => String.eqb (HealthRecord.dogId record) d) record
  && matchDefined (HealthQuery.type q)
       (fun ty record => HealthType_eqb (HealthRecord.type record) ty) record
  && matchTruthy (HealthQuery.veterinarian q)
       (fun v record =>
          JS.includes (JS.toLowerCase (HealthRecord.veterinarian record)) (JS.toLowerCase v))
       record
  && matchTruthy (HealthQuery.dateFrom q)
       (fun from record => JS.str_ge (HealthRecord.date record) from) record
  && matchTruthy (HealthQuery.dateTo q)
       (fun to record => JS.str_le (HealthRecord.date record) to) record.

Definition union (a b : HealthQuery.t) : HealthQuery.t :=
  {| HealthQuery.dogId := orElse (HealthQuery.dogId a) (HealthQuery.dogId b);
     HealthQuery.type := orElse (HealthQuery.type a) (HealthQuery.type b);
     HealthQuery.veterinarian :=
       orElse (HealthQuery.veterinarian a) (HealthQuery.veterinarian b);
     HealthQuery.dateFrom := orElse (HealthQuery.dateFrom a) (HealthQuery.dateFrom b);
     HealthQuery.dateTo := orElse (HealthQuery.dateTo a) (HealthQuery.dateTo b);
     HealthQuery.page := HealthQuery.page a; HealthQuery.limit := HealthQuery.limit a |}.

Definition disjoint (a b : HealthQuery.t) : bool :=
  atMostOne (HealthQuery.dogId a) (HealthQuery.dogId b)
  && atMostOne (HealthQuery.type a) (HealthQuery.type b)
  && atMostOne (HealthQuery.veterinarian a) (HealthQuery.veterinarian b)
  && atMostOne (HealthQuery.dateFrom a) (HealthQuery.dateFrom b)
  && atMostOne (HealthQuery.dateTo a) (HealthQuery.dateTo b).

End HealthSpec.

Module TrainingSpec.

Definition noCriteria (page limit : Z) : TrainingQuery.t :=
  {| TrainingQuery.dogId := None; TrainingQuery.type := None;
     TrainingQuery.trainer := None; TrainingQuery.status := None;
     TrainingQuery.progress := None; TrainingQuery.page := page;
     TrainingQuery.limit := limit |}.

Definition matches (q : TrainingQuery.t) (record : TrainingRecord.t) : bool :=
  matchTruthy (TrainingQuery.dogId q)
    (fun d record => String.eqb (TrainingRecord.dogId record) d) record
  && matchDefined (TrainingQuery.type q)
       (fun ty record => TrainingType_eqb (TrainingRecord.type record) ty) record
  && matchTruthy (TrainingQuery.trainer q)
       (fun tr record =>
          JS.includes (JS.toLowerCase (TrainingRecord.trainer record)) (JS.toLowerCase tr))
       record
  && matchDefined (TrainingQuery.status q)
       (fun s record => TrainingStatus_eqb (TrainingRecord.status record) s) record
  && matchDefined (TrainingQuery.progress q)
       (fun p record => Progress_eqb (TrainingRecord.progress record) p) record.

Definition union (a b : TrainingQuery.t) : TrainingQuery.t :=
  {| TrainingQuery.dogId := orElse (TrainingQuery.dogId a) (TrainingQuery.dogId b);
     TrainingQuery.type := orElse (TrainingQuery.type a) (TrainingQuery.type b);
     TrainingQuery.trainer := orElse (TrainingQuery.trainer a) (TrainingQuery.trainer b);
     TrainingQuery.status := orElse (TrainingQuery.status a) (TrainingQuery.status b);
     TrainingQuery.progress := orElse (TrainingQuery.progress a) (TrainingQuery.progress b);
     TrainingQuery.page := TrainingQuery.page a; TrainingQuery.limit := TrainingQuery.limit a |}.

Definition disjoint (a b : TrainingQuery.t) : bool :=
  atMostOne (TrainingQuery.dogId a) (TrainingQuery.dogId b)
  && atMostOne (TrainingQuery.type a) (TrainingQuery.type b)
  && atMostOne (TrainingQuery.trainer a) (TrainingQuery.trainer b)
  && atMostOne (TrainingQuery.status a) (TrainingQuery.status b)
  && atMostOne (TrainingQuery.progress a) (TrainingQuery.progress b).

End TrainingSpec.

Module AdoptionSpec.

Definition noCriteria (page limit : Z) : AdoptionQuery.t :=
  {| AdoptionQuery.status := None; AdoptionQuery.dogId := None;
     AdoptionQuery.page := page; AdoptionQuery.limit := limit |}.

Definition matches (q : AdoptionQuery.t) (app : AdoptionApplication.t) : bool :=
  matchDefined (AdoptionQuery.status q)
    (fun s app => AdoptionStatus_eqb (AdoptionApplication.status app) s) app
  && matchTruthy (AdoptionQuery.dogId q)
       (fun d app => String.eqb (AdoptionApplication.dogId app) d) app.

Definition union (a b : AdoptionQuery.t) : AdoptionQuery.t :=
  {| AdoptionQuery.status := orElse (AdoptionQuery.status a) (AdoptionQuery.status b);
     AdoptionQuery.dogId := orElse (AdoptionQuery.dogId a) (AdoptionQuery.dogId b);
     AdoptionQuery.page := AdoptionQuery.page a; AdoptionQuery.limit := AdoptionQuery.limit a |}.

Definition disjoint (a b : AdoptionQuery.t) : bool :=
  atMostOne (AdoptionQuery.status a) (AdoptionQuery.status b)
  && atMostOne (AdoptionQuery.dogId a) (AdoptionQuery.dogId b).

End AdoptionSpec.

(** ** Laws of a filter over criteria

    [Composable]: filtering by [a] and then by [b] keeps the records that
    match both, equals one pass with the criteria of both when no field is
    constrained twice, does not depend on the order of the two passes, and
    a query without criteria keeps every record. *)
Definition Composable {C A : Type} (applyFilters : C -> list A -> list A)
  (matches : C -> A -> bool) (union : C -> C -> C) (disjoint : C -> C -> bool)
  (noCriteria : Z -> Z -> C) : Prop :=
  (forall a b l,
     applyFilters b (applyFilters a l)
     = List.filter (fun x => matches a x && matches b x) l)
  /\ (forall a b l,
     disjoint a b = true ->
     applyFilters b (applyFilters a l) = applyFilters (union a b) l)
  /\ (forall a b l,
     applyFilters b (applyFilters a l) = applyFilters a (applyFilters b l))
  /\ (forall page limit l, applyFilters (noCriteria page limit) l = l).

(** [Stable]: the result is the input's matching records in the input's
    order, and a second pass with the same criteria changes nothing. *)
Definition Stable {C A : Type} (applyFilters : C -> list A -> list A)
  (matches : C -> A -> bool) : Prop :=
  (forall q l, applyFilters q l = List.filter (matches q) l)
  /\ (forall q l, sublist (applyFilters q l) l)
  /\ (forall q l, applyFilters q (applyFilters q l) = applyFilters q l).

(** ** Foreign keys *)

(** A dog with identifier [dogId] is in the collection [dogs]. *)
Definition dogPresent (dogs : list Dog.t) (dogId : string) : Prop :=
  exists dog, In dog dogs /\ Dog.id dog = dogId.

(** The guard of a creation handler [create] whose request body carries the
    dog's identifier [dogIdOf data]: without such a dog the reply is NotFound
    and the collection is returned as it was; with one, the reply is 201 with
    a record for that dog, which is appended to the collection. *)
Definition ForeignKeyGuard {D R : Type}
  (create : list Dog.t -> list R -> D -> string -> string -> Reply R * list R)
  (dogIdOf : D -> string) (recordDogId : R -> string) : Prop :=
  forall (mockDogs : list Dog.t) (records : list R) (data : D) (freshId now : string),
    (~ dogPresent mockDogs (dogIdOf data) ->
       exists e, create mockDogs records data freshId now = (NotFound e, records))
    /\ (dogPresent mockDogs (dogIdOf data) ->
       exists r, create mockDogs records data freshId now = (Ok 201 r, (records ++ [r])%list)
                 /\ recordDogId r = dogIdOf data).

(** ** Progress scores *)

Module ProgressSpec.

(** The records of one trainer, in the order of the collection, and their
    scores. *)
Definition recordsOfTrainer (trainer : string) (trainingRecords : list TrainingRecord.t)
  : list TrainingRecord.t :=
  List.filter (fun record => String.eqb (TrainingRecord.trainer record) trainer)
    trainingRecords.

Definition recordsOfDog (dogId : string) (trainingRecords : list TrainingRecord.t)
  : list TrainingRecord.t :=
  List.filter (fun record => String.eqb (TrainingRecord.dogId record) dogId)
    trainingRecords.

Definition scores (records : list TrainingRecord.t) : list Z :=
  map (fun record => TrainingRoutes.progressScore (TrainingRecord.progress record)) records.

(** The mean of a list of scores. *)
Definition average (l : list Z) : Q :=
  (inject_Z (TrainingRoutes.sumScores l) / inject_Z (Z.of_nat (length l)))%Q.

(** The trainer map after a prefix [done] of the records: one entry per
    trainer seen so far, holding the scores of that trainer's records in
    record order and their number. *)
Record TrainerInv (m : TrainingRoutes.TrainerMap) (done : list TrainingRecord.t)
  : Prop := {
  inv_nodup : List.NoDup (map fst m);
  inv_keys : forall r, In r done -> In (TrainingRecord.trainer r) (map fst m);
  inv_entry : forall k acc, In (k, acc) m ->
    TrainerAcc.name acc = k
    /\ TrainerAcc.progressScores acc = scores (recordsOfTrainer k done)
    /\ TrainerAcc.recordCount acc = Z.of_nat (length (recordsOfTrainer k done))
    /\ recordsOfTrainer k done <> []
}.

(** The score of a progress level in the words of the specification:
    poor is 1, fair 2, good 3 and excellent 4. *)
Definition ordinal (p : Progress) : Z :=
  match p with
  | poor => 1
  | fair => 2
  | good => 3
  | excellent => 4
  end.

(** The progress levels of a list of records, in record order. *)
Definition levels (records : list TrainingRecord.t) : list Progress :=
  map TrainingRecord.progress records.

(** The mean ordinal score of a list of progress levels. *)
Definition meanOrdinal (l : list Progress) : Q :=
  (inject_Z (fold_right Z.add 0%Z (map ordinal l)) / inject_Z (Z.of_nat (length l)))%Q.

(** The thresholds of the specification: at most 1.5 is poor, at most 2.5
    fair, at most 3.5 good, anything above excellent. *)
Definition Thresholds (bucket : Q -> Progress) : Prop :=
  forall avg : Q,
    ((avg <= 3 # 2)%Q -> bucket avg = poor)
    /\ ((3 # 2 < avg)%Q -> (avg <= 5 # 2)%Q -> bucket avg = fair)
    /\ ((5 # 2 < avg)%Q -> (avg <= 7 # 2)%Q -> bucket avg = good)
    /\ ((7 # 2 < avg)%Q -> bucket avg = excellent).

End ProgressSpec.

(** ** Vaccinations *)

(** The comparator [cmp] orders the elements of [l] by decreasing [key]. *)
Definition descendingOn {A : Type} (cmp : A -> A -> Z) (key : A -> Z) (l : list A) : Prop :=
  forall x y, In x l -> In y l -> cmp x y = key y - key x.

Module VaccinationSpec.





End VaccinationSpec.

(** ** Adoption *)

Module AdoptionStatsSpec.



(** [r] is [x] rounded to two decimal places: the double that the literal
    [n / 100] denotes, for the whole number of hundredths [n] nearest to
    [x], the upper one on a tie. *)
Definition RoundedTo2 (x : Q) (r : Number.t) : Prop :=
  exists n : Z,
    r = Number.div (Number.ofZ n) (Number.ofZ 100)
    /\ (x * inject_Z 100 - (1 # 2) < inject_Z n)%Q
    /\ (inject_Z n <= x * inject_Z 100 + (1 # 2))%Q.

(** Approved applications over dogs, in percent. *)
Definition rate (approvedCount dogCount : Z) : Q :=
  (inject_Z approvedCount / inject_Z dogCount * inject_Z 100)%Q.

End AdoptionStatsSpec.

Module AvailableSpec.

(** No approved application names the dog. *)
Definition notAdopted (adoptionApplications : list AdoptionApplication.t) (dog : Dog.t)
  : bool :=
  negb (existsb
    (fun app => AdoptionStatus_eqb (AdoptionApplication.status app) approved
                && String.eqb (AdoptionApplication.dogId app) (Dog.id dog))
    adoptionApplications).

(** The three criteria the handler applies. *)
Definition matches (breed : option string) (size : option Size) (age_max : option Z)
  (dog : Dog.t) : bool :=
  matchTruthy breed
    (fun b dog => JS.includes (JS.toLowerCase (Dog.breed dog)) (JS.toLowerCase b)) dog
  && matchDefined size (fun s dog => Size_eqb (Dog.size dog) s) dog
  && matchDefined age_max (fun m dog => Dog.age dog <=? m) dog.

End AvailableSpec.

(** * Vocabulary for the record stores and the directories *)

(** An item with identifier [id] is in the collection. *)
Definition Present {T : Type} (getId : T -> string) (items : list T) (id : string) : Prop :=
  exists item, In item items /\ getId item = id.

(** No two items of the collection share an identifier. *)
Definition uniqueIds {T : Type} (getId : T -> string) (items : list T) : Prop :=
  List.NoDup (map getId items).

(** A field of [{ ...old, ...patch }]: the patch's value where the patch has
    the key, the old value where it has not. *)
Definition Overlaid {B : Type} (old : B) (patch : option B) (new : B) : Prop :=
  match patch with
  | Some v => new = v
  | None => new = old
  end.

(** The sum of a list of counts. *)
Definition total_of (counts : list Z) : Z := fold_right Z.add 0 counts.

(** The page numbers [1 .. n]. *)
Definition pageNumbers (n : Z) : list Z := map Z.of_nat (seq 1 (Z.to_nat n)).

Module DogsSpec2.

(** The query [q] asked for page [p]. *)
Definition withPage (q : DogQuery.t) (p : Z) : DogQuery.t :=
  {| DogQuery.breed := DogQuery.breed q; DogQuery.age_min := DogQuery.age_min q;
     DogQuery.age_max := DogQuery.age_max q; DogQuery.weight_min := DogQuery.weight_min q;
     DogQuery.weight_max := DogQuery.weight_max q; DogQuery.gender := DogQuery.gender q;
     DogQuery.size := DogQuery.size q; DogQuery.isNeutered := DogQuery.isNeutered q;
     DogQuery.page := p; DogQuery.limit := DogQuery.limit q |}.

End DogsSpec2.

Module BreedsSpec.

Definition matches (q : BreedQuery.t) (breed : Breed.t) : bool :=
  matchDefined (BreedQuery.group q)
    (fun g breed => BreedGroup_eqb (Breed.group breed) g) breed
  && matchDefined (BreedQuery.size q) (fun s breed => Size_eqb (Breed.size breed) s) breed
  && matchDefined (BreedQuery.exerciseNeeds q)
       (fun e breed => Exercise.eqb (Breed.exerciseNeeds breed) e) breed
  && matchDefined (BreedQuery.goodWithKids q)
       (fun k breed => Bool.eqb (Breed.goodWithKids breed) k) breed
  && matchDefined (BreedQuery.goodWithPets q)
       (fun p breed => Bool.eqb (Breed.goodWithPets breed) p) breed.

(** The breeds whose name contains [q], whatever the case of the letters. *)
Definition nameMatches (q : string) (mockBreeds : list Breed.t) : list Breed.t :=
  List.filter
    (fun breed => JS.includes (JS.toLowerCase (Breed.name breed)) (JS.toLowerCase q))
    mockBreeds.


End BreedsSpec.

Module DirectorySpec.

(** The health records filed under a key of the veterinarian map. *)
Definition recordsOfKey (key : string) (healthRecords : list HealthRecord.t)
  : list HealthRecord.t :=
  List.filter (fun record => String.eqb (HealthRoutes.vetKey record) key) healthRecords.

End DirectorySpec.

(** ** Grouping by key

    The trainer directory, the veterinarian directory and the breed groups
    are built by one pass that, for each record, adds one to the entry of the
    record's key, creating the entry at the end when the key is new.
    [upsert] is that step and [firstAppearances] the order it lists the keys
    in. *)

Fixpoint upsert {K V : Type} (eqb : K -> K -> bool) (k : K) (v0 : V) (f : V -> V)
  (m : list (K * V)) : list (K * V) :=
  match m with
  | [] => [(k, v0)]
  | (k', v) :: m' =>
      if eqb k' k then (k', f v) :: m' else (k', v) :: upsert eqb k v0 f m'
  end.

(** The distinct elements of [l], each at the place of its first occurrence. *)
Fixpoint firstAppearances {K : Type} (eqb : K -> K -> bool) (l : list K) : list K :=
  match l with
  | [] => []
  | x :: l' => x :: List.filter (fun y => negb (eqb y x)) (firstAppearances eqb l')
  end.

(** The number of records filed under [k]. *)
Definition filedUnder {R K : Type} (eqb : K -> K -> bool) (key : R -> K) (k : K)
  (records : list R) : Z :=
  Z.of_nat (length (List.filter (fun r => eqb (key r) k) records)).

(** The directory [m] after the records [done]: the keys in order of first
    appearance, and under each key a value that counts, by [count], the
    records filed under it and satisfies [Q]. *)
Record Grouped {R K V : Type} (eqb : K -> K -> bool) (key : R -> K) (count : V -> Z)
  (Q : K -> V -> Prop) (m : list (K * V)) (done : list R) : Prop := {
  grouped_keys : map fst m = firstAppearances eqb (map key done);
  grouped_entry : forall k v, In (k, v) m ->
    count v = filedUnder eqb key k done /\ 1 <= count v /\ Q k v
}.

Module SummarySpec.

(** Every training record starts on a date the schema accepts. *)
Definition validStartDates (trainingRecords : list TrainingRecord.t) : Prop :=
  Forall (fun record => JSDate.getTime (TrainingRecord.startDate record) <> None)
    trainingRecords.

(** The time value of a record's start date. *)
Definition startOf (record : TrainingRecord.t) : Z :=
  match JSDate.getTime (TrainingRecord.startDate record) with
  | Some t => t
  | None => 0
  end.

(** [a] did not start before [b]. *)
Definition notEarlier (a b : TrainingRecord.t) : Prop := startOf b <= startOf a.

(** The number of records with a given status. *)
Definition withStatus (s : TrainingStatus) (records : list TrainingRecord.t) : Z :=
  Z.of_nat (length (List.filter
    (fun record => TrainingStatus_eqb (TrainingRecord.status record) s) records)).

End SummarySpec.

(** * Sample data

    The seed of data/mockData.ts, with fixed identifiers and dates in place
    of the random ones, and a few records more for the scenarios of the
    specification. *)

Module Samples.

Definition dog (id name breed : string) (age : Z) (weight : Q) (gender : Gender)
  (color : string) (size : Size) (isNeutered : bool) : Dog.t :=
  {| Dog.id := id; Dog.name := name; Dog.breed := breed; Dog.age := age;
     Dog.weight := weight; Dog.gender := gender; Dog.color := color;
     Dog.size := size; Dog.temperament := []; Dog.isNeutered := isNeutered;
     Dog.microchipId := None; Dog.photos := []; Dog.description := "";
     Dog.createdAt := "2023-06-01T00:00:00.000Z";
     Dog.updatedAt := "2023-06-01T00:00:00.000Z" |}.

Definition buddy := dog "d1" "Buddy" "Golden Retriever" 3 65 male "Golden" large true.
Definition luna := dog "d2" "Luna" "Border Collie" 2 45 female "Black and White" medium true.
Definition max := dog "d3" "Max" "German Shepherd" 5 75 male "Brown and Black" large true.
Definition bella := dog "d4" "Bella" "French Bulldog" 1 22 female "Cream" small false.
Definition rocky := dog "d5" "Rocky" "Pitbull Terrier" 4 55 male "Brindle" medium true.

Definition mockDogs : list Dog.t := [buddy; luna; max; bella; rocky].

(** Twelve dogs, for the scenario "12 filtered records, limit 5, page 3". *)
Definition twelveDogs : list Dog.t :=
  mockDogs ++ [ dog "d6" "Daisy" "Beagle" 6 24 female "Tricolor" small true;
                dog "d7" "Duke" "Boxer" 7 70 male "Fawn" large false;
                dog "d8" "Sadie" "Poodle" 8 50 female "White" medium true;
                dog "d9" "Toby" "Golden Retriever" 9 68 male "Golden" large true;
                dog "d10" "Molly" "Border Collie" 10 40 female "Merle" medium false;
                dog "d11" "Coco" "Chihuahua" 11 6 female "Tan" small true;
                dog "d12" "Zeus" "Great Dane" 2 140 male "Black" extra_large false ].

(** A dog query with at most a breed and a minimum age. *)
Definition dogQuery (breed : option string) (age_min : option Z) : DogQuery.t :=
  {| DogQuery.breed := breed; DogQuery.age_min := age_min; DogQuery.age_max := None;
     DogQuery.weight_min := None; DogQuery.weight_max := None;
     DogQuery.gender := None; DogQuery.size := None; DogQuery.isNeutered := None;
     DogQuery.page := 1; DogQuery.limit := 10 |}.

Definition healthRecord (id dogId : string) (type : HealthType) (date veterinarian clinic : string)
  (followUpDate : option string) : HealthRecord.t :=
  {| HealthRecord.id := id; HealthRecord.dogId := dogId; HealthRecord.type := type;
     HealthRecord.date := date; HealthRecord.veterinarian := veterinarian;
     HealthRecord.clinic := clinic; HealthRecord.description := "visit";
     HealthRecord.medications := None; HealthRecord.cost := None;
     HealthRecord.followUpDate := followUpDate; HealthRecord.notes := None;
     HealthRecord.attachments := None;
     HealthRecord.createdAt := "2024-01-01T00:00:00.000Z";
     HealthRecord.updatedAt := "2024-01-01T00:00:00.000Z" |}.

Definition mockHealthRecords : list HealthRecord.t :=
  [ healthRecord "h1" "d1" vaccination "2024-02-10" "Dr. Emily Chen"
      "Happy Paws Veterinary Clinic" (Some "2025-02-10");
    healthRecord "h2" "d1" checkup "2023-12-15" "Dr. Michael Rodriguez"
      "Happy Paws Veterinary Clinic" None;
    healthRecord "h3" "d2" treatment "2024-01-20" "Dr. Lisa Park"
      "Mountain View Animal Hospital" None ].

(** Buddy's vaccinations of 2022-01-15 and 2023-03-02 among other records,
    and the instant 2024-03-01T00:00:00Z, in a leap year. *)
Definition leapYearRecords : list HealthRecord.t :=
  [ healthRecord "h5" "d1" vaccination "2022-01-15" "Dr. Emily Chen"
      "Happy Paws Veterinary Clinic" None;
    healthRecord "h2" "d1" checkup "2023-12-15" "Dr. Michael Rodriguez"
      "Happy Paws Veterinary Clinic" None;
    healthRecord "h4" "d1" vaccination "2023-03-02" "Dr. Emily Chen"
      "Happy Paws Veterinary Clinic" (Some "2024-03-02");
    healthRecord "h3" "d2" treatment "2024-01-20" "Dr. Lisa Park"
      "Mountain View Animal Hospital" None ].

Definition march1st2024 : Z := 1709251200000.

Definition createHealthRecord (dogId : string) : CreateHealthRecord.t :=
  {| CreateHealthRecord.dogId := dogId; CreateHealthRecord.type := checkup;
     CreateHealthRecord.date := "2024-03-05";
     CreateHealthRecord.veterinarian := "Dr. Emily Chen";
     CreateHealthRecord.clinic := "Happy Paws Veterinary Clinic";
     CreateHealthRecord.description := "Routine wellness examination";
     CreateHealthRecord.medications := None; CreateHealthRecord.cost := Some 85%Q;
     CreateHealthRecord.followUpDate := None; CreateHealthRecord.notes := None;
     CreateHealthRecord.attachments := None |}.

Definition trainingRecord (id dogId : string) (type : TrainingType) (trainer : string)
  (startDate : string) (status : TrainingStatus) (skills : list string)
  (progress : Progress) : TrainingRecord.t :=
  {| TrainingRecord.id := id; TrainingRecord.dogId := dogId; TrainingRecord.type := type;
     TrainingRecord.trainer := trainer; TrainingRecord.facility := None;
     TrainingRecord.startDate := startDate; TrainingRecord.endDate := None;
     TrainingRecord.status := status; TrainingRecord.skills := skills;
     TrainingRecord.progress := progress; TrainingRecord.cost := None;
     TrainingRecord.notes := None; TrainingRecord.certificates := None;
     TrainingRecord.createdAt := "2024-01-01T00:00:00.000Z";
     TrainingRecord.updatedAt := "2024-01-01T00:00:00.000Z" |}.

Definition mockTrainingRecords : list TrainingRecord.t :=
  [ trainingRecord "t1" "d1" basic_obedience "Mark Thompson" "2023-11-01" completed
      ["sit"; "stay"; "down"; "come"; "heel"; "leave it"] excellent;
    trainingRecord "t2" "d2" agility "Sarah Johnson" "2023-12-01" in_progress
      ["tunnel"; "weave poles"; "A-frame"; "jump"; "pause table"] excellent;
    trainingRecord "t3" "d3" advanced_obedience "Robert Miller" "2023-08-01" completed
      ["heel off-leash"; "distance commands"; "emergency recall"] excellent ].

(** Trainer "X" with two records, progress good and excellent. *)
Definition trainerXRecords : list TrainingRecord.t :=
  mockTrainingRecords
  ++ [ trainingRecord "t4" "d4" therapy "X" "2024-01-05" completed ["visit"] good;
       trainingRecord "t5" "d5" service "X" "2024-01-09" in_progress ["guide"] excellent ].

Definition createTrainingRecord (dogId : string) : CreateTrainingRecord.t :=
  {| CreateTrainingRecord.dogId := dogId; CreateTrainingRecord.type := agility;
     CreateTrainingRecord.trainer := "Sarah Johnson";
     CreateTrainingRecord.facility := None;
     CreateTrainingRecord.startDate := "2024-03-01";
     CreateTrainingRecord.endDate := None; CreateTrainingRecord.status := in_progress;
     CreateTrainingRecord.skills := ["tunnel"]; CreateTrainingRecord.progress := fair;
     CreateTrainingRecord.cost := None; CreateTrainingRecord.notes := None;
     CreateTrainingRecord.certificates := None |}.

Definition homeAddress : Address.t :=
  {| Address.street := "123 Main St"; Address.city := "Springfield";
     Address.state := "IL"; Address.zipCode := "62701" |}.

Definition application (id dogId : string) (status : AdoptionStatus)
  : AdoptionApplication.t :=
  {| AdoptionApplication.id := id; AdoptionApplication.dogId := dogId;
     AdoptionApplication.applicantName := "John Smith";
     AdoptionApplication.applicantEmail := "john.smith@email.com";
     AdoptionApplication.applicantPhone := "+1-555-0123";
     AdoptionApplication.address := homeAddress;
     AdoptionApplication.housingType := house;
     AdoptionApplication.hasYard := true; AdoptionApplication.hasOtherPets := false;
     AdoptionApplication.otherPetsDetails := None;
     AdoptionApplication.experience := experienced;
     AdoptionApplication.workSchedule := "9-5 weekdays";
     AdoptionApplication.reason := "Looking for a loyal family companion";
     AdoptionApplication.status := status; AdoptionApplication.notes := None;
     AdoptionApplication.createdAt := "2024-01-01T00:00:00.000Z";
     AdoptionApplication.updatedAt := "2024-01-01T00:00:00.000Z" |}.

Definition mockAdoptionApplications : list AdoptionApplication.t :=
  [ application "a1" "d1" pending; application "a2" "d2" approved ].

(** Six approved applications against the five seed dogs. *)
Definition sixApproved : list AdoptionApplication.t :=
  [ application "a1" "d1" approved; application "a2" "d2" approved;
    application "a3" "d3" approved; application "a4" "d4" approved;
    application "a5" "d5" approved; application "a6" "d1" approved ].

Definition createApplication (dogId : string) : CreateAdoptionApplication.t :=
  {| CreateAdoptionApplication.dogId := dogId;
     CreateAdoptionApplication.applicantName := "Sarah Johnson";
     CreateAdoptionApplication.applicantEmail := "sarah.j@email.com";
     CreateAdoptionApplication.applicantPhone := "+1-555-0456";
     CreateAdoptionApplication.address := homeAddress;
     CreateAdoptionApplication.housingType := house;
     CreateAdoptionApplication.hasYard := true;
     CreateAdoptionApplication.hasOtherPets := true;
     CreateAdoptionApplication.otherPetsDetails := Some "One cat";
     CreateAdoptionApplication.experience := very_experienced;
     CreateAdoptionApplication.workSchedule := "Work from home";
     CreateAdoptionApplication.reason := "I am an agility trainer" |}.

Definition createDog : CreateDog.t :=
  {| CreateDog.name := "Daisy"; CreateDog.breed := "Beagle"; CreateDog.age := 6;
     CreateDog.weight := 24%Q; CreateDog.gender := female;
     CreateDog.color := "Tricolor"; CreateDog.size := small;
     CreateDog.temperament := ["curious"]; CreateDog.isNeutered := true;
     CreateDog.microchipId := None; CreateDog.photos := [];
     CreateDog.description := "A merry little hound" |}.

Definition availableQuery (breed : option string) (goodWithKids : option bool)
  : AvailableQuery.t :=
  {| AvailableQuery.breed := breed; AvailableQuery.size := None;
     AvailableQuery.age_max := Some 4; AvailableQuery.goodWithKids := goodWithKids |}.

(** The application when it starts, and after one request to the dogs
    routes: [POST /dogs] with Daisy, who gets the identifier "d6", or
    [DELETE /dogs/d1], which removes Buddy. *)
Definition instant : string := "2024-03-05T10:00:00.000Z".

Definition started : App.State :=
  App.start mockDogs mockAdoptionApplications mockHealthRecords mockTrainingRecords.

Definition afterCreate : App.State := snd (App.createDog started createDog "d6" instant).

Definition afterDelete : App.State := snd (App.deleteDog started "d1").

(** Daisy as [POST /dogs] stores her. *)
Definition daisy : Dog.t :=
  {| Dog.id := "d6"; Dog.name := "Daisy"; Dog.breed := "Beagle"; Dog.age := 6;
     Dog.weight := 24%Q; Dog.gender := female; Dog.color := "Tricolor";
     Dog.size := small; Dog.temperament := ["curious"]; Dog.isNeutered := true;
     Dog.microchipId := None; Dog.photos := []; Dog.description := "A merry little hound";
     Dog.createdAt := instant; Dog.updatedAt := instant |}.

(** The records that the three creation requests of the samples store under
    the identifier [id] at [instant]. *)
Definition storedHealthRecord (id dogId : string) : HealthRecord.t :=
  {| HealthRecord.id := id; HealthRecord.dogId := dogId; HealthRecord.type := checkup;
     HealthRecord.date := "2024-03-05"; HealthRecord.veterinarian := "Dr. Emily Chen";
     HealthRecord.clinic := "Happy Paws Veterinary Clinic";
     HealthRecord.description := "Routine wellness examination";
     HealthRecord.medications := None; HealthRecord.cost := Some 85%Q;
     HealthRecord.followUpDate := None; HealthRecord.notes := None;
     HealthRecord.attachments := None;
     HealthRecord.createdAt := instant; HealthRecord.updatedAt := instant |}.

Definition storedTrainingRecord (id dogId : string) : TrainingRecord.t :=
  {| TrainingRecord.id := id; TrainingRecord.dogId := dogId;
     TrainingRecord.type := agility; TrainingRecord.trainer := "Sarah Johnson";
     TrainingRecord.facility := None; TrainingRecord.startDate := "2024-03-01";
     TrainingRecord.endDate := None; TrainingRecord.status := in_progress;
     TrainingRecord.skills := ["tunnel"]; TrainingRecord.progress := fair;
     TrainingRecord.cost := None; TrainingRecord.notes := None;
     TrainingRecord.certificates := None;
     TrainingRecord.createdAt := instant; TrainingRecord.updatedAt := instant |}.

Definition storedApplication (id dogId : string) : AdoptionApplication.t :=
  {| AdoptionApplication.id := id; AdoptionApplication.dogId := dogId;
     AdoptionApplication.applicantName := "Sarah Johnson";
     AdoptionApplication.applicantEmail := "sarah.j@email.com";
     AdoptionApplication.applicantPhone := "+1-555-0456";
     AdoptionApplication.address := homeAddress;
     AdoptionApplication.housingType := house;
     AdoptionApplication.hasYard := true; AdoptionApplication.hasOtherPets := true;
     AdoptionApplication.otherPetsDetails := Some "One cat";
     AdoptionApplication.experience := very_experienced;
     AdoptionApplication.workSchedule := "Work from home";
     AdoptionApplication.reason := "I am an agility trainer";
     AdoptionApplication.status := pending; AdoptionApplication.notes := None;
     AdoptionApplication.createdAt := instant; AdoptionApplication.updatedAt := instant |}.

(** [n] approved applications. *)
Definition approvals (n : nat) : list AdoptionApplication.t :=
  repeat (application "a" "d1" approved) n.



End Samples.

(** * More sample data *)

Module Scenarios.

Definition noPatch : UpdateDog.t :=
  {| UpdateDog.name := None; UpdateDog.breed := None; UpdateDog.age := None;
     UpdateDog.weight := None; UpdateDog.gender := None; UpdateDog.color := None;
     UpdateDog.size := None; UpdateDog.temperament := None;
     UpdateDog.isNeutered := None; UpdateDog.microchipId := None;
     UpdateDog.photos := None; UpdateDog.description := None |}.

(** Luna has had a birthday and gained a pound. *)
Definition birthday : UpdateDog.t :=
  {| UpdateDog.name := None; UpdateDog.breed := None; UpdateDog.age := Some 3;
     UpdateDog.weight := Some 46%Q; UpdateDog.gender := None; UpdateDog.color := None;
     UpdateDog.size := None; UpdateDog.temperament := None;
     UpdateDog.isNeutered := None; UpdateDog.microchipId := None;
     UpdateDog.photos := None; UpdateDog.description := None |}.

Definition graduated : UpdateTrainingRecord.t :=
  {| UpdateTrainingRecord.status := Some completed;
     UpdateTrainingRecord.progress := Some good;
     UpdateTrainingRecord.endDate := Some "2024-03-01";
     UpdateTrainingRecord.skills := None; UpdateTrainingRecord.notes := None;
     UpdateTrainingRecord.certificates := None |}.

Definition breed (id name : string) (group : BreedGroup) (size : Size)
  (exerciseNeeds : Exercise.t) (goodWithKids goodWithPets : bool) : Breed.t :=
  {| Breed.id := id; Breed.name := name; Breed.group := group; Breed.origin := "";
     Breed.size := size; Breed.lifeSpan := {| LifeSpan.min := 10; LifeSpan.max := 12 |};
     Breed.temperament := []; Breed.exerciseNeeds := exerciseNeeds;
     Breed.groomingNeeds := Grooming.moderate; Breed.trainability := Trainability.high;
     Breed.goodWithKids := goodWithKids; Breed.goodWithPets := goodWithPets;
     Breed.description := ""; Breed.image := None;
     Breed.createdAt := "2023-06-01T00:00:00.000Z";
     Breed.updatedAt := "2023-06-01T00:00:00.000Z" |}.

(** The four seed breeds. *)
Definition mockBreeds : list Breed.t :=
  [ breed "b1" "Golden Retriever" sporting large Exercise.high true true;
    breed "b2" "Border Collie" herding medium Exercise.very_high true true;
    breed "b3" "German Shepherd" herding large Exercise.high true false;
    breed "b4" "French Bulldog" non_sporting small Exercise.low true true ].

Definition breedQuery (group : option BreedGroup) (goodWithPets : option bool)
  : BreedQuery.t :=
  {| BreedQuery.group := group; BreedQuery.size := None;
     BreedQuery.exerciseNeeds := None; BreedQuery.goodWithKids := None;
     BreedQuery.goodWithPets := goodWithPets |}.

(** Two veterinarians whose names and clinics differ but whose keys
    coincide: "Dr. A-B" at "C" and "Dr. A" at "B-C". *)
Definition sameKeyRecords : list HealthRecord.t :=
  [ Samples.healthRecord "h1" "d1" checkup "2024-01-10" "Dr. A-B" "C" None;
    Samples.healthRecord "h2" "d2" dental "2024-01-11" "Dr. A" "B-C" None ].

(** Luna's training, twice over: two records that share skills. *)
Definition lunaTrainings : list TrainingRecord.t :=
  Samples.mockTrainingRecords
  ++ [ Samples.trainingRecord "t6" "d2" basic_obedience "Mark Thompson" "2024-02-01"
         completed ["sit"; "jump"; "stay"] good ].

Definition healthQuery (dateFrom dateTo : option string) : HealthQuery.t :=
  {| HealthQuery.dogId := None; HealthQuery.type := None;
     HealthQuery.veterinarian := None; HealthQuery.dateFrom := dateFrom;
     HealthQuery.dateTo := dateTo; HealthQuery.page := 1; HealthQuery.limit := 10 |}.

(** [GET /breeds/search?q=ER&limit=1]: the query fits the search schema and
    the list schema, which ignores keys it does not know. *)
Definition searchRequest : BreedsRouter.Request :=
  {| BreedsRouter.path := ["search"];
     BreedsRouter.listQuery := Some (breedQuery None None);
     BreedsRouter.searchQuery := Some ("ER", 1) |}.

(** A validator that accepts the strings of 36 characters, the length of a
    uuid. *)
Definition has36 (s : string) : bool := Nat.eqb (String.length s) 36.

End Scenarios.

(** * Properties *)

Local Open Scope list_scope.
Local Open Scope Z_scope.

(** ** The built-ins on a few inputs *)

Example includes_examples :
  JS.includes (JS.toLowerCase "Golden Retriever") (JS.toLowerCase "RETRIEVER") = true
  /\ JS.includes "Border Collie" "" = true
  /\ JS.includes "" "a" = false
  /\ JS.includes "Border Collie" "collie" = false.
Proof. repeat split. Qed.

Example slice_examples :
  JS.slice [1; 2; 3; 4; 5] 1 3 = [2; 3]
  /\ JS.slice [1; 2; 3; 4; 5] 3 10 = [4; 5]
  /\ JS.slice [1; 2; 3; 4; 5] 10 15 = []
  /\ JS.slice [1; 2; 3; 4; 5] (-2) 5 = [4; 5].
Proof. repeat split. Qed.

Example getTime_examples :
  JSDate.getTime "1970-01-01" = Some 0
  /\ JSDate.getTime "2024-02-29" = Some 1709164800000
  /\ JSDate.getTime "2023-02-29" = None
  /\ JSDate.getTime "2024-3-1" = None
  /\ JSDate.civilFromDays (JSDate.Day 1709164800000) = (2024, 2, 29)
  /\ JSDate.civilFromDays (JSDate.Day (-1)) = (1969, 12, 31).
Proof. repeat split. Qed.

(** [setFullYear] keeps month, day and time of day; the 29th of February
    carries over to the 1st of March in a common year. *)
Example setFullYear_examples :
  JSDate.setFullYear JSDate.UTCZone 1709164800000 2023 = 1677628800000
  /\ JSDate.getTime "2023-03-01" = Some 1677628800000
  /\ JSDate.setFullYear JSDate.UTCZone (1709251200000 + 3600000) 2023
     = 1677628800000 + 3600000.
Proof. repeat split. Qed.

Example sort_is_stable :
  JSArray.sort (fun a b => snd b - snd a) [("a", 1); ("b", 3); ("c", 1); ("d", 3)]
  = [("b", 3); ("d", 3); ("a", 1); ("c", 1)].
Proof. reflexivity. Qed.

(** ** Filters *)

Section Filters.
Context {A : Type}.
Implicit Types (l : list A) (p : A -> bool).

Lemma filter_all l : List.filter (fun _ => true) l = l.
Proof.
  induction l as [|x l IH]; simpl; [reflexivity | now rewrite IH].
Qed.

Lemma filter_filter p1 p2 l :
  List.filter p2 (List.filter p1 l) = List.filter (fun x => p1 x && p2 x) l.
Proof.
  induction l as [|x l IH]; simpl; trivial.
  destruct (p1 x); simpl; [destruct (p2 x)|]; now rewrite IH.
Qed.

Lemma filter_is_sublist p l : sublist (List.filter p l) l.
Proof.
  induction l as [|x l IH]; simpl.
  - constructor.
  - destruct (p x); now constructor.
Qed.

Lemma filterIfTruthy_matches (o : option string) (pred : string -> A -> bool) l :
  JSArray.filterIfTruthy o pred l = List.filter (matchTruthy o pred) l.
Proof.
  unfold JSArray.filterIfTruthy, matchTruthy.
  destruct o as [s|]; [destruct (JS.truthy s)|]; trivial; now rewrite filter_all.
Qed.

Lemma filterIfDefined_matches {B : Type} (o : option B) (pred : B -> A -> bool) l :
  JSArray.filterIfDefined o pred l = List.filter (matchDefined o pred) l.
Proof.
  unfold JSArray.filterIfDefined, matchDefined.
  destruct o; trivial; now rewrite filter_all.
Qed.

Lemma matchTruthy_orElse (a b : option string) (pred : string -> A -> bool) x :
  atMostOne a b = true ->
  matchTruthy (orElse a b) pred x = matchTruthy a pred x && matchTruthy b pred x.
Proof.
  destruct a, b; simpl; try discriminate; intros _; trivial.
  now rewrite andb_true_r.
Qed.

Lemma matchDefined_orElse {B : Type} (a b : option B) (pred : B -> A -> bool) x :
  atMostOne a b = true ->
  matchDefined (orElse a b) pred x = matchDefined a pred x && matchDefined b pred x.
Proof.
  destruct a, b; simpl; try discriminate; intros _; trivial.
  now rewrite andb_true_r.
Qed.

(** What follows for any chain [f] that computes the filter by [m]. *)
Variables (f : list A -> list A) (m : A -> bool).
Hypothesis f_filter : forall l, f l = List.filter m l.

Lemma chain_sublist l : sublist (f l) l.
Proof. rewrite f_filter. apply filter_is_sublist. Qed.

Lemma chain_idempotent l : f (f l) = f l.
Proof.
  rewrite !f_filter, filter_filter. apply filter_ext.
  intros x. now destruct (m x).
Qed.

Lemma chain_then (g : list A -> list A) (n : A -> bool) l :
  (forall l', g l' = List.filter n l') ->
  g (f l) = List.filter (fun x => m x && n x) l.
Proof.
  intros g_filter. now rewrite g_filter, f_filter, filter_filter.
Qed.

Lemma chain_commute (g : list A -> list A) (n : A -> bool) l :
  (forall l', g l' = List.filter n l') ->
  g (f l) = f (g l).
Proof.
  intros g_filter. rewrite !g_filter, !f_filter, !filter_filter.
  apply filter_ext. intros x. apply andb_comm.
Qed.

End Filters.

(** Each handler's filter chain computes the filter by the conjunction of
    the supplied matchers. *)
Ltac chain_is_filter :=
  intros; cbv beta delta [DogsRoutes.applyFilters HealthRoutes.applyFilters
    TrainingRoutes.applyFilters AdoptionRoutes.applyFilters] zeta;
  rewrite ?filterIfTruthy_matches, ?filterIfDefined_matches, ?filter_filter;
  apply filter_ext; intros ?;
  cbv beta delta [DogsSpec.matches HealthSpec.matches TrainingSpec.matches
    AdoptionSpec.matches];
  rewrite ?andb_assoc; reflexivity.

Lemma dogs_chain q dogs :
  DogsRoutes.applyFilters q dogs = List.filter (DogsSpec.matches q) dogs.
Proof. chain_is_filter. Qed.

Lemma health_chain q healthRecords :
  HealthRoutes.applyFilters q healthRecords
  = List.filter (HealthSpec.matches q) healthRecords.
Proof. chain_is_filter. Qed.

Lemma training_chain q trainingRecords :
  TrainingRoutes.applyFilters q trainingRecords
  = List.filter (TrainingSpec.matches q) trainingRecords.
Proof. chain_is_filter. Qed.

Lemma adoption_chain q adoptionApplications :
  AdoptionRoutes.applyFilters q adoptionApplications
  = List.filter (AdoptionSpec.matches q) adoptionApplications.
Proof. chain_is_filter. Qed.

Ltac union_is_conjunction :=
  intros a b x Hd;
  cbv beta delta [DogsSpec.disjoint HealthSpec.disjoint TrainingSpec.disjoint
    AdoptionSpec.disjoint] in Hd;
  repeat (apply andb_prop in Hd; destruct Hd as [Hd ?]);
  cbv beta delta [DogsSpec.matches HealthSpec.matches TrainingSpec.matches
    AdoptionSpec.matches DogsSpec.union HealthSpec.union TrainingSpec.union
    AdoptionSpec.union]; cbn [DogQuery.breed DogQuery.age_min DogQuery.age_max
    DogQuery.weight_min DogQuery.weight_max DogQuery.gender DogQuery.size
    DogQuery.isNeutered HealthQuery.dogId HealthQuery.type HealthQuery.veterinarian
    HealthQuery.dateFrom HealthQuery.dateTo TrainingQuery.dogId TrainingQuery.type
    TrainingQuery.trainer TrainingQuery.status TrainingQuery.progress
    AdoptionQuery.status AdoptionQuery.dogId];
  rewrite ?matchTruthy_orElse, ?matchDefined_orElse by assumption;
  btauto.

Lemma dogs_union a b x :
  DogsSpec.disjoint a b = true ->
  DogsSpec.matches (DogsSpec.union a b) x = DogsSpec.matches a x && DogsSpec.matches b x.
Proof. revert a b x. union_is_conjunction. Qed.

Lemma health_union a b x :
  HealthSpec.disjoint a b = true ->
  HealthSpec.matches (HealthSpec.union a b) x
  = HealthSpec.matches a x && HealthSpec.matches b x.
Proof. revert a b x. union_is_conjunction. Qed.

Lemma training_union a b x :
  TrainingSpec.disjoint a b = true ->
  TrainingSpec.matches (TrainingSpec.union a b) x
  = TrainingSpec.matches a x && TrainingSpec.matches b x.
Proof. revert a b x. union_is_conjunction. Qed.

Lemma adoption_union a b x :
  AdoptionSpec.disjoint a b = true ->
  AdoptionSpec.matches (AdoptionSpec.union a b) x
  = AdoptionSpec.matches a x && AdoptionSpec.matches b x.
Proof. revert a b x. union_is_conjunction. Qed.

(** The laws, for any chain that computes the filter by [matches]. *)
Lemma composable_of_chain {C A : Type} (applyFilters : C -> list A -> list A)
  (matches : C -> A -> bool) (union : C -> C -> C) (disjoint : C -> C -> bool)
  (noCriteria : Z -> Z -> C) :
  (forall q l, applyFilters q l = List.filter (matches q) l) ->
  (forall a b x, disjoint a b = true -> matches (union a b) x = matches a x && matches b x) ->
  (forall page limit x, matches (noCriteria page limit) x = true) ->
  Composable applyFilters matches union disjoint noCriteria.
Proof.
  intros Hchain Hunion Hnone. unfold Composable. repeat apply conj.
  - intros a b l. now apply chain_then with (m := matches a).
  - intros a b l Hd.
    rewrite (chain_then (applyFilters a) (matches a) (Hchain a) _ (matches b)) by apply Hchain.
    rewrite Hchain. apply filter_ext. intros x. now rewrite Hunion.
  - intros a b l. symmetry.
    now apply chain_commute with (m := matches b) (n := matches a).
  - intros pg lim l. rewrite Hchain.
    rewrite (filter_ext _ (fun _ => true)) by (intros x; apply Hnone).
    apply filter_all.
Qed.

Lemma stable_of_chain {C A : Type} (applyFilters : C -> list A -> list A)
  (matches : C -> A -> bool) :
  (forall q l, applyFilters q l = List.filter (matches q) l) ->
  Stable applyFilters matches.
Proof.
  intros Hchain. unfold Stable. repeat apply conj; trivial.
  - intros q l. now apply chain_sublist with (m := matches q).
  - intros q l. now apply chain_idempotent with (m := matches q).
Qed.

(** C3. Filter composability and commutativity: on each list endpoint,
    filtering by criteria A and then by criteria B keeps exactly the records
    that match A and B, which is the result of one pass with the query that
    carries both when A and B constrain different fields; the two passes
    commute; and a query without criteria keeps every record. *)
Theorem filter_composability :
  Composable DogsRoutes.applyFilters DogsSpec.matches DogsSpec.union
    DogsSpec.disjoint DogsSpec.noCriteria
  /\ Composable HealthRoutes.applyFilters HealthSpec.matches HealthSpec.union
       HealthSpec.disjoint HealthSpec.noCriteria
  /\ Composable TrainingRoutes.applyFilters TrainingSpec.matches TrainingSpec.union
       TrainingSpec.disjoint TrainingSpec.noCriteria
  /\ Composable AdoptionRoutes.applyFilters AdoptionSpec.matches AdoptionSpec.union
       AdoptionSpec.disjoint AdoptionSpec.noCriteria.
Proof.
  split; [|split; [|split]]; apply composable_of_chain; trivial.
  - apply dogs_chain.
  - apply dogs_union.
  - apply health_chain.
  - apply health_union.
  - apply training_chain.
  - apply training_union.
  - apply adoption_chain.
  - apply adoption_union.
Qed.

(** A breed criterion (case-insensitive substring) and a minimum age
    (numeric range) on the twelve sample dogs: the two passes and the single
    pass all return Toby, the Golden Retriever of age 9. *)
Lemma filter_composability_witness :
  let a := Samples.dogQuery (Some "RETRIEVER") None in
  let b := Samples.dogQuery None (Some 4) in
  DogsSpec.disjoint a b = true
  /\ DogsRoutes.applyFilters b (DogsRoutes.applyFilters a Samples.twelveDogs)
     = DogsRoutes.applyFilters (DogsSpec.union a b) Samples.twelveDogs
  /\ map Dog.name (DogsRoutes.applyFilters (DogsSpec.union a b) Samples.twelveDogs)
     = ["Toby"].
Proof.
  intros a b.
  assert (Hd : DogsSpec.disjoint a b = true) by reflexivity.
  split; [exact Hd|].
  split; [|reflexivity].
  exact (proj1 (proj2 (proj1 filter_composability)) a b Samples.twelveDogs Hd).
Defined.

(** C4. Filter stability and idempotence: on each list endpoint the
    filtered output is the input's matching records in their input order (a
    subsequence of the input), and filtering the output again with the same
    criteria returns it unchanged. *)
Theorem filter_stability :
  Stable DogsRoutes.applyFilters DogsSpec.matches
  /\ Stable HealthRoutes.applyFilters HealthSpec.matches
  /\ Stable TrainingRoutes.applyFilters TrainingSpec.matches
  /\ Stable AdoptionRoutes.applyFilters AdoptionSpec.matches.
Proof.
  split; [|split; [|split]]; apply stable_of_chain.
  - apply dogs_chain.
  - apply health_chain.
  - apply training_chain.
  - apply adoption_chain.
Qed.

(** The scenario of the specification: dogs A (age 3) and B (age 5),
    filtered by [age_min = 4], give B only. *)
Example age_min_scenario :
  map Dog.name
    (DogsRoutes.applyFilters (Samples.dogQuery None (Some 4)) [Samples.buddy; Samples.max])
  = ["Max"].
Proof. reflexivity. Qed.

(** ** Pagination *)

Section Pagination.
Context {A : Type}.
Implicit Types (l : list A) (page limit : Z).

Lemma slice_window l (start n : Z) :
  0 <= start -> 0 <= n ->
  JS.slice l start (start + n) = firstn (Z.to_nat n) (skipn (Z.to_nat start) l).
Proof.
  intros Hs Hn. unfold JS.slice, JS.relIndex.
  destruct (Z.ltb_spec start 0) as [?|_]; [lia|].
  destruct (Z.ltb_spec (start + n) 0) as [?|_]; [lia|].
  destruct (Z.le_gt_cases start (Z.of_nat (length l))) as [Hin|Hout].
  - rewrite (Z.min_l start) by lia.
    set (rest := skipn (Z.to_nat start) l).
    assert (Hrest : length rest = (length l - Z.to_nat start)%nat)
      by (unfold rest; apply length_skipn).
    destruct (Z.le_gt_cases (start + n) (Z.of_nat (length l))) as [Hfit|Hclip].
    + rewrite Z.min_l by lia. f_equal. lia.
    + rewrite Z.min_r by lia.
      rewrite !firstn_all2; trivial; lia.
  - rewrite (Z.min_r start) by lia.
    rewrite !skipn_all2 by lia.
    now rewrite !firstn_nil.
Qed.

Lemma window_length l (start n : Z) :
  0 <= start -> 0 <= n ->
  Z.of_nat (length (firstn (Z.to_nat n) (skipn (Z.to_nat start) l)))
  = Z.min n (Z.max 0 (Z.of_nat (length l) - start)).
Proof.
  intros Hs Hn. rewrite length_firstn, length_skipn. lia.
Qed.

End Pagination.

(** [Math.ceil(a / b)] on two integers is the integer ceiling division. *)
Lemma Math_ceil_div (a b : Z) :
  0 < b -> JS.Math_ceil (inject_Z a / inject_Z b) = - ((- a) / b).
Proof.
  intros Hb. unfold JS.Math_ceil, Qceiling. f_equal.
  rewrite (Zdiv_Qdiv (- a) b). apply Qfloor_comp.
  rewrite inject_Z_opp. field.
  intros H0. unfold Qeq in H0. simpl in H0. lia.
Qed.

Lemma ceil_div_bounds (a b : Z) :
  0 < b -> (- ((- a) / b) - 1) * b < a <= - ((- a) / b) * b.
Proof.
  intros Hb.
  pose proof (Z.div_mod (- a) b ltac:(lia)) as Hdm.
  pose proof (Z.mod_pos_bound (- a) b Hb) as Hm.
  nia.
Qed.

Lemma paginate_window_law {A : Type} (filtered : list A) (pg lim : Z) :
  validPaging pg lim -> WindowLaw filtered pg lim (paginate filtered pg lim).
Proof.
  intros [Hp [Hl Hu]].
  assert (Hstart : 0 <= (pg - 1) * lim) by nia.
  assert (Hitems : data (paginate filtered pg lim)
                   = firstn (Z.to_nat lim) (skipn (Z.to_nat ((pg - 1) * lim)) filtered)).
  { unfold paginate; simpl. apply slice_window; lia. }
  constructor; trivial.
  - intros Hout. rewrite Hitems, skipn_all2 by lia. apply firstn_nil.
  - rewrite Hitems, window_length by lia. unfold clamp. lia.
  - unfold paginate; simpl. rewrite Math_ceil_div by lia.
    apply ceil_div_bounds; lia.
  - intros ->. unfold paginate; simpl. rewrite Math_ceil_div by lia.
    simpl. rewrite Z.div_0_l; lia.
Qed.

(** C1. Pagination window law: on each of the four paginated list
    endpoints, for a page of at least 1 and a limit between 1 and 100, the
    items are the slice [(page-1)*limit, (page-1)*limit + limit) of the
    filtered sequence clipped to its length (empty for a page past the end),
    their number is [clamp(limit, 0, max(0, N - (page-1)*limit))], [total]
    is the length N of the filtered sequence, and [totalPages] is the
    ceiling of N / limit, 0 when N is 0. *)
Theorem pagination_window_law :
  (forall (dogs : list Dog.t) (query : DogQuery.t),
     validPaging (DogQuery.page query) (DogQuery.limit query) ->
     WindowLaw (DogsRoutes.applyFilters query dogs)
       (DogQuery.page query) (DogQuery.limit query)
       (DogsRoutes.listDogsRoute dogs query))
  /\ (forall (healthRecords : list HealthRecord.t) (query : HealthQuery.t),
     validPaging (HealthQuery.page query) (HealthQuery.limit query) ->
     WindowLaw (HealthRoutes.applyFilters query healthRecords)
       (HealthQuery.page query) (HealthQuery.limit query)
       (HealthRoutes.listHealthRecordsRoute healthRecords query))
  /\ (forall (trainingRecords : list TrainingRecord.t) (query : TrainingQuery.t),
     validPaging (TrainingQuery.page query) (TrainingQuery.limit query) ->
     WindowLaw (TrainingRoutes.applyFilters query trainingRecords)
       (TrainingQuery.page query) (TrainingQuery.limit query)
       (TrainingRoutes.listTrainingRecordsRoute trainingRecords query))
  /\ (forall (adoptionApplications : list AdoptionApplication.t) (query : AdoptionQuery.t),
     validPaging (AdoptionQuery.page query) (AdoptionQuery.limit query) ->
     WindowLaw (AdoptionRoutes.applyFilters query adoptionApplications)
       (AdoptionQuery.page query) (AdoptionQuery.limit query)
       (AdoptionRoutes.listAdoptionApplicationsRoute adoptionApplications query)).
Proof.
  split; [|split; [|split]]; intros; now apply paginate_window_law.
Qed.

(** The scenario of the specification: 12 filtered records, limit 5, page 3
    give 2 items and 3 pages; and one instance for each other endpoint. *)
Lemma pagination_window_law_witness :
  validPaging 3 5
  /\ WindowLaw (DogsRoutes.applyFilters (DogsSpec.noCriteria 3 5) Samples.twelveDogs) 3 5
       (DogsRoutes.listDogsRoute Samples.twelveDogs (DogsSpec.noCriteria 3 5))
  /\ length (data (DogsRoutes.listDogsRoute Samples.twelveDogs (DogsSpec.noCriteria 3 5))) = 2%nat
  /\ totalPages (pagination (DogsRoutes.listDogsRoute Samples.twelveDogs (DogsSpec.noCriteria 3 5))) = 3
  /\ WindowLaw (HealthRoutes.applyFilters (HealthSpec.noCriteria 3 5) Samples.mockHealthRecords) 3 5
       (HealthRoutes.listHealthRecordsRoute Samples.mockHealthRecords (HealthSpec.noCriteria 3 5))
  /\ WindowLaw (TrainingRoutes.applyFilters (TrainingSpec.noCriteria 3 5) Samples.trainerXRecords) 3 5
       (TrainingRoutes.listTrainingRecordsRoute Samples.trainerXRecords (TrainingSpec.noCriteria 3 5))
  /\ WindowLaw (AdoptionRoutes.applyFilters (AdoptionSpec.noCriteria 3 5) Samples.sixApproved) 3 5
       (AdoptionRoutes.listAdoptionApplicationsRoute Samples.sixApproved (AdoptionSpec.noCriteria 3 5)).
Proof.
  assert (H : validPaging 3 5) by (unfold validPaging; lia).
  destruct pagination_window_law as [Hd [Hh [Ht Ha]]].
  split; [exact H|].
  split; [exact (Hd Samples.twelveDogs (DogsSpec.noCriteria 3 5) H)|].
  split; [reflexivity|].
  split; [reflexivity|].
  split; [exact (Hh Samples.mockHealthRecords (HealthSpec.noCriteria 3 5) H)|].
  split; [exact (Ht Samples.trainerXRecords (TrainingSpec.noCriteria 3 5) H)|].
  exact (Ha Samples.sixApproved (AdoptionSpec.noCriteria 3 5) H).
Defined.

(** ** Foreign-key guard *)

Lemma findById_present (dogs : list Dog.t) (dogId : string) :
  dogPresent dogs dogId <-> exists dog, findById Dog.id dogs dogId = Some dog.
Proof.
  unfold dogPresent, findById. split.
  - intros [dog [Hin Hid]].
    destruct (List.find _ dogs) as [d|] eqn:Hfind; [now exists d|].
    apply (find_none _ _ Hfind) in Hin. simpl in Hin.
    rewrite Hid, String.eqb_refl in Hin. discriminate.
  - intros [dog Hfind]. exists dog.
    apply find_some in Hfind as [Hin Heq]. simpl in Heq.
    split; trivial. now apply String.eqb_eq.
Qed.

Lemma findById_absent (dogs : list Dog.t) (dogId : string) :
  ~ dogPresent dogs dogId <-> findById Dog.id dogs dogId = None.
Proof.
  rewrite findById_present. split.
  - intros Hno. destruct (findById Dog.id dogs dogId) as [d|]; trivial.
    exfalso. apply Hno. now exists d.
  - intros Hnone [d Hd]. congruence.
Qed.

Ltac guard_cases :=
  intros mockDogs records recordData freshId now; split;
  [ intros Habsent; apply findById_absent in Habsent
  | intros Hpresent; apply findById_present in Hpresent as [dog Hdog] ].

(** The guard as the three creation handlers implement it, against the seed
    array [mockDogs] they look the dog up in: without a seed dog of that
    identifier the reply is NotFound and the target collection is unchanged;
    with one, the new record is appended. *)
Lemma guard_on_seed :
  ForeignKeyGuard HealthRoutes.createHealthRecordRoute
    CreateHealthRecord.dogId HealthRecord.dogId
  /\ ForeignKeyGuard TrainingRoutes.createTrainingRecordRoute
       CreateTrainingRecord.dogId TrainingRecord.dogId
  /\ ForeignKeyGuard AdoptionRoutes.createAdoptionApplicationRoute
       CreateAdoptionApplication.dogId AdoptionApplication.dogId.
Proof.
  split; [|split].
  - guard_cases; unfold HealthRoutes.createHealthRecordRoute.
    + rewrite Habsent. eauto.
    + rewrite Hdog. eauto.
  - guard_cases; unfold TrainingRoutes.createTrainingRecordRoute.
    + rewrite Habsent. eauto.
    + rewrite Hdog. eauto.
  - guard_cases; unfold AdoptionRoutes.createAdoptionApplicationRoute.
    + rewrite Habsent. eauto.
    + rewrite Hdog. eauto.
Qed.

(** On the seed: a health record for the unknown dog "d9" is refused and one
    for Buddy ("d1") is appended; likewise for the other two collections. *)
Lemma guard_on_seed_examples :
  ~ dogPresent Samples.mockDogs "d9"
  /\ dogPresent Samples.mockDogs "d1"
  /\ (exists e,
        HealthRoutes.createHealthRecordRoute Samples.mockDogs Samples.mockHealthRecords
          (Samples.createHealthRecord "d9") "h4" "2024-03-05T10:00:00.000Z"
        = (NotFound e, Samples.mockHealthRecords))
  /\ (exists r,
        HealthRoutes.createHealthRecordRoute Samples.mockDogs Samples.mockHealthRecords
          (Samples.createHealthRecord "d1") "h4" "2024-03-05T10:00:00.000Z"
        = (Ok 201 r, (Samples.mockHealthRecords ++ [r])%list)
        /\ HealthRecord.dogId r = "d1")
  /\ (exists e,
        TrainingRoutes.createTrainingRecordRoute Samples.mockDogs Samples.mockTrainingRecords
          (Samples.createTrainingRecord "d9") "t4" "2024-03-05T10:00:00.000Z"
        = (NotFound e, Samples.mockTrainingRecords))
  /\ (exists r,
        AdoptionRoutes.createAdoptionApplicationRoute Samples.mockDogs
          Samples.mockAdoptionApplications
          (Samples.createApplication "d1") "a3" "2024-03-05T10:00:00.000Z"
        = (Ok 201 r, (Samples.mockAdoptionApplications ++ [r])%list)
        /\ AdoptionApplication.dogId r = "d1").
Proof.
  assert (Habsent : ~ dogPresent Samples.mockDogs "d9")
    by (apply findById_absent; reflexivity).
  assert (Hpresent : dogPresent Samples.mockDogs "d1")
    by (exists Samples.buddy; split; [left|]; reflexivity).
  destruct guard_on_seed as [Hh [Ht Ha]].
  split; [exact Habsent|]. split; [exact Hpresent|].
  split; [exact (proj1 (Hh Samples.mockDogs Samples.mockHealthRecords
            (Samples.createHealthRecord "d9") "h4" "2024-03-05T10:00:00.000Z") Habsent)|].
  split; [exact (proj2 (Hh Samples.mockDogs Samples.mockHealthRecords
            (Samples.createHealthRecord "d1") "h4" "2024-03-05T10:00:00.000Z") Hpresent)|].
  split; [exact (proj1 (Ht Samples.mockDogs Samples.mockTrainingRecords
            (Samples.createTrainingRecord "d9") "t4" "2024-03-05T10:00:00.000Z") Habsent)|].
  exact (proj2 (Ha Samples.mockDogs Samples.mockAdoptionApplications
            (Samples.createApplication "d1") "a3" "2024-03-05T10:00:00.000Z") Hpresent).
Qed.

(** The sample dogs routes: after [POST /dogs] Daisy is in the Dog
    collection and [GET /dogs/d6] returns her; after [DELETE /dogs/d1] Buddy
    is not and [GET /dogs/d1] answers NotFound.  The seed array is the same
    in both states. *)
Lemma dogs_after_create :
  App.dogs Samples.afterCreate = (Samples.mockDogs ++ [Samples.daisy])%list
  /\ App.mockDogs Samples.afterCreate = Samples.mockDogs
  /\ dogPresent (App.dogs Samples.afterCreate) "d6"
  /\ ~ dogPresent (App.mockDogs Samples.afterCreate) "d6"
  /\ App.getDog Samples.afterCreate "d6" = Ok 200 Samples.daisy.
Proof.
  split; [reflexivity|]. split; [reflexivity|].
  split; [exists Samples.daisy; split; [do 5 right; left|]; reflexivity|].
  split; [apply findById_absent|]; reflexivity.
Qed.

Lemma dogs_after_delete :
  App.dogs Samples.afterDelete
  = [Samples.luna; Samples.max; Samples.bella; Samples.rocky]
  /\ App.mockDogs Samples.afterDelete = Samples.mockDogs
  /\ ~ dogPresent (App.dogs Samples.afterDelete) "d1"
  /\ dogPresent (App.mockDogs Samples.afterDelete) "d1"
  /\ App.getDog Samples.afterDelete "d1"
     = NotFound {| error := "NOT_FOUND"; message := "Dog with ID d1 not found" |}.
Proof.
  split; [reflexivity|]. split; [reflexivity|].
  split; [apply findById_absent; reflexivity|].
  split; [exists Samples.buddy; split; [left|]; reflexivity|].
  reflexivity.
Qed.

(** C2. Foreign-key guard, where the code departs from it.  The three
    creation handlers look the dog up in the seed array [mockDogs], not in
    the Dog collection [dogs] of the dogs routes.  After [DELETE /dogs/d1]
    Buddy is no longer in the Dog collection, yet a health record, a
    training record and an adoption application for "d1" are each answered
    201 and appended.  After [POST /dogs] has stored Daisy under "d6" she is
    in the Dog collection, yet the three creations for "d6" are each
    answered NotFound and append nothing. *)
Theorem foreign_key_guard_reads_seed :
  (~ dogPresent (App.dogs Samples.afterDelete) "d1"
   /\ App.createHealthRecord Samples.afterDelete (Samples.createHealthRecord "d1")
        "h4" Samples.instant
      = (Ok 201 (Samples.storedHealthRecord "h4" "d1"),
         App.withHealthRecords Samples.afterDelete
           (App.healthRecords Samples.afterDelete ++ [Samples.storedHealthRecord "h4" "d1"]))
   /\ App.createTrainingRecord Samples.afterDelete (Samples.createTrainingRecord "d1")
        "t4" Samples.instant
      = (Ok 201 (Samples.storedTrainingRecord "t4" "d1"),
         App.withTrainingRecords Samples.afterDelete
           (App.trainingRecords Samples.afterDelete
            ++ [Samples.storedTrainingRecord "t4" "d1"]))
   /\ App.createAdoptionApplication Samples.afterDelete (Samples.createApplication "d1")
        "a3" Samples.instant
      = (Ok 201 (Samples.storedApplication "a3" "d1"),
         App.withAdoptionApplications Samples.afterDelete
           (App.adoptionApplications Samples.afterDelete
            ++ [Samples.storedApplication "a3" "d1"])))
  /\ (dogPresent (App.dogs Samples.afterCreate) "d6"
      /\ App.createHealthRecord Samples.afterCreate (Samples.createHealthRecord "d6")
           "h4" Samples.instant
         = (NotFound {| error := "NOT_FOUND"; message := "Dog with ID d6 not found" |},
            Samples.afterCreate)
      /\ App.createTrainingRecord Samples.afterCreate (Samples.createTrainingRecord "d6")
           "t4" Samples.instant
         = (NotFound {| error := "NOT_FOUND"; message := "Dog with ID d6 not found" |},
            Samples.afterCreate)
      /\ App.createAdoptionApplication Samples.afterCreate (Samples.createApplication "d6")
           "a3" Samples.instant
         = (NotFound {| error := "NOT_FOUND"; message := "Dog with ID d6 not found" |},
            Samples.afterCreate)).
Proof.
  split.
  - split; [exact (proj1 (proj2 (proj2 dogs_after_delete)))|].
    split; [|split]; reflexivity.
  - split; [exact (proj1 (proj2 (proj2 dogs_after_create)))|].
    split; [|split]; reflexivity.
Qed.

(** The outcome of the three creations never depends on the Dog collection:
    two states that differ only in [dogs] get the same reply. *)
Lemma guard_ignores_dog_collection (s : App.State) (dogs' : list Dog.t) :
  (forall data freshId now,
     fst (App.createHealthRecord (App.withDogs s dogs') data freshId now)
     = fst (App.createHealthRecord s data freshId now))
  /\ (forall data freshId now,
     fst (App.createTrainingRecord (App.withDogs s dogs') data freshId now)
     = fst (App.createTrainingRecord s data freshId now))
  /\ (forall data freshId now,
     fst (App.createAdoptionApplication (App.withDogs s dogs') data freshId now)
     = fst (App.createAdoptionApplication s data freshId now)).
Proof. repeat split. Qed.

(** ** Progress bucketing *)

Lemma Qle_bool_false (a b : Q) : Qle_bool a b = false -> (b < a)%Q.
Proof.
  intros H. apply Qnot_le_lt. intros Hle.
  apply Qle_bool_iff in Hle. congruence.
Qed.

Ltac decide_Qle a b :=
  let H := fresh "Hcmp" in
  destruct (Qle_bool a b) eqn:H;
  [apply Qle_bool_iff in H | apply Qle_bool_false in H].

Lemma bucket_thresholds : ProgressSpec.Thresholds TrainingRoutes.bucket.
Proof.
  intros avg. unfold TrainingRoutes.bucket.
  decide_Qle avg (3 # 2); decide_Qle avg (5 # 2); decide_Qle avg (7 # 2);
    repeat split; intros; trivial; exfalso; lra.
Qed.

(** *** The trainer map *)

Section TrainerMap.
Import TrainingRoutes.
Implicit Types (m : TrainerMap) (key k : string) (f : TrainerAcc.t -> TrainerAcc.t).

Lemma Map_update_keys m key f : map fst (Map_update m key f) = map fst m.
Proof.
  induction m as [|[k v] m IH]; simpl; trivial.
  destruct (String.eqb k key); simpl; now rewrite ?IH.
Qed.

Lemma Map_update_In m key f k v :
  List.NoDup (map fst m) ->
  In (k, v) (Map_update m key f) ->
  (k <> key /\ In (k, v) m) \/ (k = key /\ exists v0, In (key, v0) m /\ v = f v0).
Proof.
  induction m as [|[k0 v0] m IH]; simpl; [tauto|].
  intros Hnd. apply List.NoDup_cons_iff in Hnd as [Hfresh Hnd].
  destruct (String.eqb_spec k0 key) as [->|Hne]; simpl.
  - intros [Heq|Hin].
    + injection Heq as <- <-. right. eauto.
    + left. split; [|tauto].
      intros ->. apply Hfresh. now apply (in_map fst) in Hin.
  - intros [Heq|Hin].
    + injection Heq as <- <-. left. tauto.
    + destruct (IH Hnd Hin) as [[? ?]|[? [v1 [? ?]]]]; [left; tauto|right; eauto].
Qed.

Lemma Map_has_keys m key : Map_has m key = true <-> In key (map fst m).
Proof.
  unfold Map_has. rewrite existsb_exists, in_map_iff. split.
  - intros [kv [Hin Heq]]. apply String.eqb_eq in Heq. eauto.
  - intros [kv [Heq Hin]]. exists kv. split; trivial. now apply String.eqb_eq.
Qed.

Lemma recordsOfTrainer_snoc k done r :
  ProgressSpec.recordsOfTrainer k (done ++ [r])
  = ProgressSpec.recordsOfTrainer k done
    ++ (if String.eqb (TrainingRecord.trainer r) k then [r] else []).
Proof.
  unfold ProgressSpec.recordsOfTrainer. rewrite List.filter_app. simpl.
  now destruct (String.eqb (TrainingRecord.trainer r) k).
Qed.

Lemma recordsOfTrainer_unseen m k done :
  (forall r, In r done -> In (TrainingRecord.trainer r) (map fst m)) ->
  ~ In k (map fst m) ->
  ProgressSpec.recordsOfTrainer k done = [].
Proof.
  intros Hkeys Hfresh. unfold ProgressSpec.recordsOfTrainer.
  induction done as [|r done IH]; simpl; trivial.
  destruct (String.eqb_spec (TrainingRecord.trainer r) k) as [<-|_].
  - exfalso. apply Hfresh, Hkeys. now left.
  - apply IH. intros r' Hr'. apply Hkeys. now right.
Qed.

Lemma addRecord_inv m done r :
  ProgressSpec.TrainerInv m done -> ProgressSpec.TrainerInv (addRecord m r) (done ++ [r]).
Proof.
  intros [Hnd Hkeys Hentry]. unfold addRecord.
  set (key := TrainingRecord.trainer r).
  set (f := fun trainer : TrainerAcc.t => _).
  set (fresh := TrainerAcc.mk _ _ _ _ _).
  set (m1 := if negb (Map_has m key) then Map_setNew m key fresh else m).
  (* The map the mutation acts on: it has the key, and each entry holds the
     scores of [done]. *)
  assert (Hnd1 : List.NoDup (map fst m1)).
  { unfold m1. destruct (Map_has m key) eqn:Hhas; simpl; trivial.
    unfold Map_setNew. rewrite map_app. simpl.
    apply List.NoDup_app; trivial.
    - repeat constructor. intros [].
    - intros k Hk [<-|[]]. apply Map_has_keys in Hk. congruence. }
  assert (Hkey1 : In key (map fst m1)).
  { unfold m1. destruct (Map_has m key) eqn:Hhas; simpl.
    - now apply Map_has_keys.
    - unfold Map_setNew. rewrite map_app, in_app_iff. right. now left. }
  assert (Hsub : forall k, In k (map fst m) -> In k (map fst m1)).
  { unfold m1. destruct (Map_has m key); simpl; trivial.
    intros k Hk. unfold Map_setNew. rewrite map_app, in_app_iff. now left. }
  assert (Hentry1 : forall k acc, In (k, acc) m1 ->
    TrainerAcc.name acc = k
    /\ TrainerAcc.progressScores acc
       = ProgressSpec.scores (ProgressSpec.recordsOfTrainer k done)
    /\ TrainerAcc.recordCount acc
       = Z.of_nat (length (ProgressSpec.recordsOfTrainer k done))
    /\ (k <> key -> ProgressSpec.recordsOfTrainer k done <> [])).
  { unfold m1. destruct (Map_has m key) eqn:Hhas; simpl.
    - intros k acc Hin. destruct (Hentry k acc Hin) as (? & ? & ? & ?). tauto.
    - intros k acc Hin. unfold Map_setNew in Hin. apply in_app_or in Hin as [Hin|[Heq|[]]].
      + destruct (Hentry k acc Hin) as (? & ? & ? & ?). tauto.
      + injection Heq as <- <-.
        assert (Hnone : ProgressSpec.recordsOfTrainer key done = []).
        { apply (recordsOfTrainer_unseen m); trivial.
          intros Hk. apply Map_has_keys in Hk. congruence. }
        rewrite Hnone. simpl. tauto. }
  clearbody m1. constructor.
  - now rewrite Map_update_keys.
  - intros r' Hr'. rewrite Map_update_keys.
    apply in_app_or in Hr' as [Hr'|[<-|[]]]; [apply Hsub, Hkeys|]; trivial.
  - intros k acc Hin. rewrite recordsOfTrainer_snoc. fold key.
    apply Map_update_In in Hin as [[Hne Hin]|[-> [acc0 [Hin ->]]]]; trivial.
    + destruct (Hentry1 k acc Hin) as (Hn & Hs & Hc & Hne0).
      destruct (String.eqb_spec key k) as [Heq|_]; [congruence|].
      rewrite app_nil_r. auto.
    + destruct (Hentry1 key acc0 Hin) as (Hn & Hs & Hc & _).
      rewrite String.eqb_refl. unfold f; simpl.
      rewrite Hs, Hc. unfold ProgressSpec.scores. rewrite map_app, length_app. simpl.
      repeat split; trivial; [lia|].
      intros Habs. now apply app_eq_nil in Habs as [_ Habs].
Qed.

Lemma fold_addRecord_inv (todo : list TrainingRecord.t) :
  forall m done, ProgressSpec.TrainerInv m done ->
  ProgressSpec.TrainerInv (fold_left addRecord todo m) (done ++ todo).
Proof.
  induction todo as [|r todo IH]; intros m done Hinv; simpl.
  - now rewrite app_nil_r.
  - replace (done ++ r :: todo) with ((done ++ [r]) ++ todo)
      by now rewrite <- app_assoc.
    apply IH. now apply addRecord_inv.
Qed.

Lemma trainerMap_inv (trainingRecords : list TrainingRecord.t) :
  ProgressSpec.TrainerInv (fold_left addRecord trainingRecords []) trainingRecords.
Proof.
  apply (fold_addRecord_inv trainingRecords [] []).
  constructor; simpl; [constructor | tauto | tauto].
Qed.

End TrainerMap.

Lemma trainers_entries (trainingRecords : list TrainingRecord.t) (t : Trainer.t) :
  In t (TrainingRoutes.getTrainersRoute trainingRecords) ->
  let mine := ProgressSpec.recordsOfTrainer (Trainer.name t) trainingRecords in
  mine <> []
  /\ Trainer.recordCount t = Z.of_nat (length mine)
  /\ Trainer.averageProgress t
     = TrainingRoutes.bucket (ProgressSpec.average (ProgressSpec.scores mine)).
Proof.
  unfold TrainingRoutes.getTrainersRoute. intros Hin.
  apply in_map_iff in Hin as [[k acc] [<- Hin]]. simpl.
  destruct (ProgressSpec.inv_entry _ _ (trainerMap_inv trainingRecords) k acc Hin)
    as (Hname & Hscores & Hcount & Hne).
  rewrite Hname. unfold ProgressSpec.average. rewrite <- Hscores. auto.
Qed.

Lemma trainers_cover (trainingRecords : list TrainingRecord.t) (trainer : string) :
  ProgressSpec.recordsOfTrainer trainer trainingRecords <> [] ->
  exists t, In t (TrainingRoutes.getTrainersRoute trainingRecords)
            /\ Trainer.name t = trainer.
Proof.
  intros Hne.
  assert (Hr : exists r, In r trainingRecords /\ TrainingRecord.trainer r = trainer).
  { destruct (ProgressSpec.recordsOfTrainer trainer trainingRecords) as [|r rest] eqn:Hmine;
      [congruence|].
    assert (Hin : In r (ProgressSpec.recordsOfTrainer trainer trainingRecords))
      by (rewrite Hmine; now left).
    apply filter_In in Hin as [Hin Heq]. exists r. split; trivial.
    now apply String.eqb_eq. }
  destruct Hr as [r [Hin <-]].
  pose proof (ProgressSpec.inv_keys _ _ (trainerMap_inv trainingRecords) r Hin) as Hkey.
  apply in_map_iff in Hkey as [[k acc] [Hk Hacc]]. simpl in Hk. subst k.
  exists (TrainingRoutes.summarize acc). split.
  - unfold TrainingRoutes.getTrainersRoute. apply in_map_iff.
    exists (TrainingRecord.trainer r, acc). auto.
  - simpl. now destruct (ProgressSpec.inv_entry _ _ (trainerMap_inv trainingRecords) _ _ Hacc).
Qed.

Lemma progress_Ok (mockDogs : list Dog.t) (trainingRecords : list TrainingRecord.t)
  (dogId : string) :
  dogPresent mockDogs dogId ->
  exists body,
    TrainingRoutes.getDogTrainingProgressRoute mockDogs trainingRecords dogId = Ok 200 body
    /\ TrainingProgress.totalTrainings body
       = Z.of_nat (length (ProgressSpec.recordsOfDog dogId trainingRecords))
    /\ TrainingProgress.overallProgress body
       = TrainingRoutes.bucket
           (match ProgressSpec.recordsOfDog dogId trainingRecords with
            | [] => 2%Q
            | mine => ProgressSpec.average (ProgressSpec.scores mine)
            end).
Proof.
  intros Hpresent. apply findById_present in Hpresent as [dog Hdog].
  unfold TrainingRoutes.getDogTrainingProgressRoute. rewrite Hdog.
  eexists. split; [reflexivity|]. simpl. split; [reflexivity|].
  fold (ProgressSpec.recordsOfDog dogId trainingRecords).
  fold (ProgressSpec.scores (ProgressSpec.recordsOfDog dogId trainingRecords)).
  destruct (ProgressSpec.recordsOfDog dogId trainingRecords) as [|r mine]; reflexivity.
Qed.

(** The handler's scores are the ordinals of the specification, and the
    mean it computes is the mean ordinal score. *)
Lemma progressScore_ordinal (p : Progress) :
  TrainingRoutes.progressScore p = ProgressSpec.ordinal p.
Proof. destruct p; reflexivity. Qed.

Lemma average_scores (records : list TrainingRecord.t) :
  ProgressSpec.average (ProgressSpec.scores records)
  = ProgressSpec.meanOrdinal (ProgressSpec.levels records).
Proof.
  unfold ProgressSpec.average, ProgressSpec.meanOrdinal, ProgressSpec.scores,
    ProgressSpec.levels, TrainingRoutes.sumScores.
  rewrite !length_map, map_map.
  rewrite (map_ext _ (fun record => ProgressSpec.ordinal (TrainingRecord.progress record)))
    by (intros record; apply progressScore_ordinal).
  rewrite (fold_symmetric Z.add Z.add_assoc 0 (fun y => Z.add_comm 0 y)).
  reflexivity.
Qed.

(** C5. Progress bucketing thresholds: a progress level is scored poor = 1,
    fair = 2, good = 3, excellent = 4; an average score is mapped to poor
    when at most 1.5, to fair when at most 2.5, to good when at most 3.5 and
    to excellent above; every trainer of the trainers reply gets the bucket
    of the mean score of that trainer's records, so a trainer with exactly two
    records, good and excellent (mean 3.5), is listed with averageProgress
    good; and the progress summary of a dog that the handler finds buckets
    the mean score of the dog's records the same way. *)
Theorem progress_bucketing :
  (TrainingRoutes.progressScore poor = 1
   /\ TrainingRoutes.progressScore fair = 2
   /\ TrainingRoutes.progressScore good = 3
   /\ TrainingRoutes.progressScore excellent = 4)
  /\ ProgressSpec.Thresholds TrainingRoutes.bucket
  /\ (forall (trainingRecords : list TrainingRecord.t) (t : Trainer.t),
        In t (TrainingRoutes.getTrainersRoute trainingRecords) ->
        Trainer.averageProgress t
        = TrainingRoutes.bucket
            (ProgressSpec.meanOrdinal
               (ProgressSpec.levels
                  (ProgressSpec.recordsOfTrainer (Trainer.name t) trainingRecords))))
  /\ (forall (trainingRecords : list TrainingRecord.t) (trainer : string),
        (ProgressSpec.levels (ProgressSpec.recordsOfTrainer trainer trainingRecords)
         = [good; excellent]
         \/ ProgressSpec.levels (ProgressSpec.recordsOfTrainer trainer trainingRecords)
            = [excellent; good]) ->
        (ProgressSpec.meanOrdinal
           (ProgressSpec.levels (ProgressSpec.recordsOfTrainer trainer trainingRecords))
         == 7 # 2)%Q
        /\ (exists t, In t (TrainingRoutes.getTrainersRoute trainingRecords)
                      /\ Trainer.name t = trainer)
        /\ (forall t, In t (TrainingRoutes.getTrainersRoute trainingRecords) ->
              Trainer.name t = trainer ->
              Trainer.recordCount t = 2 /\ Trainer.averageProgress t = good))
  /\ (forall (mockDogs : list Dog.t) (trainingRecords : list TrainingRecord.t)
        (dogId : string),
        dogPresent mockDogs dogId ->
        ProgressSpec.recordsOfDog dogId trainingRecords <> [] ->
        exists body,
          TrainingRoutes.getDogTrainingProgressRoute mockDogs trainingRecords dogId
          = Ok 200 body
          /\ TrainingProgress.overallProgress body
             = TrainingRoutes.bucket
                 (ProgressSpec.meanOrdinal
                    (ProgressSpec.levels
                       (ProgressSpec.recordsOfDog dogId trainingRecords)))).
Proof.
  split; [repeat split|]. split; [apply bucket_thresholds|]. split; [|split].
  - intros trainingRecords t Hin. rewrite <- average_scores. now apply trainers_entries.
  - intros trainingRecords trainer Hmine.
    assert (Hlen : length (ProgressSpec.recordsOfTrainer trainer trainingRecords) = 2%nat).
    { rewrite <- (length_map TrainingRecord.progress).
      fold (ProgressSpec.levels (ProgressSpec.recordsOfTrainer trainer trainingRecords)).
      destruct Hmine as [-> | ->]; reflexivity. }
    split; [destruct Hmine as [-> | ->]; reflexivity|].
    split.
    + apply trainers_cover. intros Hnil. rewrite Hnil in Hlen. discriminate.
    + intros t Hin <-.
      destruct (trainers_entries trainingRecords t Hin) as (_ & Hcount & Havg).
      rewrite Hcount, Havg, Hlen, average_scores. split; trivial.
      destruct Hmine as [-> | ->]; reflexivity.
  - intros mockDogs trainingRecords dogId Hpresent Hne.
    destruct (progress_Ok mockDogs trainingRecords dogId Hpresent)
      as (body & Hbody & _ & Hover).
    exists body. split; trivial. rewrite Hover, <- average_scores.
    destruct (ProgressSpec.recordsOfDog dogId trainingRecords); [congruence|reflexivity].
Qed.

(** Trainer "X" of the sample collection has the two records of the
    scenario and is listed once, with two records and averageProgress good;
    3.5 itself is bucketed as good. *)
Lemma progress_bucketing_witness :
  (5 # 2 < 7 # 2)%Q /\ (7 # 2 <= 7 # 2)%Q
  /\ TrainingRoutes.bucket (7 # 2) = good
  /\ ProgressSpec.levels (ProgressSpec.recordsOfTrainer "X" Samples.trainerXRecords)
     = [good; excellent]
  /\ (exists t, In t (TrainingRoutes.getTrainersRoute Samples.trainerXRecords)
                /\ Trainer.name t = "X")
  /\ map (fun t => (Trainer.name t, Trainer.recordCount t, Trainer.averageProgress t))
       (TrainingRoutes.getTrainersRoute Samples.trainerXRecords)
     = [("Mark Thompson", 1, excellent); ("Sarah Johnson", 1, excellent);
        ("Robert Miller", 1, excellent); ("X", 2, good)].
Proof.
  assert (Hlo : (5 # 2 < 7 # 2)%Q) by reflexivity.
  assert (Hhi : (7 # 2 <= 7 # 2)%Q) by apply Qle_refl.
  assert (Hmine : ProgressSpec.levels
                    (ProgressSpec.recordsOfTrainer "X" Samples.trainerXRecords)
                  = [good; excellent]) by reflexivity.
  destruct progress_bucketing as (_ & Hth & _ & Hscenario & _).
  split; [exact Hlo|]. split; [exact Hhi|].
  split; [exact (proj1 (proj2 (proj2 (Hth (7 # 2)))) Hlo Hhi)|].
  split; [exact Hmine|].
  split; [exact (proj1 (proj2 (Hscenario Samples.trainerXRecords "X" (or_introl Hmine))))|].
  reflexivity.
Defined.

(** ** Training progress of a dog without records *)





(** ** Sorting *)

Section Sort.
Context {A : Type} (cmp : A -> A -> Z) (key : A -> Z).
Implicit Types (l : list A) (x : A).

Lemma insert_perm x l : Permutation (JSArray.insert cmp x l) (x :: l).
Proof.
  induction l as [|y l IH]; simpl; trivial.
  destruct (cmp x y <=? 0); trivial.
  rewrite IH. apply perm_swap.
Qed.

Lemma sort_perm l : Permutation (JSArray.sort cmp l) l.
Proof.
  induction l as [|x l IH]; simpl; trivial.
  rewrite insert_perm. now constructor.
Qed.

Lemma insert_sorted x l :
  descendingOn cmp key (x :: l) ->
  StronglySorted (fun a b => key b <= key a) l ->
  StronglySorted (fun a b => key b <= key a) (JSArray.insert cmp x l).
Proof.
  intros Hcmp Hsorted. induction Hsorted as [|y l Hsorted IH Hall]; simpl.
  - repeat constructor.
  - assert (Hxy : cmp x y = key y - key x)
      by (apply Hcmp; simpl; tauto).
    destruct (Z.leb_spec (cmp x y) 0) as [Hle|Hgt].
    + constructor; [now constructor|].
      constructor; [lia|].
      eapply List.Forall_impl; [|exact Hall]. simpl. intros z Hz. lia.
    + constructor.
      * apply IH. intros a b Ha Hb. apply Hcmp; simpl in *; tauto.
      * eapply Permutation_Forall; [symmetry; apply insert_perm|].
        constructor; [lia|trivial].
Qed.

Lemma sort_sorted l :
  descendingOn cmp key l ->
  StronglySorted (fun a b => key b <= key a) (JSArray.sort cmp l).
Proof.
  induction l as [|x l IH]; intros Hcmp; simpl; [constructor|].
  apply insert_sorted.
  - intros a b Ha Hb. apply Hcmp.
    + destruct Ha as [<-|Ha]; [now left|right].
      eapply Permutation_in; [apply sort_perm|exact Ha].
    + destruct Hb as [<-|Hb]; [now left|right].
      eapply Permutation_in; [apply sort_perm|exact Hb].
  - apply IH. intros a b Ha Hb. apply Hcmp; now right.
Qed.

End Sort.

(** ** Vaccination history *)












(** With a vaccination on record the same serialization conforms. *)
Example vaccination_some_conforms :
  match HealthRoutes.getDogVaccinationHistoryRoute Samples.mockDogs
          Samples.leapYearRecords JSDate.UTCZone Samples.march1st2024 "d1" with
  | Ok _ body => conforms VaccinationHistorySchema (VaccinationHistory_toJSON body)
  | NotFound _ => false
  end = true.
Proof. reflexivity. Qed.

(** ** Adoption statistics *)











(** Where doubles matter: with a seed of 160 dogs and 23 approvals the rate
    is 14.375, and the handler's [Math.round(adoptionRate * 100)] sees
    1437.4999999999998 and gives 1437, so the answer is 14.37 where rounding
    to two decimals gives 14.38. *)
Example rate_of_23_over_160 :
  let answer :=
    AdoptionStats.adoptionRate
      (AdoptionRoutes.getAdoptionStatsRoute (repeat Samples.buddy 160)
         (Samples.approvals 23)) in
  (AdoptionStatsSpec.rate 23 160 == 14375 # 1000)%Q
  /\ answer = Number.div (Number.ofZ 1437) (Number.ofZ 100)
  /\ AdoptionStatsSpec.RoundedTo2 (AdoptionStatsSpec.rate 23 160)
       (Number.div (Number.ofZ 1438) (Number.ofZ 100))
  /\ answer <> Number.div (Number.ofZ 1438) (Number.ofZ 100).
Proof.
  split; [reflexivity|]. split; [vm_compute; reflexivity|].
  split; [|vm_compute; discriminate].
  exists 1438. split; [reflexivity|]. split; reflexivity || discriminate.
Qed.




(** ** Available dogs *)

Lemma approved_includes (adoptionApplications : list AdoptionApplication.t) (dog : Dog.t) :
  JS.arr_includes
    (map AdoptionApplication.dogId
       (List.filter (fun app => AdoptionStatus_eqb (AdoptionApplication.status app) approved)
          adoptionApplications))
    (Dog.id dog)
  = existsb
      (fun app => AdoptionStatus_eqb (AdoptionApplication.status app) approved
                  && String.eqb (AdoptionApplication.dogId app) (Dog.id dog))
      adoptionApplications.
Proof.
  unfold JS.arr_includes.
  induction adoptionApplications as [|app apps IH]; simpl; trivial.
  destruct (AdoptionStatus_eqb (AdoptionApplication.status app) approved); simpl; trivial.
  now rewrite IH, String.eqb_sym.
Qed.

Lemma available_is_filter (mockDogs : list Dog.t)
  (adoptionApplications : list AdoptionApplication.t) (query : AvailableQuery.t) :
  AdoptionRoutes.getAvailableDogsRoute mockDogs adoptionApplications query
  = List.filter
      (fun dog =>
         AvailableSpec.notAdopted adoptionApplications dog
         && AvailableSpec.matches (AvailableQuery.breed query) (AvailableQuery.size query)
              (AvailableQuery.age_max query) dog)
      mockDogs.
Proof.
  unfold AdoptionRoutes.getAvailableDogsRoute.
  rewrite filterIfTruthy_matches, !filterIfDefined_matches, !filter_filter.
  apply filter_ext. intros dog. unfold AvailableSpec.matches, AvailableSpec.notAdopted.
  rewrite approved_includes, !andb_assoc. reflexivity.
Qed.

(** C9. The available-dogs reply does not depend on [goodWithKids]: two
    queries with the same breed, size and age_max get the same list, whatever
    their [goodWithKids]; the list is the seed dogs without an approved
    application that match those three criteria. *)
Theorem available_ignores_goodWithKids
  (mockDogs : list Dog.t) (adoptionApplications : list AdoptionApplication.t)
  (q1 q2 : AvailableQuery.t) :
  AvailableQuery.breed q1 = AvailableQuery.breed q2 ->
  AvailableQuery.size q1 = AvailableQuery.size q2 ->
  AvailableQuery.age_max q1 = AvailableQuery.age_max q2 ->
  AdoptionRoutes.getAvailableDogsRoute mockDogs adoptionApplications q1
  = AdoptionRoutes.getAvailableDogsRoute mockDogs adoptionApplications q2
  /\ AdoptionRoutes.getAvailableDogsRoute mockDogs adoptionApplications q1
     = List.filter
         (fun dog =>
            AvailableSpec.notAdopted adoptionApplications dog
            && AvailableSpec.matches (AvailableQuery.breed q1) (AvailableQuery.size q1)
                 (AvailableQuery.age_max q1) dog)
         mockDogs.
Proof.
  intros Hbreed Hsize Hage. split; [|apply available_is_filter].
  rewrite !available_is_filter. now rewrite Hbreed, Hsize, Hage.
Qed.

(** Asking for [goodWithKids = true], [false], or not at all: the same dogs. *)
Lemma available_ignores_goodWithKids_witness :
  let q1 := Samples.availableQuery (Some "terrier") (Some true) in
  let q2 := Samples.availableQuery (Some "terrier") (Some false) in
  let q3 := Samples.availableQuery (Some "terrier") None in
  AvailableQuery.goodWithKids q1 <> AvailableQuery.goodWithKids q2
  /\ AdoptionRoutes.getAvailableDogsRoute Samples.mockDogs
       Samples.mockAdoptionApplications q1
     = AdoptionRoutes.getAvailableDogsRoute Samples.mockDogs
         Samples.mockAdoptionApplications q2
  /\ AdoptionRoutes.getAvailableDogsRoute Samples.mockDogs
       Samples.mockAdoptionApplications q1
     = AdoptionRoutes.getAvailableDogsRoute Samples.mockDogs
         Samples.mockAdoptionApplications q3
  /\ map Dog.name
       (AdoptionRoutes.getAvailableDogsRoute Samples.mockDogs
          Samples.mockAdoptionApplications q1)
     = ["Rocky"].
Proof.
  intros q1 q2 q3.
  split; [discriminate|].
  split; [exact (proj1 (available_ignores_goodWithKids Samples.mockDogs
                   Samples.mockAdoptionApplications q1 q2 eq_refl eq_refl eq_refl))|].
  split; [exact (proj1 (available_ignores_goodWithKids Samples.mockDogs
                   Samples.mockAdoptionApplications q1 q3 eq_refl eq_refl eq_refl))|].
  reflexivity.
Defined.

(** * Further properties of the handlers *)

(** ** Lookup and replacement by identifier *)

Section Store.
Context {T : Type} (getId : T -> string).
Implicit Types (items : list T) (id : string) (x : T).

Lemma findById_Some items id x :
  findById getId items id = Some x -> In x items /\ getId x = id.
Proof.
  unfold findById. intros Hfind. apply find_some in Hfind as [Hin Heq].
  split; trivial. now apply String.eqb_eq.
Qed.

Lemma findById_Present items id :
  Present getId items id <-> exists x, findById getId items id = Some x.
Proof.
  split.
  - intros [x [Hin Hid]]. unfold findById.
    destruct (List.find _ items) as [y|] eqn:Hfind; [now exists y|].
    apply (find_none _ _ Hfind) in Hin. simpl in Hin.
    rewrite Hid, String.eqb_refl in Hin. discriminate.
  - intros [x Hfind]. exists x. now apply findById_Some.
Qed.

Lemma findById_None items id :
  ~ Present getId items id <-> findById getId items id = None.
Proof.
  rewrite findById_Present. split.
  - intros Hno. destruct (findById getId items id) as [x|]; trivial.
    exfalso. apply Hno. now exists x.
  - intros Hnone [x Hx]. congruence.
Qed.

Lemma findById_snoc items x id :
  findById getId (items ++ [x]) id
  = match findById getId items id with
    | Some y => Some y
    | None => if String.eqb (getId x) id then Some x else None
    end.
Proof.
  unfold findById. induction items as [|y items IH]; simpl; trivial.
  destruct (String.eqb (getId y) id); trivial.
Qed.

Lemma findIndex_lookup items id :
  match JSArray.findIndex (fun x => String.eqb (getId x) id) items with
  | Some i => items !! i
  | None => None
  end = findById getId items id.
Proof.
  unfold findById. induction items as [|y items IH]; simpl; trivial.
  destruct (String.eqb (getId y) id); trivial.
  destruct (JSArray.findIndex _ items) as [i|]; simpl; trivial.
Qed.

(** Writing [new], which carries the identifier [id], at the index
    [findIndex] returns for [id]. *)
Lemma findById_replace items id (i : nat) (new : T) :
  JSArray.findIndex (fun x => String.eqb (getId x) id) items = Some i ->
  getId new = id ->
  forall id',
    findById getId (<[i := new]> items) id'
    = if String.eqb id id' then Some new else findById getId items id'.
Proof.
  intros Hindex Hnew id'. unfold findById. revert i Hindex.
  induction items as [|y items IH]; intros i Hindex; simpl in *; [discriminate|].
  destruct (String.eqb_spec (getId y) id) as [Hy|Hy].
  - injection Hindex as <-. simpl. rewrite Hnew, Hy.
    now destruct (String.eqb id id').
  - destruct (JSArray.findIndex _ items) as [j|]; [|discriminate].
    injection Hindex as <-. simpl. specialize (IH j eq_refl).
    destruct (String.eqb_spec (getId y) id') as [Hy'|Hy'].
    + destruct (String.eqb_spec id id'); [congruence|trivial].
    + exact IH.
Qed.

Lemma replace_ids items id (i : nat) (new : T) :
  JSArray.findIndex (fun x => String.eqb (getId x) id) items = Some i ->
  getId new = id ->
  map getId (<[i := new]> items) = map getId items.
Proof.
  intros Hindex Hnew. revert i Hindex.
  induction items as [|y items IH]; intros i Hindex; simpl in *; [discriminate|].
  destruct (String.eqb_spec (getId y) id) as [Hy|Hy].
  - injection Hindex as <-. simpl. congruence.
  - destruct (JSArray.findIndex _ items) as [j|]; [|discriminate].
    injection Hindex as <-. simpl. f_equal. now apply IH.
Qed.

End Store.

(** ** Create, then read back *)

(** A dog created under an identifier no dog has yet is what [GET /dogs/:id]
    returns for that identifier afterwards, stamped with the creation time
    twice; every other identifier reads as before. *)
Theorem dog_create_then_get
  (dogs : list Dog.t) (dogData : CreateDog.t) (freshId now : string) :
  ~ Present Dog.id dogs freshId ->
  exists newDog dogs',
    DogsRoutes.createDogRoute dogs dogData freshId now = (Ok 201 newDog, dogs')
    /\ Dog.id newDog = freshId
    /\ Dog.createdAt newDog = now /\ Dog.updatedAt newDog = now
    /\ DogsRoutes.getDogRoute dogs' freshId = Ok 200 newDog
    /\ DogsRoutes.getDogPhotosRoute dogs' freshId
       = Ok 200 {| DogPhotos.dogId := freshId; DogPhotos.photos := CreateDog.photos dogData |}
    /\ (forall id, id <> freshId ->
          DogsRoutes.getDogRoute dogs' id = DogsRoutes.getDogRoute dogs id).
Proof.
  intros Hfresh. apply findById_None in Hfresh.
  unfold DogsRoutes.createDogRoute. simpl.
  eexists. eexists. split; [reflexivity|].
  unfold DogsRoutes.getDogRoute, DogsRoutes.getDogPhotosRoute.
  rewrite !findById_snoc, Hfresh. simpl. rewrite String.eqb_refl.
  repeat split.
  intros id Hne. rewrite findById_snoc. simpl.
  destruct (findById Dog.id dogs id); trivial.
  destruct (String.eqb_spec freshId id); [congruence|trivial].
Qed.

Lemma dog_create_then_get_witness :
  ~ Present Dog.id Samples.mockDogs "d6"
  /\ (exists newDog dogs',
        DogsRoutes.createDogRoute Samples.mockDogs Samples.createDog "d6"
          "2024-03-05T10:00:00.000Z" = (Ok 201 newDog, dogs')
        /\ DogsRoutes.getDogRoute dogs' "d6" = Ok 200 newDog
        /\ DogsRoutes.getDogRoute dogs' "d2" = Ok 200 Samples.luna).
Proof.
  assert (Hfresh : ~ Present Dog.id Samples.mockDogs "d6")
    by (apply findById_None; reflexivity).
  split; [exact Hfresh|].
  destruct (dog_create_then_get Samples.mockDogs Samples.createDog "d6"
              "2024-03-05T10:00:00.000Z" Hfresh)
    as (newDog & dogs' & Hcreate & _ & _ & _ & Hget & _ & Hothers).
  exists newDog, dogs'. split; [exact Hcreate|]. split; [exact Hget|].
  rewrite (Hothers "d2") by discriminate. reflexivity.
Defined.

(** The same for the three collections that hang off a dog: a record
    created for a seed dog under a fresh identifier is what the collection's
    GET by identifier returns afterwards, it carries the body's dog and the
    creation time twice, and an application starts out pending without
    notes. *)
Theorem record_create_then_get :
  (forall (mockDogs : list Dog.t) (healthRecords : list HealthRecord.t)
      (recordData : CreateHealthRecord.t) (freshId now : string),
      dogPresent mockDogs (CreateHealthRecord.dogId recordData) ->
      ~ Present HealthRecord.id healthRecords freshId ->
      exists record healthRecords',
        HealthRoutes.createHealthRecordRoute mockDogs healthRecords recordData freshId now
        = (Ok 201 record, healthRecords')
        /\ HealthRecord.id record = freshId
        /\ HealthRecord.createdAt record = now /\ HealthRecord.updatedAt record = now
        /\ HealthRoutes.getHealthRecordRoute healthRecords' freshId = Ok 200 record
        /\ (forall id, id <> freshId ->
              HealthRoutes.getHealthRecordRoute healthRecords' id
              = HealthRoutes.getHealthRecordRoute healthRecords id))
  /\ (forall (mockDogs : list Dog.t) (trainingRecords : list TrainingRecord.t)
      (recordData : CreateTrainingRecord.t) (freshId now : string),
      dogPresent mockDogs (CreateTrainingRecord.dogId recordData) ->
      ~ Present TrainingRecord.id trainingRecords freshId ->
      exists record trainingRecords',
        TrainingRoutes.createTrainingRecordRoute mockDogs trainingRecords recordData
          freshId now
        = (Ok 201 record, trainingRecords')
        /\ TrainingRecord.id record = freshId
        /\ TrainingRecord.createdAt record = now /\ TrainingRecord.updatedAt record = now
        /\ TrainingRoutes.getTrainingRecordRoute trainingRecords' freshId = Ok 200 record
        /\ (forall id, id <> freshId ->
              TrainingRoutes.getTrainingRecordRoute trainingRecords' id
              = TrainingRoutes.getTrainingRecordRoute trainingRecords id))
  /\ (forall (mockDogs : list Dog.t) (adoptionApplications : list AdoptionApplication.t)
      (applicationData : CreateAdoptionApplication.t) (freshId now : string),
      dogPresent mockDogs (CreateAdoptionApplication.dogId applicationData) ->
      ~ Present AdoptionApplication.id adoptionApplications freshId ->
      exists application adoptionApplications',
        AdoptionRoutes.createAdoptionApplicationRoute mockDogs adoptionApplications
          applicationData freshId now
        = (Ok 201 application, adoptionApplications')
        /\ AdoptionApplication.id application = freshId
        /\ AdoptionApplication.status application = pending
        /\ AdoptionApplication.notes application = None
        /\ AdoptionApplication.createdAt application = now
        /\ AdoptionApplication.updatedAt application = now
        /\ AdoptionRoutes.getAdoptionApplicationRoute adoptionApplications' freshId
           = Ok 200 application
        /\ (forall id, id <> freshId ->
              AdoptionRoutes.getAdoptionApplicationRoute adoptionApplications' id
              = AdoptionRoutes.getAdoptionApplicationRoute adoptionApplications id)).
Proof.
  split; [|split].
  - intros mockDogs records data freshId now Hdog Hfresh.
    apply findById_present in Hdog as [dog Hdog]. apply findById_None in Hfresh.
    unfold HealthRoutes.createHealthRecordRoute. rewrite Hdog. simpl.
    eexists. eexists. split; [reflexivity|].
    unfold HealthRoutes.getHealthRecordRoute.
    rewrite findById_snoc, Hfresh. simpl. rewrite String.eqb_refl.
    repeat split.
    intros id Hne. rewrite findById_snoc. simpl.
    destruct (findById HealthRecord.id records id); trivial.
    destruct (String.eqb_spec freshId id); [congruence|trivial].
  - intros mockDogs records data freshId now Hdog Hfresh.
    apply findById_present in Hdog as [dog Hdog]. apply findById_None in Hfresh.
    unfold TrainingRoutes.createTrainingRecordRoute. rewrite Hdog. simpl.
    eexists. eexists. split; [reflexivity|].
    unfold TrainingRoutes.getTrainingRecordRoute.
    rewrite findById_snoc, Hfresh. simpl. rewrite String.eqb_refl.
    repeat split.
    intros id Hne. rewrite findById_snoc. simpl.
    destruct (findById TrainingRecord.id records id); trivial.
    destruct (String.eqb_spec freshId id); [congruence|trivial].
  - intros mockDogs records data freshId now Hdog Hfresh.
    apply findById_present in Hdog as [dog Hdog]. apply findById_None in Hfresh.
    unfold AdoptionRoutes.createAdoptionApplicationRoute. rewrite Hdog. simpl.
    eexists. eexists. split; [reflexivity|].
    unfold AdoptionRoutes.getAdoptionApplicationRoute.
    rewrite findById_snoc, Hfresh. simpl. rewrite String.eqb_refl.
    repeat split.
    intros id Hne. rewrite findById_snoc. simpl.
    destruct (findById AdoptionApplication.id records id); trivial.
    destruct (String.eqb_spec freshId id); [congruence|trivial].
Qed.

Lemma record_create_then_get_witness :
  dogPresent Samples.mockDogs "d1"
  /\ ~ Present HealthRecord.id Samples.mockHealthRecords "h4"
  /\ ~ Present AdoptionApplication.id Samples.mockAdoptionApplications "a3"
  /\ (exists record healthRecords',
        HealthRoutes.createHealthRecordRoute Samples.mockDogs Samples.mockHealthRecords
          (Samples.createHealthRecord "d1") "h4" "2024-03-05T10:00:00.000Z"
        = (Ok 201 record, healthRecords')
        /\ HealthRoutes.getHealthRecordRoute healthRecords' "h4" = Ok 200 record)
  /\ (exists application adoptionApplications',
        AdoptionRoutes.createAdoptionApplicationRoute Samples.mockDogs
          Samples.mockAdoptionApplications (Samples.createApplication "d1") "a3"
          "2024-03-05T10:00:00.000Z"
        = (Ok 201 application, adoptionApplications')
        /\ AdoptionApplication.status application = pending
        /\ AdoptionRoutes.getAdoptionApplicationRoute adoptionApplications' "a3"
           = Ok 200 application).
Proof.
  assert (Hdog : dogPresent Samples.mockDogs "d1")
    by (exists Samples.buddy; split; [left|]; reflexivity).
  assert (Hh : ~ Present HealthRecord.id Samples.mockHealthRecords "h4")
    by (apply findById_None; reflexivity).
  assert (Ha : ~ Present AdoptionApplication.id Samples.mockAdoptionApplications "a3")
    by (apply findById_None; reflexivity).
  destruct record_create_then_get as (Hhealth & _ & Hadoption).
  split; [exact Hdog|]. split; [exact Hh|]. split; [exact Ha|]. split.
  - destruct (Hhealth Samples.mockDogs Samples.mockHealthRecords
                (Samples.createHealthRecord "d1") "h4" "2024-03-05T10:00:00.000Z" Hdog Hh)
      as (record & records' & Hcreate & _ & _ & _ & Hget & _).
    exists record, records'. split; [exact Hcreate | exact Hget].
  - destruct (Hadoption Samples.mockDogs Samples.mockAdoptionApplications
                (Samples.createApplication "d1") "a3" "2024-03-05T10:00:00.000Z" Hdog Ha)
      as (app & apps' & Hcreate & _ & Hstatus & _ & _ & _ & Hget & _).
    exists app, apps'. split; [exact Hcreate|]. split; [exact Hstatus | exact Hget].
Defined.

(** ** Delete *)

Lemma removeFirst_None (dogs : list Dog.t) (id : string) :
  DogsRoutes.removeFirst id dogs = None <-> findById Dog.id dogs id = None.
Proof.
  unfold findById. induction dogs as [|dog dogs IH]; simpl; [tauto|].
  destruct (String.eqb (Dog.id dog) id); [split; discriminate|].
  rewrite <- IH.
  destruct (DogsRoutes.removeFirst id dogs); simpl; split; intros H;
    trivial; discriminate.
Qed.

Lemma removeFirst_Some (dogs dogs' : list Dog.t) (id : string) :
  DogsRoutes.removeFirst id dogs = Some dogs' ->
  length dogs = S (length dogs')
  /\ sublist dogs' dogs
  /\ (forall id', id' <> id -> findById Dog.id dogs' id' = findById Dog.id dogs id')
  /\ (uniqueIds Dog.id dogs -> findById Dog.id dogs' id = None).
Proof.
  revert dogs'. induction dogs as [|dog dogs IH]; intros dogs' Hrem; simpl in *;
    [discriminate|].
  destruct (String.eqb_spec (Dog.id dog) id) as [Hid|Hid].
  - injection Hrem as <-. repeat split.
    + now constructor.
    + intros id' Hne. unfold findById. simpl.
      destruct (String.eqb_spec (Dog.id dog) id'); [congruence|trivial].
    + intros Hunique. apply (findById_None Dog.id). intros [d [Hin Hd]].
      unfold uniqueIds in Hunique. simpl in Hunique.
      apply List.NoDup_cons_iff in Hunique as [Hfresh _]. apply Hfresh.
      rewrite Hid, <- Hd. now apply in_map.
  - destruct (DogsRoutes.removeFirst id dogs) as [rest|]; [|discriminate].
    injection Hrem as <-. destruct (IH rest eq_refl) as (Hlen & Hsub & Hothers & Hgone).
    repeat split.
    + simpl. now rewrite Hlen.
    + now constructor.
    + intros id' Hne. unfold findById in *. simpl.
      destruct (String.eqb (Dog.id dog) id'); trivial. now apply Hothers.
    + intros Hunique. unfold uniqueIds in Hunique. simpl in Hunique.
      apply List.NoDup_cons_iff in Hunique as [_ Hunique].
      unfold findById in *. simpl.
      destruct (String.eqb_spec (Dog.id dog) id); [congruence|]. now apply Hgone.
Qed.

(** [DELETE /dogs/:id] refuses an identifier no dog has and leaves the
    array alone; otherwise it takes out exactly one dog, keeps the others in
    their order, every other identifier reads as before, and, when
    identifiers are unique, the deleted one is no longer found. *)
Theorem dog_delete (dogs : list Dog.t) (id : string) :
  (~ Present Dog.id dogs id ->
     exists e, DogsRoutes.deleteDogRoute dogs id = (NotFound e, dogs))
  /\ (Present Dog.id dogs id ->
     exists dogs',
       DogsRoutes.deleteDogRoute dogs id = (Ok 204 tt, dogs')
       /\ length dogs = S (length dogs')
       /\ sublist dogs' dogs
       /\ (forall id', id' <> id ->
             DogsRoutes.getDogRoute dogs' id' = DogsRoutes.getDogRoute dogs id')
       /\ (uniqueIds Dog.id dogs ->
             exists e, DogsRoutes.getDogRoute dogs' id = NotFound e)).
Proof.
  unfold DogsRoutes.deleteDogRoute. split.
  - intros Habsent. apply findById_None, removeFirst_None in Habsent.
    rewrite Habsent. eauto.
  - intros Hpresent.
    destruct (DogsRoutes.removeFirst id dogs) as [dogs'|] eqn:Hrem.
    + destruct (removeFirst_Some dogs dogs' id Hrem) as (Hlen & Hsub & Hothers & Hgone).
      exists dogs'. repeat split; trivial.
      * intros id' Hne. unfold DogsRoutes.getDogRoute. now rewrite Hothers.
      * intros Hunique. unfold DogsRoutes.getDogRoute. rewrite (Hgone Hunique). eauto.
    + apply removeFirst_None, findById_None in Hrem. contradiction.
Qed.

Lemma dog_delete_witness :
  ~ Present Dog.id Samples.mockDogs "d9"
  /\ Present Dog.id Samples.mockDogs "d2"
  /\ uniqueIds Dog.id Samples.mockDogs
  /\ (exists e, DogsRoutes.deleteDogRoute Samples.mockDogs "d9"
                = (NotFound e, Samples.mockDogs))
  /\ (exists dogs',
        DogsRoutes.deleteDogRoute Samples.mockDogs "d2" = (Ok 204 tt, dogs')
        /\ map Dog.name dogs' = ["Buddy"; "Max"; "Bella"; "Rocky"]
        /\ (exists e, DogsRoutes.getDogRoute dogs' "d2" = NotFound e)).
Proof.
  assert (Habsent : ~ Present Dog.id Samples.mockDogs "d9")
    by (apply findById_None; reflexivity).
  assert (Hpresent : Present Dog.id Samples.mockDogs "d2")
    by (exists Samples.luna; split; [right; left|]; reflexivity).
  assert (Hunique : uniqueIds Dog.id Samples.mockDogs).
  { unfold uniqueIds. simpl. repeat constructor; simpl; intuition discriminate. }
  split; [exact Habsent|]. split; [exact Hpresent|]. split; [exact Hunique|].
  split; [exact (proj1 (dog_delete Samples.mockDogs "d9") Habsent)|].
  destruct (proj2 (dog_delete Samples.mockDogs "d2") Hpresent)
    as (dogs' & Hdelete & _ & _ & _ & Hgone).
  exists dogs'. split; [exact Hdelete|]. split; [|exact (Hgone Hunique)].
  vm_compute in Hdelete. injection Hdelete as <-. reflexivity.
Defined.

(** ** Update *)

(** What [findIndex] and the indexed read give for an identifier that
    [findById] finds. *)
Lemma findIndex_of_found {T : Type} (getId : T -> string) (items : list T)
  (id : string) (old : T) :
  findById getId items id = Some old ->
  exists i, JSArray.findIndex (fun x => String.eqb (getId x) id) items = Some i
            /\ items !! i = Some old.
Proof.
  intros Hfound. rewrite <- findIndex_lookup in Hfound.
  destruct (JSArray.findIndex _ items) as [i|]; [eauto|discriminate].
Qed.

Lemma findIndex_of_absent {T : Type} (getId : T -> string) (items : list T) (id : string) :
  findById getId items id = None ->
  match JSArray.findIndex (fun x => String.eqb (getId x) id) items with
  | Some i => items !! i = None
  | None => True
  end.
Proof.
  intros Habsent. rewrite <- findIndex_lookup in Habsent.
  now destruct (JSArray.findIndex _ items).
Qed.

(** [PUT /dogs/:id] refuses an identifier no dog has and leaves the array
    alone; otherwise it replies with the first dog of that identifier
    overlaid with the patch: every field the patch carries takes the patch's
    value and every other field keeps the dog's; the dog keeps its
    identifier and creation time and is stamped with the update time; the
    sequence of identifiers stays as it was, and afterwards the identifier
    reads as the updated dog and every other one as before. *)
Theorem dog_update (dogs : list Dog.t) (id : string) (updateData : UpdateDog.t)
  (now : string) :
  (~ Present Dog.id dogs id ->
     exists e, DogsRoutes.updateDogRoute dogs id updateData now = (NotFound e, dogs))
  /\ (forall old, findById Dog.id dogs id = Some old ->
     exists updated dogs',
       DogsRoutes.updateDogRoute dogs id updateData now = (Ok 200 updated, dogs')
       /\ Dog.id updated = id
       /\ Dog.createdAt updated = Dog.createdAt old
       /\ Dog.updatedAt updated = now
       /\ Overlaid (Dog.name old) (UpdateDog.name updateData) (Dog.name updated)
       /\ Overlaid (Dog.breed old) (UpdateDog.breed updateData) (Dog.breed updated)
       /\ Overlaid (Dog.age old) (UpdateDog.age updateData) (Dog.age updated)
       /\ Overlaid (Dog.weight old) (UpdateDog.weight updateData) (Dog.weight updated)
       /\ Overlaid (Dog.gender old) (UpdateDog.gender updateData) (Dog.gender updated)
       /\ Overlaid (Dog.color old) (UpdateDog.color updateData) (Dog.color updated)
       /\ Overlaid (Dog.size old) (UpdateDog.size updateData) (Dog.size updated)
       /\ Overlaid (Dog.temperament old) (UpdateDog.temperament updateData)
            (Dog.temperament updated)
       /\ Overlaid (Dog.isNeutered old) (UpdateDog.isNeutered updateData)
            (Dog.isNeutered updated)
       /\ Overlaid (Dog.microchipId old) (option_map Some (UpdateDog.microchipId updateData))
            (Dog.microchipId updated)
       /\ Overlaid (Dog.photos old) (UpdateDog.photos updateData) (Dog.photos updated)
       /\ Overlaid (Dog.description old) (UpdateDog.description updateData)
            (Dog.description updated)
       /\ map Dog.id dogs' = map Dog.id dogs
       /\ DogsRoutes.getDogRoute dogs' id = Ok 200 updated
       /\ (forall id', id' <> id ->
             DogsRoutes.getDogRoute dogs' id' = DogsRoutes.getDogRoute dogs id')).
Proof.
  unfold DogsRoutes.updateDogRoute. split.
  - intros Habsent. apply findById_None in Habsent.
    pose proof (findIndex_of_absent Dog.id dogs id Habsent) as Hindex.
    destruct (JSArray.findIndex _ dogs) as [i|]; [rewrite Hindex|]; eauto.
  - intros old Hfound.
    destruct (findById_Some Dog.id dogs id old Hfound) as [_ Hid].
    destruct (findIndex_of_found Dog.id dogs id old Hfound) as (i & Hindex & Hold).
    rewrite Hindex, Hold. do 2 eexists. split; [reflexivity|].
    assert (Hnew : Dog.id (DogsRoutes.updatedDog old updateData now) = id) by exact Hid.
    split; [exact Hnew|]. split; [reflexivity|]. split; [reflexivity|].
    destruct updateData as [name breed age weight gender color size temperament
                              isNeutered microchipId photos description].
    cbn [DogsRoutes.updatedDog UpdateDog.name UpdateDog.breed UpdateDog.age
         UpdateDog.weight UpdateDog.gender UpdateDog.color UpdateDog.size
         UpdateDog.temperament UpdateDog.isNeutered UpdateDog.microchipId
         UpdateDog.photos UpdateDog.description
         Dog.name Dog.breed Dog.age Dog.weight Dog.gender Dog.color Dog.size
         Dog.temperament Dog.isNeutered Dog.microchipId Dog.photos Dog.description].
    split; [now destruct name|]. split; [now destruct breed|].
    split; [now destruct age|]. split; [now destruct weight|].
    split; [now destruct gender|]. split; [now destruct color|].
    split; [now destruct size|]. split; [now destruct temperament|].
    split; [now destruct isNeutered|]. split; [now destruct microchipId|].
    split; [now destruct photos|]. split; [now destruct description|].
    split; [|split].
    + exact (replace_ids Dog.id dogs id i _ Hindex Hnew).
    + unfold DogsRoutes.getDogRoute.
      rewrite (findById_replace Dog.id dogs id i _ Hindex Hnew).
      now rewrite String.eqb_refl.
    + intros id' Hne. unfold DogsRoutes.getDogRoute.
      rewrite (findById_replace Dog.id dogs id i _ Hindex Hnew).
      destruct (String.eqb_spec id id'); [congruence|trivial].
Qed.

(** Luna's birthday: the patch carries age 3 and weight 46 and nothing
    else. *)
Lemma dog_update_witness :
  ~ Present Dog.id Samples.mockDogs "d9"
  /\ findById Dog.id Samples.mockDogs "d2" = Some Samples.luna
  /\ (exists e, DogsRoutes.updateDogRoute Samples.mockDogs "d9" Scenarios.birthday
                  "2024-03-05T10:00:00.000Z" = (NotFound e, Samples.mockDogs))
  /\ (exists updated dogs',
        DogsRoutes.updateDogRoute Samples.mockDogs "d2" Scenarios.birthday
          "2024-03-05T10:00:00.000Z"
        = (Ok 200 updated, dogs')
        /\ Dog.age updated = 3
        /\ Dog.weight updated = 46%Q
        /\ Dog.name updated = "Luna"
        /\ Dog.breed updated = "Border Collie"
        /\ Dog.updatedAt updated = "2024-03-05T10:00:00.000Z"
        /\ map Dog.age dogs' = [3; 3; 5; 1; 4]
        /\ map Dog.name dogs' = map Dog.name Samples.mockDogs).
Proof.
  assert (Habsent : ~ Present Dog.id Samples.mockDogs "d9")
    by (apply findById_None; reflexivity).
  assert (Hfound : findById Dog.id Samples.mockDogs "d2" = Some Samples.luna)
    by reflexivity.
  split; [exact Habsent|]. split; [exact Hfound|].
  split; [exact (proj1 (dog_update Samples.mockDogs "d9" Scenarios.birthday
                          "2024-03-05T10:00:00.000Z") Habsent)|].
  destruct (proj2 (dog_update Samples.mockDogs "d2" Scenarios.birthday
                     "2024-03-05T10:00:00.000Z") Samples.luna Hfound)
    as (updated & dogs' & Hupdate & _ & _ & Hstamp & Hname & Hbreed & Hage & Hweight & _).
  exists updated, dogs'. split; [exact Hupdate|].
  split; [exact Hage|]. split; [exact Hweight|]. split; [exact Hname|].
  split; [exact Hbreed|]. split; [exact Hstamp|].
  vm_compute in Hupdate. injection Hupdate as _ <-. split; reflexivity.
Defined.

Lemma replace_keeps {T B : Type} (f : T -> B) (items : list T) (i : nat) (old new : T) :
  items !! i = Some old -> f new = f old ->
  map f (<[i := new]> items) = map f items.
Proof.
  revert i. induction items as [|y items IH]; intros [|i] Hold Hf; simpl in *;
    try discriminate.
  - injection Hold as ->. now rewrite Hf.
  - f_equal. now apply IH.
Qed.

Lemma replace_In {T : Type} (items : list T) (i : nat) (old new : T) :
  items !! i = Some old -> In new (<[i := new]> items).
Proof.
  revert i. induction items as [|y items IH]; intros [|i] Hold; simpl in *;
    try discriminate.
  - now left.
  - right. now apply (IH i).
Qed.

Lemma filter_length_map {T B : Type} (f : T -> B) (p : B -> bool) (l l' : list T) :
  map f l = map f l' ->
  length (List.filter (fun x => p (f x)) l) = length (List.filter (fun x => p (f x)) l').
Proof.
  revert l'. induction l as [|x l IH]; intros [|x' l'] Hmap; simpl in *;
    try discriminate; trivial.
  injection Hmap as Hx Hl. rewrite Hx.
  destruct (p (f x')); simpl; rewrite (IH l' Hl); reflexivity.
Qed.

(** [PUT /adoption/applications/:id/status] refuses an unknown identifier;
    otherwise the application gets the new status and keeps its dog and its
    identifier; notes that are absent or empty leave the notes it has, other
    notes replace them; and the identifier reads as the updated application
    afterwards. *)
Theorem application_status_update
  (adoptionApplications : list AdoptionApplication.t) (id : string)
  (status : AdoptionStatus) (notes : option string) (now : string) :
  (~ Present AdoptionApplication.id adoptionApplications id ->
     exists e,
       AdoptionRoutes.updateApplicationStatusRoute adoptionApplications id status notes now
       = (NotFound e, adoptionApplications))
  /\ (forall old, findById AdoptionApplication.id adoptionApplications id = Some old ->
     exists updated adoptionApplications',
       AdoptionRoutes.updateApplicationStatusRoute adoptionApplications id status notes now
       = (Ok 200 updated, adoptionApplications')
       /\ AdoptionApplication.id updated = id
       /\ AdoptionApplication.dogId updated = AdoptionApplication.dogId old
       /\ AdoptionApplication.status updated = status
       /\ AdoptionApplication.updatedAt updated = now
       /\ (notes = None \/ notes = Some "" ->
             AdoptionApplication.notes updated = AdoptionApplication.notes old)
       /\ (forall n, notes = Some n -> n <> "" ->
             AdoptionApplication.notes updated = Some n)
       /\ length adoptionApplications' = length adoptionApplications
       /\ AdoptionRoutes.getAdoptionApplicationRoute adoptionApplications' id
          = Ok 200 updated
       /\ (forall id', id' <> id ->
             AdoptionRoutes.getAdoptionApplicationRoute adoptionApplications' id'
             = AdoptionRoutes.getAdoptionApplicationRoute adoptionApplications id')).
Proof.
  unfold AdoptionRoutes.updateApplicationStatusRoute. split.
  - intros Habsent. apply findById_None in Habsent.
    pose proof (findIndex_of_absent AdoptionApplication.id _ id Habsent) as Hindex.
    destruct (JSArray.findIndex _ adoptionApplications) as [i|]; [rewrite Hindex|]; eauto.
  - intros old Hfound.
    destruct (findById_Some AdoptionApplication.id _ id old Hfound) as [_ Hid].
    destruct (findIndex_of_found AdoptionApplication.id _ id old Hfound)
      as (i & Hindex & Hold).
    rewrite Hindex, Hold. eexists. eexists. simpl. split; [reflexivity|].
    assert (Hnew : AdoptionApplication.id
                     (AdoptionRoutes.updatedApplication old status notes now) = id)
      by exact Hid.
    repeat split; trivial.
    + intros [-> | ->]; reflexivity.
    + intros n -> Hn. simpl. destruct n; [congruence|reflexivity].
    + apply length_insert.
    + unfold AdoptionRoutes.getAdoptionApplicationRoute.
      rewrite (findById_replace AdoptionApplication.id _ id i _ Hindex Hnew).
      now rewrite String.eqb_refl.
    + intros id' Hne. unfold AdoptionRoutes.getAdoptionApplicationRoute.
      rewrite (findById_replace AdoptionApplication.id _ id i _ Hindex Hnew).
      destruct (String.eqb_spec id id'); [congruence|trivial].
Qed.

(** Approving the pending application "a1" with empty notes keeps its notes. *)
Lemma application_status_update_witness :
  ~ Present AdoptionApplication.id Samples.mockAdoptionApplications "a9"
  /\ findById AdoptionApplication.id Samples.mockAdoptionApplications "a1"
     = Some (Samples.application "a1" "d1" pending)
  /\ (exists e,
        AdoptionRoutes.updateApplicationStatusRoute Samples.mockAdoptionApplications
          "a9" approved None "2024-03-05T10:00:00.000Z"
        = (NotFound e, Samples.mockAdoptionApplications))
  /\ (exists updated adoptionApplications',
        AdoptionRoutes.updateApplicationStatusRoute Samples.mockAdoptionApplications
          "a1" approved (Some "") "2024-03-05T10:00:00.000Z"
        = (Ok 200 updated, adoptionApplications')
        /\ AdoptionApplication.status updated = approved
        /\ AdoptionApplication.notes updated
           = AdoptionApplication.notes (Samples.application "a1" "d1" pending)).
Proof.
  assert (Habsent : ~ Present AdoptionApplication.id Samples.mockAdoptionApplications "a9")
    by (apply findById_None; reflexivity).
  assert (Hfound : findById AdoptionApplication.id Samples.mockAdoptionApplications "a1"
                   = Some (Samples.application "a1" "d1" pending)) by reflexivity.
  split; [exact Habsent|]. split; [exact Hfound|].
  split; [exact (proj1 (application_status_update Samples.mockAdoptionApplications
                          "a9" approved None "2024-03-05T10:00:00.000Z") Habsent)|].
  destruct (proj2 (application_status_update Samples.mockAdoptionApplications
                     "a1" approved (Some "") "2024-03-05T10:00:00.000Z") _ Hfound)
    as (updated & apps' & Hupdate & _ & _ & Hstatus & _ & Hnotes & _).
  exists updated, apps'. split; [exact Hupdate|]. split; [exact Hstatus|].
  apply Hnotes. now right.
Defined.

(** Once an application is approved, its dog is on no list of available
    dogs, whatever the query. *)
Theorem approval_takes_dog_off
  (mockDogs : list Dog.t) (adoptionApplications : list AdoptionApplication.t)
  (id : string) (notes : option string) (now : string)
  (old : AdoptionApplication.t) (query : AvailableQuery.t) (dog : Dog.t) :
  findById AdoptionApplication.id adoptionApplications id = Some old ->
  In dog
    (AdoptionRoutes.getAvailableDogsRoute mockDogs
       (snd (AdoptionRoutes.updateApplicationStatusRoute adoptionApplications id
               approved notes now))
       query) ->
  Dog.id dog <> AdoptionApplication.dogId old.
Proof.
  intros Hfound Hin Hsame.
  destruct (findIndex_of_found AdoptionApplication.id _ id old Hfound)
    as (i & Hindex & Hold).
  unfold AdoptionRoutes.updateApplicationStatusRoute in Hin.
  rewrite Hindex, Hold in Hin. simpl in Hin.
  rewrite available_is_filter in Hin. apply filter_In in Hin as [_ Hkeep].
  apply andb_prop in Hkeep as [Hfree _].
  unfold AvailableSpec.notAdopted in Hfree. apply negb_true_iff in Hfree.
  assert (Hex : existsb
            (fun app => AdoptionStatus_eqb (AdoptionApplication.status app) approved
                        && String.eqb (AdoptionApplication.dogId app) (Dog.id dog))
            (<[i := AdoptionRoutes.updatedApplication old approved notes now]>
               adoptionApplications) = true).
  { apply existsb_exists.
    exists (AdoptionRoutes.updatedApplication old approved notes now). split.
    - now apply (replace_In _ i old).
    - simpl. rewrite Hsame. apply String.eqb_refl. }
  congruence.
Qed.

(** Buddy is available on the seed, and no longer once "a1" is approved. *)
Lemma approval_takes_dog_off_witness :
  let query := Samples.availableQuery None None in
  let approvedLater :=
    snd (AdoptionRoutes.updateApplicationStatusRoute Samples.mockAdoptionApplications
           "a1" approved None "2024-03-05T10:00:00.000Z") in
  findById AdoptionApplication.id Samples.mockAdoptionApplications "a1"
  = Some (Samples.application "a1" "d1" pending)
  /\ map Dog.name
       (AdoptionRoutes.getAvailableDogsRoute Samples.mockDogs
          Samples.mockAdoptionApplications query)
     = ["Buddy"; "Bella"; "Rocky"]
  /\ In Samples.bella
       (AdoptionRoutes.getAvailableDogsRoute Samples.mockDogs approvedLater query)
  /\ Dog.id Samples.bella <> "d1"
  /\ map Dog.name (AdoptionRoutes.getAvailableDogsRoute Samples.mockDogs approvedLater query)
     = ["Bella"; "Rocky"].
Proof.
  intros query approvedLater.
  assert (Hfound : findById AdoptionApplication.id Samples.mockAdoptionApplications "a1"
                   = Some (Samples.application "a1" "d1" pending)) by reflexivity.
  assert (Hin : In Samples.bella
                  (AdoptionRoutes.getAvailableDogsRoute Samples.mockDogs approvedLater query))
    by (left; reflexivity).
  split; [exact Hfound|]. split; [reflexivity|]. split; [exact Hin|].
  split; [|reflexivity].
  exact (approval_takes_dog_off Samples.mockDogs Samples.mockAdoptionApplications "a1"
           None "2024-03-05T10:00:00.000Z" _ query Samples.bella Hfound Hin).
Defined.

Lemma countStatus_snoc (s : AdoptionStatus) (apps : list AdoptionApplication.t)
  (app : AdoptionApplication.t) :
  AdoptionRoutes.countStatus s (apps ++ [app])
  = AdoptionRoutes.countStatus s apps
    + (if AdoptionStatus_eqb (AdoptionApplication.status app) s then 1 else 0).
Proof.
  unfold AdoptionRoutes.countStatus. rewrite List.filter_app, length_app. simpl.
  destruct (AdoptionStatus_eqb (AdoptionApplication.status app) s); simpl; lia.
Qed.

(** Submitting an application, accepted or not, takes no dog off the list of
    available dogs and leaves the approved count and the adoption rate as
    they were; an accepted one adds one to the pending and total counts. *)
Theorem application_leaves_availability
  (mockDogs : list Dog.t) (adoptionApplications : list AdoptionApplication.t)
  (applicationData : CreateAdoptionApplication.t) (freshId now : string) :
  let after :=
    snd (AdoptionRoutes.createAdoptionApplicationRoute mockDogs adoptionApplications
           applicationData freshId now) in
  let stats := AdoptionRoutes.getAdoptionStatsRoute mockDogs adoptionApplications in
  let stats' := AdoptionRoutes.getAdoptionStatsRoute mockDogs after in
  (forall query,
     AdoptionRoutes.getAvailableDogsRoute mockDogs after query
     = AdoptionRoutes.getAvailableDogsRoute mockDogs adoptionApplications query)
  /\ AdoptionStats.approvedApplications stats' = AdoptionStats.approvedApplications stats
  /\ AdoptionStats.availableForAdoption stats' = AdoptionStats.availableForAdoption stats
  /\ AdoptionStats.adoptionRate stats' = AdoptionStats.adoptionRate stats
  /\ (dogPresent mockDogs (CreateAdoptionApplication.dogId applicationData) ->
      AdoptionStats.pendingApplications stats'
      = AdoptionStats.pendingApplications stats + 1
      /\ AdoptionStats.totalApplications stats'
         = AdoptionStats.totalApplications stats + 1).
Proof.
  unfold AdoptionRoutes.createAdoptionApplicationRoute.
  destruct (findById Dog.id mockDogs (CreateAdoptionApplication.dogId applicationData))
    as [dog|] eqn:Hdog; simpl.
  - set (new := AdoptionRoutes.newApplication freshId applicationData _).
    assert (Happroved :
      AdoptionRoutes.countStatus approved (adoptionApplications ++ [new])
      = AdoptionRoutes.countStatus approved adoptionApplications)
      by (rewrite countStatus_snoc; simpl; lia).
    split; [|split; [|split; [|split]]].
    + intros query. rewrite !available_is_filter. apply filter_ext. intros d.
      unfold AvailableSpec.notAdopted. rewrite existsb_app. simpl.
      now rewrite orb_false_r.
    + unfold AdoptionRoutes.getAdoptionStatsRoute. simpl. exact Happroved.
    + unfold AdoptionRoutes.getAdoptionStatsRoute. simpl. now rewrite Happroved.
    + unfold AdoptionRoutes.getAdoptionStatsRoute. simpl. now rewrite Happroved.
    + intros _. unfold AdoptionRoutes.getAdoptionStatsRoute. simpl.
      rewrite countStatus_snoc, length_app. simpl. split; lia.
  - do 4 (split; [reflexivity|]).
    intros Hpresent. apply findById_present in Hpresent as [dog Hfound]. congruence.
Qed.

Lemma application_leaves_availability_witness :
  let after :=
    snd (AdoptionRoutes.createAdoptionApplicationRoute Samples.mockDogs
           Samples.mockAdoptionApplications (Samples.createApplication "d4") "a3"
           "2024-03-05T10:00:00.000Z") in
  dogPresent Samples.mockDogs "d4"
  /\ AdoptionStats.pendingApplications
       (AdoptionRoutes.getAdoptionStatsRoute Samples.mockDogs after) = 2
  /\ map Dog.name
       (AdoptionRoutes.getAvailableDogsRoute Samples.mockDogs after
          (Samples.availableQuery None None))
     = ["Buddy"; "Bella"; "Rocky"].
Proof.
  intros after.
  assert (Hpresent : dogPresent Samples.mockDogs "d4")
    by (exists Samples.bella; split; [do 3 right; left|]; reflexivity).
  destruct (application_leaves_availability Samples.mockDogs
              Samples.mockAdoptionApplications (Samples.createApplication "d4") "a3"
              "2024-03-05T10:00:00.000Z") as (Havailable & _ & _ & _ & Hcounts).
  split; [exact Hpresent|]. split.
  - unfold after. rewrite (proj1 (Hcounts Hpresent)). reflexivity.
  - unfold after. rewrite Havailable. reflexivity.
Defined.


(** ** Grouping by key *)

Section Grouping.
Context {R K V : Type} (eqb : K -> K -> bool).
Hypothesis eqb_eq : forall a b, eqb a b = true <-> a = b.
Context (key : R -> K) (first : R -> V) (next : R -> V -> V).
Context (count : V -> Z) (Q : K -> V -> Prop).
Hypothesis count_first : forall r, count (first r) = 1.
Hypothesis count_next : forall r v, count (next r v) = count v + 1.
Hypothesis Q_first : forall r, Q (key r) (first r).
Hypothesis Q_next : forall r k v, Q k v -> Q k (next r v).

Local Abbreviation step := (fun m r => upsert eqb (key r) (first r) (next r) m).
Local Abbreviation FA := (firstAppearances eqb).

Lemma eqb_same a : eqb a a = true.
Proof. now apply eqb_eq. Qed.

Lemma eqb_differs a b : eqb a b = false <-> a <> b.
Proof.
  split.
  - intros Hf Heq. apply eqb_eq in Heq. congruence.
  - intros Hne. destruct (eqb a b) eqn:E; trivial. apply eqb_eq in E. contradiction.
Qed.

Lemma existsb_eqb (l : list K) (x : K) :
  existsb (fun y => eqb y x) l = true <-> In x l.
Proof.
  rewrite existsb_exists. split.
  - intros [y [Hin Hy]]. apply eqb_eq in Hy. now subst.
  - intros Hin. exists x. split; trivial. apply eqb_same.
Qed.

Lemma firstAppearances_In (l : list K) (x : K) : In x (FA l) <-> In x l.
Proof.
  induction l as [|y l IH]; simpl; [tauto|].
  rewrite filter_In, IH, negb_true_iff, eqb_differs.
  split.
  - intros [->|[Hin _]]; auto.
  - intros [->|Hin]; auto.
    destruct (eqb x y) eqn:E; [apply eqb_eq in E; auto|].
    apply eqb_differs in E. auto.
Qed.

Lemma firstAppearances_NoDup (l : list K) : List.NoDup (FA l).
Proof.
  induction l as [|y l IH]; simpl; constructor.
  - rewrite filter_In, negb_true_iff, eqb_same. intros [_ H]. discriminate.
  - now apply List.NoDup_filter.
Qed.

Lemma firstAppearances_snoc (l : list K) (x : K) :
  FA (l ++ [x]) = if existsb (fun y => eqb y x) (FA l) then FA l else FA l ++ [x].
Proof.
  induction l as [|y l IH]; simpl; trivial.
  rewrite IH. destruct (eqb y x) eqn:Hyx; simpl.
  - apply eqb_eq in Hyx. subst y.
    destruct (existsb (fun y => eqb y x) (FA l)); trivial.
    rewrite List.filter_app. simpl. rewrite eqb_same. simpl. now rewrite app_nil_r.
  - assert (Hsame : existsb (fun z => eqb z x)
                      (List.filter (fun z => negb (eqb z y)) (FA l))
                    = existsb (fun z => eqb z x) (FA l)).
    { apply eq_true_iff_eq. rewrite !existsb_eqb, filter_In, negb_true_iff, eqb_differs.
      split; [tauto|]. intros Hin. split; trivial.
      intros ->. rewrite eqb_same in Hyx. discriminate. }
    rewrite Hsame. destruct (existsb (fun z => eqb z x) (FA l)); trivial.
    rewrite List.filter_app. simpl.
    assert (Hxy : eqb x y = false).
    { apply eqb_differs. intros ->. rewrite eqb_same in Hyx. discriminate. }
    now rewrite Hxy.
Qed.

Lemma upsert_keys (k : K) (v0 : V) (f : V -> V) (m : list (K * V)) :
  map fst (upsert eqb k v0 f m)
  = if existsb (fun k' => eqb k' k) (map fst m) then map fst m else map fst m ++ [k].
Proof.
  induction m as [|[k' v] m IH]; simpl; trivial.
  destruct (eqb k' k); simpl; trivial.
  rewrite IH. now destruct (existsb (fun k' => eqb k' k) (map fst m)).
Qed.

Lemma upsert_In (k : K) (v0 : V) (f : V -> V) (m : list (K * V)) (k' : K) (v' : V) :
  List.NoDup (map fst m) ->
  In (k', v') (upsert eqb k v0 f m) ->
  (k' <> k /\ In (k', v') m)
  \/ (k' = k /\ exists v, In (k, v) m /\ v' = f v)
  \/ (k' = k /\ ~ In k (map fst m) /\ v' = v0).
Proof.
  induction m as [|[k1 v1] m IH]; simpl; intros Hnd Hin.
  - destruct Hin as [Heq|[]]. injection Heq as <- <-. right. right. tauto.
  - apply List.NoDup_cons_iff in Hnd as [Hfresh Hnd].
    destruct (eqb k1 k) eqn:Hk; simpl in Hin.
    + apply eqb_eq in Hk. subst k1. destruct Hin as [Heq|Hin].
      * injection Heq as <- <-. right. left. eauto.
      * left. split; [|tauto]. intros ->. apply Hfresh. now apply (in_map fst) in Hin.
    + apply eqb_differs in Hk. destruct Hin as [Heq|Hin].
      * injection Heq as <- <-. left. tauto.
      * destruct (IH Hnd Hin) as [[? ?]|[[? [v [? ?]]]|[? [? ?]]]].
        -- left. tauto.
        -- right. left. eauto.
        -- right. right. repeat split; trivial. intros [Heq|Hin']; [congruence|tauto].
Qed.

Lemma upsert_total (k : K) (r : R) (m : list (K * V)) :
  total_of (map (fun kv => count (snd kv)) (upsert eqb k (first r) (next r) m))
  = total_of (map (fun kv => count (snd kv)) m) + 1.
Proof.
  induction m as [|[k' v] m IH]; simpl.
  - rewrite count_first. lia.
  - destruct (eqb k' k); simpl; [rewrite count_next | rewrite IH]; lia.
Qed.

Lemma filedUnder_snoc (k : K) (done : list R) (r : R) :
  filedUnder eqb key k (done ++ [r])
  = filedUnder eqb key k done + (if eqb (key r) k then 1 else 0).
Proof.
  unfold filedUnder. rewrite List.filter_app, length_app. simpl.
  destruct (eqb (key r) k); simpl; lia.
Qed.

Lemma filedUnder_unseen (k : K) (done : list R) :
  ~ In k (map key done) -> filedUnder eqb key k done = 0.
Proof.
  intros Hunseen. unfold filedUnder.
  induction done as [|r done IH]; simpl; trivial.
  destruct (eqb (key r) k) eqn:E.
  - apply eqb_eq in E. exfalso. apply Hunseen. simpl. now left.
  - apply IH. intros Hin. apply Hunseen. simpl. now right.
Qed.

Lemma grouped_step (m : list (K * V)) (done : list R) (r : R) :
  Grouped eqb key count Q m done ->
  Grouped eqb key count Q (step m r) (done ++ [r]).
Proof.
  intros [Hkeys Hentry]. constructor.
  - rewrite upsert_keys, map_app, Hkeys. simpl. now rewrite firstAppearances_snoc.
  - assert (Hnd : List.NoDup (map fst m))
      by (rewrite Hkeys; apply firstAppearances_NoDup).
    intros k v Hin. rewrite filedUnder_snoc.
    apply upsert_In in Hin as [[Hne Hin]|[[-> [v1 [Hin ->]]]|[-> [Hnew ->]]]]; trivial.
    + destruct (Hentry k v Hin) as (Hc & Hpos & HQ).
      assert (E : eqb (key r) k = false) by (apply eqb_differs; congruence).
      rewrite E. split; [lia|]. split; trivial.
    + destruct (Hentry (key r) v1 Hin) as (Hc & Hpos & HQ).
      rewrite eqb_same, count_next. split; [lia|]. split; [lia | now apply Q_next].
    + rewrite eqb_same, count_first, filedUnder_unseen.
      * split; [lia|]. split; [lia | apply Q_first].
      * rewrite Hkeys, firstAppearances_In in Hnew. exact Hnew.
Qed.

Lemma grouped_fold (todo : list R) :
  forall m done,
    Grouped eqb key count Q m done ->
    Grouped eqb key count Q (fold_left step todo m) (done ++ todo).
Proof.
  induction todo as [|r todo IH]; intros m done Hinv; simpl.
  - now rewrite app_nil_r.
  - replace (done ++ r :: todo) with ((done ++ [r]) ++ todo)
      by now rewrite <- app_assoc.
    apply IH. now apply grouped_step.
Qed.

Lemma grouped_all (records : list R) :
  Grouped eqb key count Q (fold_left step records []) records.
Proof.
  apply (grouped_fold records [] []). constructor; simpl; [trivial | tauto].
Qed.

Lemma total_fold (todo : list R) :
  forall m,
    total_of (map (fun kv => count (snd kv)) (fold_left step todo m))
    = total_of (map (fun kv => count (snd kv)) m) + Z.of_nat (length todo).
Proof.
  induction todo as [|r todo IH]; intros m; simpl fold_left; simpl length.
  - lia.
  - rewrite IH, upsert_total. lia.
Qed.

End Grouping.

(** The three folds of the source are that grouping. *)
Lemma Map_step_upsert {V : Type} (m : list (string * V)) (key : string) (init : V)
  (f : V -> V) :
  JSArray.Map_update
    (if negb (JSArray.Map_has m key) then JSArray.Map_setNew m key init else m) key f
  = upsert String.eqb key (f init) f m.
Proof.
  induction m as [|[k v] m IH]; simpl.
  - now rewrite String.eqb_refl.
  - unfold JSArray.Map_has in *. simpl.
    destruct (String.eqb k key) eqn:Hk; simpl.
    + now rewrite Hk.
    + rewrite <- IH.
      destruct (existsb (fun kv => String.eqb (fst kv) key) m); simpl; now rewrite Hk.
Qed.

Lemma trainer_step_upsert (m : TrainingRoutes.TrainerMap) (key : string)
  (init : TrainerAcc.t) (f : TrainerAcc.t -> TrainerAcc.t) :
  TrainingRoutes.Map_update
    (if negb (TrainingRoutes.Map_has m key) then TrainingRoutes.Map_setNew m key init else m)
    key f
  = upsert String.eqb key (f init) f m.
Proof.
  induction m as [|[k v] m IH]; simpl.
  - now rewrite String.eqb_refl.
  - unfold TrainingRoutes.Map_has in *. simpl.
    destruct (String.eqb k key) eqn:Hk; simpl.
    + now rewrite Hk.
    + rewrite <- IH.
      destruct (existsb (fun kv => String.eqb (fst kv) key) m); simpl; now rewrite Hk.
Qed.


Lemma BreedGroup_eqb_eq (a b : BreedGroup) : BreedGroup_eqb a b = true <-> a = b.
Proof. destruct a, b; simpl; split; intros H; trivial; discriminate. Qed.

Lemma fold_left_ext {A B : Type} (f g : A -> B -> A) (l : list B) (a : A) :
  (forall x y, f x y = g x y) -> fold_left f l a = fold_left g l a.
Proof.
  intros Hfg. revert a. induction l as [|y l IH]; intros a; simpl; trivial.
  now rewrite Hfg, IH.
Qed.

(** ** The veterinarian directory *)

(** The directory has one entry per key [veterinarian-clinic], in order of
    first appearance; the name and clinic of an entry spell its key; its
    recordCount is the number of health records filed under that key, at
    least 1; and the counts add up to the number of health records. *)
Theorem veterinarians_directory (healthRecords : list HealthRecord.t) :
  let vets := HealthRoutes.getVeterinariansRoute healthRecords in
  map (fun vet => (VetAcc.name vet ++ "-" ++ VetAcc.clinic vet)%string) vets
  = firstAppearances String.eqb (map HealthRoutes.vetKey healthRecords)
  /\ (forall vet, In vet vets ->
        VetAcc.recordCount vet
        = Z.of_nat (length (DirectorySpec.recordsOfKey
                              (VetAcc.name vet ++ "-" ++ VetAcc.clinic vet)%string
                              healthRecords))
        /\ 1 <= VetAcc.recordCount vet)
  /\ total_of (map VetAcc.recordCount vets) = Z.of_nat (length healthRecords).
Proof.
  intros vets. unfold vets, HealthRoutes.getVeterinariansRoute.
  set (first := fun record : HealthRecord.t =>
         {| VetAcc.name := HealthRecord.veterinarian record;
            VetAcc.clinic := HealthRecord.clinic record;
            VetAcc.recordCount := 0 + 1;
            VetAcc.specialties :=
              JSArray.Set_add HealthType_eqb [] (HealthRecord.type record) |}).
  set (next := fun (record : HealthRecord.t) (vet : VetAcc.t) =>
         {| VetAcc.name := VetAcc.name vet;
            VetAcc.clinic := VetAcc.clinic vet;
            VetAcc.recordCount := VetAcc.recordCount vet + 1;
            VetAcc.specialties :=
              JSArray.Set_add HealthType_eqb (VetAcc.specialties vet)
                (HealthRecord.type record) |}).
  set (Q := fun (k : string) (vet : VetAcc.t) =>
         (VetAcc.name vet ++ "-" ++ VetAcc.clinic vet)%string = k).
  rewrite (fold_left_ext HealthRoutes.addVet
             (fun m r => upsert String.eqb (HealthRoutes.vetKey r) (first r) (next r) m))
    by (intros m r;
        exact (Map_step_upsert m (HealthRoutes.vetKey r)
                 {| VetAcc.name := HealthRecord.veterinarian r;
                    VetAcc.clinic := HealthRecord.clinic r;
                    VetAcc.recordCount := 0;
                    VetAcc.specialties := [] |} (next r))).
  pose proof (grouped_all String.eqb String.eqb_eq HealthRoutes.vetKey first next
                VetAcc.recordCount Q (fun _ => eq_refl) (fun _ _ => eq_refl)
                (fun _ => eq_refl) (fun _ _ _ H => H) healthRecords) as [Hkeys Hentry].
  pose proof (total_fold String.eqb HealthRoutes.vetKey first next VetAcc.recordCount
                (fun _ => eq_refl) (fun _ _ => eq_refl) healthRecords []) as Htotal.
  set (m := fold_left _ healthRecords []) in *.
  split; [|split].
  - rewrite map_map, <- Hkeys. apply map_ext_in.
    intros [k vet] Hin. simpl. now destruct (Hentry k vet Hin) as (_ & _ & HQ).
  - intros vet Hin. apply in_map_iff in Hin as [[k acc] [<- Hin]].
    cbn [VetAcc.name VetAcc.clinic VetAcc.recordCount snd].
    destruct (Hentry k acc Hin) as (Hcount & Hpos & HQ). unfold Q in HQ.
    rewrite HQ. split; trivial.
  - rewrite map_map. simpl in *. rewrite Htotal. lia.
Qed.

(** Two veterinarians with different names and clinics whose keys coincide
    share one entry, under the first one's name. *)
Example veterinarians_key_collision :
  HealthRoutes.getVeterinariansRoute Scenarios.sameKeyRecords
  = [ {| VetAcc.name := "Dr. A-B"; VetAcc.clinic := "C"; VetAcc.recordCount := 2;
         VetAcc.specialties := [checkup; dental] |} ].
Proof. reflexivity. Qed.

Lemma veterinarians_directory_witness :
  let vets := HealthRoutes.getVeterinariansRoute Samples.mockHealthRecords in
  let chen := {| VetAcc.name := "Dr. Emily Chen";
                 VetAcc.clinic := "Happy Paws Veterinary Clinic";
                 VetAcc.recordCount := 1; VetAcc.specialties := [vaccination] |} in
  In chen vets
  /\ VetAcc.recordCount chen
     = Z.of_nat (length (DirectorySpec.recordsOfKey
                           "Dr. Emily Chen-Happy Paws Veterinary Clinic"
                           Samples.mockHealthRecords))
  /\ map VetAcc.name vets = ["Dr. Emily Chen"; "Dr. Michael Rodriguez"; "Dr. Lisa Park"].
Proof.
  intros vets chen.
  assert (Hin : In chen vets) by (left; reflexivity).
  split; [exact Hin|]. split; [|reflexivity].
  exact (proj1 (proj1 (proj2 (veterinarians_directory Samples.mockHealthRecords))
                  chen Hin)).
Defined.

(** ** The trainer directory *)

Lemma trainers_grouped (trainingRecords : list TrainingRecord.t) :
  let trainers := TrainingRoutes.getTrainersRoute trainingRecords in
  map Trainer.name trainers
  = firstAppearances String.eqb (map TrainingRecord.trainer trainingRecords)
  /\ List.NoDup (map Trainer.name trainers)
  /\ (forall t, In t trainers ->
        Trainer.recordCount t
        = Z.of_nat (length (ProgressSpec.recordsOfTrainer (Trainer.name t) trainingRecords))
        /\ 1 <= Trainer.recordCount t)
  /\ total_of (map Trainer.recordCount trainers) = Z.of_nat (length trainingRecords).
Proof.
  intros trainers. unfold trainers, TrainingRoutes.getTrainersRoute.
  set (first := fun record : TrainingRecord.t =>
         {| TrainerAcc.name := TrainingRecord.trainer record;
            TrainerAcc.facility := TrainingRecord.facility record;
            TrainerAcc.specialties :=
              JSArray.Set_add TrainingType_eqb [] (TrainingRecord.type record);
            TrainerAcc.recordCount := 0 + 1;
            TrainerAcc.progressScores :=
              [] ++ [TrainingRoutes.progressScore (TrainingRecord.progress record)] |}).
  set (next := fun (record : TrainingRecord.t) (trainer : TrainerAcc.t) =>
         {| TrainerAcc.name := TrainerAcc.name trainer;
            TrainerAcc.facility := TrainerAcc.facility trainer;
            TrainerAcc.specialties :=
              JSArray.Set_add TrainingType_eqb (TrainerAcc.specialties trainer)
                (TrainingRecord.type record);
            TrainerAcc.recordCount := TrainerAcc.recordCount trainer + 1;
            TrainerAcc.progressScores :=
              TrainerAcc.progressScores trainer
              ++ [TrainingRoutes.progressScore (TrainingRecord.progress record)] |}).
  set (Q := fun (k : string) (trainer : TrainerAcc.t) => TrainerAcc.name trainer = k).
  rewrite (fold_left_ext TrainingRoutes.addRecord
             (fun m r => upsert String.eqb (TrainingRecord.trainer r) (first r) (next r) m))
    by (intros m r;
        exact (trainer_step_upsert m (TrainingRecord.trainer r)
                 {| TrainerAcc.name := TrainingRecord.trainer r;
                    TrainerAcc.facility := TrainingRecord.facility r;
                    TrainerAcc.specialties := [];
                    TrainerAcc.recordCount := 0;
                    TrainerAcc.progressScores := [] |} (next r))).
  pose proof (grouped_all String.eqb String.eqb_eq TrainingRecord.trainer first next
                TrainerAcc.recordCount Q (fun _ => eq_refl) (fun _ _ => eq_refl)
                (fun _ => eq_refl) (fun _ _ _ H => H) trainingRecords) as [Hkeys Hentry].
  pose proof (total_fold String.eqb TrainingRecord.trainer first next
                TrainerAcc.recordCount (fun _ => eq_refl) (fun _ _ => eq_refl)
                trainingRecords []) as Htotal.
  set (m := fold_left _ trainingRecords []) in *.
  change (fold_left _ trainingRecords []) with m.
  assert (Hnames : map Trainer.name (map (fun kv => TrainingRoutes.summarize (snd kv)) m)
                   = firstAppearances String.eqb
                       (map TrainingRecord.trainer trainingRecords)).
  { rewrite map_map, <- Hkeys. apply map_ext_in.
    intros [k acc] Hin. simpl. now destruct (Hentry k acc Hin) as (_ & _ & HQ). }
  split; [exact Hnames|]. split; [|split].
  - rewrite Hnames. apply firstAppearances_NoDup. apply String.eqb_eq.
  - intros t Hin. apply in_map_iff in Hin as [[k acc] [<- Hin]]. simpl.
    destruct (Hentry k acc Hin) as (Hcount & Hpos & HQ). unfold Q in HQ.
    rewrite HQ. split; trivial.
  - rewrite map_map. simpl in *. rewrite Htotal. lia.
Qed.

(** The trainers are listed once each, in order of first appearance in the
    collection; a trainer's recordCount is the number of that trainer's
    records, at least 1; and the counts add up to the number of training
    records. *)
Theorem trainers_directory (trainingRecords : list TrainingRecord.t) :
  let trainers := TrainingRoutes.getTrainersRoute trainingRecords in
  map Trainer.name trainers
  = firstAppearances String.eqb (map TrainingRecord.trainer trainingRecords)
  /\ List.NoDup (map Trainer.name trainers)
  /\ (forall t, In t trainers ->
        Trainer.recordCount t
        = Z.of_nat (length (ProgressSpec.recordsOfTrainer (Trainer.name t) trainingRecords))
        /\ 1 <= Trainer.recordCount t)
  /\ total_of (map Trainer.recordCount trainers) = Z.of_nat (length trainingRecords).
Proof. exact (trainers_grouped trainingRecords). Qed.

Lemma trainers_directory_witness :
  let trainers := TrainingRoutes.getTrainersRoute Scenarios.lunaTrainings in
  let mark := {| Trainer.name := "Mark Thompson"; Trainer.facility := None;
                 Trainer.specialties := [basic_obedience];
                 Trainer.recordCount := 2; Trainer.averageProgress := good |} in
  In mark trainers
  /\ Trainer.recordCount mark
     = Z.of_nat (length (ProgressSpec.recordsOfTrainer "Mark Thompson"
                           Scenarios.lunaTrainings))
  /\ map Trainer.name trainers = ["Mark Thompson"; "Sarah Johnson"; "Robert Miller"].
Proof.
  intros trainers mark.
  assert (Hin : In mark trainers) by (left; reflexivity).
  split; [exact Hin|]. split; [|reflexivity].
  exact (proj1 (proj1 (proj2 (proj2 (trainers_directory Scenarios.lunaTrainings)))
                  mark Hin)).
Defined.

(** ** Breed groups *)



(** ** Updating a training record *)

(** [PUT /training/records/:id] refuses an unknown identifier; otherwise
    the record keeps its identifier, dog, trainer, type and start date, takes
    the patched status, progress and skills, and afterwards reads back as
    updated; no dog's number of training records changes. *)
Theorem training_record_update
  (trainingRecords : list TrainingRecord.t) (id : string)
  (updateData : UpdateTrainingRecord.t) (now : string) :
  (~ Present TrainingRecord.id trainingRecords id ->
     exists e,
       TrainingRoutes.updateTrainingRecordRoute trainingRecords id updateData now
       = (NotFound e, trainingRecords))
  /\ (forall old, findById TrainingRecord.id trainingRecords id = Some old ->
     exists updated trainingRecords',
       TrainingRoutes.updateTrainingRecordRoute trainingRecords id updateData now
       = (Ok 200 updated, trainingRecords')
       /\ TrainingRecord.id updated = id
       /\ TrainingRecord.dogId updated = TrainingRecord.dogId old
       /\ TrainingRecord.trainer updated = TrainingRecord.trainer old
       /\ TrainingRecord.type updated = TrainingRecord.type old
       /\ TrainingRecord.startDate updated = TrainingRecord.startDate old
       /\ (forall p, UpdateTrainingRecord.progress updateData = Some p ->
             TrainingRecord.progress updated = p)
       /\ (UpdateTrainingRecord.progress updateData = None ->
             TrainingRecord.progress updated = TrainingRecord.progress old)
       /\ TrainingRoutes.getTrainingRecordRoute trainingRecords' id = Ok 200 updated
       /\ (forall id', id' <> id ->
             TrainingRoutes.getTrainingRecordRoute trainingRecords' id'
             = TrainingRoutes.getTrainingRecordRoute trainingRecords id')
       /\ (forall dogId,
             length (ProgressSpec.recordsOfDog dogId trainingRecords')
             = length (ProgressSpec.recordsOfDog dogId trainingRecords))
       /\ map Trainer.name (TrainingRoutes.getTrainersRoute trainingRecords')
          = map Trainer.name (TrainingRoutes.getTrainersRoute trainingRecords)).
Proof.
  unfold TrainingRoutes.updateTrainingRecordRoute. split.
  - intros Habsent. apply findById_None in Habsent.
    pose proof (findIndex_of_absent TrainingRecord.id _ id Habsent) as Hindex.
    destruct (JSArray.findIndex _ trainingRecords) as [i|]; [rewrite Hindex|]; eauto.
  - intros old Hfound.
    destruct (findById_Some TrainingRecord.id _ id old Hfound) as [_ Hid].
    destruct (findIndex_of_found TrainingRecord.id _ id old Hfound)
      as (i & Hindex & Hold).
    rewrite Hindex, Hold. eexists. eexists. simpl. split; [reflexivity|].
    set (updated := TrainingRoutes.updatedRecord old updateData now).
    assert (Hnew : TrainingRecord.id updated = id) by exact Hid.
    do 5 (split; [trivial|]).
    split; [intros p Hp; simpl; now rewrite Hp|].
    split; [intros Hp; simpl; now rewrite Hp|].
    split; [|split; [|split]].
    + unfold TrainingRoutes.getTrainingRecordRoute.
      rewrite (findById_replace TrainingRecord.id _ id i _ Hindex Hnew).
      now rewrite String.eqb_refl.
    + intros id' Hne. unfold TrainingRoutes.getTrainingRecordRoute.
      rewrite (findById_replace TrainingRecord.id _ id i _ Hindex Hnew).
      destruct (String.eqb_spec id id'); [congruence|trivial].
    + intros dogId. unfold ProgressSpec.recordsOfDog.
      apply (filter_length_map TrainingRecord.dogId (fun d => String.eqb d dogId)).
      now apply (replace_keeps TrainingRecord.dogId _ i old).
    + rewrite (proj1 (trainers_grouped _)), (proj1 (trainers_grouped _)).
      f_equal. now apply (replace_keeps TrainingRecord.trainer _ i old).
Qed.

(** Luna's agility record "t2" is marked completed with progress good. *)
Lemma training_record_update_witness :
  ~ Present TrainingRecord.id Samples.mockTrainingRecords "t9"
  /\ (exists old, findById TrainingRecord.id Samples.mockTrainingRecords "t2" = Some old)
  /\ (exists e,
        TrainingRoutes.updateTrainingRecordRoute Samples.mockTrainingRecords "t9"
          Scenarios.graduated "2024-03-05T10:00:00.000Z"
        = (NotFound e, Samples.mockTrainingRecords))
  /\ (exists updated trainingRecords',
        TrainingRoutes.updateTrainingRecordRoute Samples.mockTrainingRecords "t2"
          Scenarios.graduated "2024-03-05T10:00:00.000Z"
        = (Ok 200 updated, trainingRecords')
        /\ TrainingRecord.progress updated = good
        /\ TrainingRecord.trainer updated = "Sarah Johnson"
        /\ map TrainingRecord.status trainingRecords' = [completed; completed; completed]).
Proof.
  assert (Habsent : ~ Present TrainingRecord.id Samples.mockTrainingRecords "t9")
    by (apply findById_None; reflexivity).
  assert (Hfound : findById TrainingRecord.id Samples.mockTrainingRecords "t2"
                   = Some (Samples.trainingRecord "t2" "d2" agility "Sarah Johnson"
                             "2023-12-01" in_progress
                             ["tunnel"; "weave poles"; "A-frame"; "jump"; "pause table"]
                             excellent)) by reflexivity.
  split; [exact Habsent|]. split; [eexists; exact Hfound|].
  split; [exact (proj1 (training_record_update Samples.mockTrainingRecords "t9"
                          Scenarios.graduated "2024-03-05T10:00:00.000Z") Habsent)|].
  destruct (proj2 (training_record_update Samples.mockTrainingRecords "t2"
                     Scenarios.graduated "2024-03-05T10:00:00.000Z") _ Hfound)
    as (updated & records' & Hupdate & _).
  exists updated, records'. split; [exact Hupdate|].
  vm_compute in Hupdate. injection Hupdate as <- <-. repeat split.
Defined.

(** ** The progress summary of a dog *)

Lemma fold_Set_add_firstAppearances (l : list string) :
  fold_left (JSArray.Set_add String.eqb) l [] = firstAppearances String.eqb l.
Proof.
  induction l as [|x l IH] using rev_ind; trivial.
  rewrite fold_left_app. simpl. rewrite IH.
  rewrite (firstAppearances_snoc String.eqb String.eqb_eq).
  unfold JSArray.Set_add.
  assert (Hsym : forall s, existsb (String.eqb x) s = existsb (fun y => String.eqb y x) s).
  { intros s. induction s as [|y s IHs]; simpl; trivial.
    now rewrite IHs, String.eqb_sym. }
  now rewrite Hsym.
Qed.

Lemma fold_left_concat {A B : Type} (f : A -> B -> A) (ls : list (list B)) (a : A) :
  fold_left (fun acc l => fold_left f l acc) ls a = fold_left f (concat ls) a.
Proof.
  revert a. induction ls as [|l ls IH]; intros a; simpl; trivial.
  now rewrite fold_left_app, IH.
Qed.

Lemma exclusive_filters {A : Type} (p q : A -> bool) (l : list A) :
  (forall x, p x = true -> q x = false) ->
  (length (List.filter p l) + length (List.filter q l) <= length l)%nat.
Proof.
  intros Hex. induction l as [|x l IH]; simpl; trivial.
  destruct (p x) eqn:Hp; [rewrite (Hex x Hp)|destruct (q x)]; simpl; lia.
Qed.

Lemma startDates_descending (trainingRecords : list TrainingRecord.t) :
  SummarySpec.validStartDates trainingRecords ->
  descendingOn
    (fun a b => JSDate.compareDesc (TrainingRecord.startDate a) (TrainingRecord.startDate b))
    SummarySpec.startOf trainingRecords.
Proof.
  intros Hvalid x y Hx Hy. unfold SummarySpec.validStartDates in Hvalid.
  rewrite List.Forall_forall in Hvalid.
  pose proof (Hvalid x Hx) as Hvx. pose proof (Hvalid y Hy) as Hvy.
  unfold JSDate.compareDesc, SummarySpec.startOf.
  destruct (JSDate.getTime (TrainingRecord.startDate x)); [|congruence].
  destruct (JSDate.getTime (TrainingRecord.startDate y)); [|congruence].
  reflexivity.
Qed.

(** For a seed dog the progress summary counts the dog's records and those
    completed and in progress, which together never exceed the total; lists
    every skill of those records once, in order of first appearance; and
    returns the dog's records, each once, latest start first when the start
    dates are valid. *)
Theorem progress_summary
  (mockDogs : list Dog.t) (trainingRecords : list TrainingRecord.t) (dogId : string) :
  dogPresent mockDogs dogId ->
  let mine := ProgressSpec.recordsOfDog dogId trainingRecords in
  exists body,
    TrainingRoutes.getDogTrainingProgressRoute mockDogs trainingRecords dogId = Ok 200 body
    /\ TrainingProgress.totalTrainings body = Z.of_nat (length mine)
    /\ TrainingProgress.completedTrainings body = SummarySpec.withStatus completed mine
    /\ TrainingProgress.inProgressTrainings body = SummarySpec.withStatus in_progress mine
    /\ TrainingProgress.completedTrainings body + TrainingProgress.inProgressTrainings body
       <= TrainingProgress.totalTrainings body
    /\ TrainingProgress.skills body
       = firstAppearances String.eqb (concat (map TrainingRecord.skills mine))
    /\ List.NoDup (TrainingProgress.skills body)
    /\ Permutation (TrainingProgress.trainingRecords body) mine
    /\ (SummarySpec.validStartDates trainingRecords ->
        StronglySorted SummarySpec.notEarlier (TrainingProgress.trainingRecords body)).
Proof.
  intros Hpresent mine. apply findById_present in Hpresent as [dog Hdog].
  unfold TrainingRoutes.getDogTrainingProgressRoute. rewrite Hdog.
  fold (ProgressSpec.recordsOfDog dogId trainingRecords). fold mine.
  eexists. split; [reflexivity|].
  cbn [TrainingProgress.totalTrainings TrainingProgress.completedTrainings
       TrainingProgress.inProgressTrainings TrainingProgress.skills
       TrainingProgress.trainingRecords].
  assert (Hskills :
    fold_left
      (fun allSkills record =>
         fold_left (JSArray.Set_add String.eqb) (TrainingRecord.skills record) allSkills)
      mine []
    = firstAppearances String.eqb (concat (map TrainingRecord.skills mine))).
  { rewrite <- fold_Set_add_firstAppearances, <- fold_left_concat.
    generalize (@nil string). induction mine as [|r rest IH]; intros acc; simpl; trivial. }
  split; [reflexivity|]. split; [reflexivity|]. split; [reflexivity|].
  split.
  - pose proof (exclusive_filters
      (fun record => TrainingStatus_eqb (TrainingRecord.status record) completed)
      (fun record => TrainingStatus_eqb (TrainingRecord.status record) in_progress)
      mine) as Hex.
    assert (Hdisjoint : forall x : TrainingRecord.t,
      TrainingStatus_eqb (TrainingRecord.status x) completed = true ->
      TrainingStatus_eqb (TrainingRecord.status x) in_progress = false)
      by (intros x; destruct (TrainingRecord.status x); simpl; congruence).
    specialize (Hex Hdisjoint). lia.
  - split; [exact Hskills|]. split; [|split].
    + rewrite Hskills. apply firstAppearances_NoDup. apply String.eqb_eq.
    + apply sort_perm.
    + intros Hvalid. apply (sort_sorted _ SummarySpec.startOf).
      intros x y Hx Hy. apply (startDates_descending trainingRecords Hvalid).
      * unfold mine, ProgressSpec.recordsOfDog in Hx. now apply filter_In in Hx.
      * unfold mine, ProgressSpec.recordsOfDog in Hy. now apply filter_In in Hy.
Qed.

(** Luna's two trainings share the skill "jump"; it is listed once. *)
Lemma progress_summary_witness :
  dogPresent Samples.mockDogs "d2"
  /\ SummarySpec.validStartDates Scenarios.lunaTrainings
  /\ (exists body,
        TrainingRoutes.getDogTrainingProgressRoute Samples.mockDogs
          Scenarios.lunaTrainings "d2" = Ok 200 body
        /\ TrainingProgress.skills body
           = ["tunnel"; "weave poles"; "A-frame"; "jump"; "pause table"; "sit"; "stay"]
        /\ map TrainingRecord.id (TrainingProgress.trainingRecords body) = ["t6"; "t2"]
        /\ StronglySorted SummarySpec.notEarlier (TrainingProgress.trainingRecords body)
        /\ TrainingProgress.completedTrainings body = 1
        /\ TrainingProgress.inProgressTrainings body = 1).
Proof.
  assert (Hpresent : dogPresent Samples.mockDogs "d2")
    by (exists Samples.luna; split; [right; left|]; reflexivity).
  assert (Hvalid : SummarySpec.validStartDates Scenarios.lunaTrainings)
    by (repeat constructor; discriminate).
  split; [exact Hpresent|]. split; [exact Hvalid|].
  destruct (progress_summary Samples.mockDogs Scenarios.lunaTrainings "d2" Hpresent)
    as (body & Hreply & _ & _ & _ & _ & _ & _ & _ & Hsorted).
  exists body. split; [exact Hreply|].
  specialize (Hsorted Hvalid).
  vm_compute in Hreply. injection Hreply as <-.
  split; [reflexivity|]. split; [reflexivity|]. split; [exact Hsorted|].
  split; reflexivity.
Defined.

(** ** Breeds *)

(** The callback registered for [GET /breeds/search], whenever it runs,
    returns the first [limit] breeds whose name contains the query,
    case-insensitively, in the order of the collection: never more than
    [limit], all of them when there are no more than [limit], and only
    breeds that match. *)
Theorem breeds_search (mockBreeds : list Breed.t) (q : string) (limit : Z) :
  0 <= limit ->
  let found := BreedsRoutes.searchBreedsRoute mockBreeds q limit in
  found = firstn (Z.to_nat limit) (BreedsSpec.nameMatches q mockBreeds)
  /\ Z.of_nat (length found) <= limit
  /\ sublist found mockBreeds
  /\ (Z.of_nat (length (BreedsSpec.nameMatches q mockBreeds)) <= limit ->
      found = BreedsSpec.nameMatches q mockBreeds)
  /\ (forall breed, In breed found ->
        JS.includes (JS.toLowerCase (Breed.name breed)) (JS.toLowerCase q) = true).
Proof.
  intros Hlimit found.
  assert (Hfound : found = firstn (Z.to_nat limit) (BreedsSpec.nameMatches q mockBreeds)).
  { unfold found, BreedsRoutes.searchBreedsRoute.
    fold (BreedsSpec.nameMatches q mockBreeds).
    now rewrite (slice_window _ 0 limit) by lia. }
  split; [exact Hfound|]. rewrite Hfound. split; [|split; [|split]].
  - rewrite length_firstn. lia.
  - transitivity (BreedsSpec.nameMatches q mockBreeds).
    + apply sublist_take.
    + apply filter_is_sublist.
  - intros Hfew. apply firstn_all2. lia.
  - intros breed Hin.
    assert (Hall : In breed (BreedsSpec.nameMatches q mockBreeds)).
    { rewrite <- (firstn_skipn (Z.to_nat limit)). apply in_or_app. now left. }
    now apply filter_In in Hall.
Qed.

Lemma breeds_search_witness :
  0 <= 1
  /\ map Breed.name (BreedsRoutes.searchBreedsRoute Scenarios.mockBreeds "ER" 1)
     = ["Golden Retriever"]
  /\ map Breed.name (BreedsSpec.nameMatches "ER" Scenarios.mockBreeds)
     = ["Golden Retriever"; "Border Collie"; "German Shepherd"]
  /\ Z.of_nat (length (BreedsRoutes.searchBreedsRoute Scenarios.mockBreeds "ER" 1)) <= 1.
Proof.
  assert (Hlimit : 0 <= 1) by lia.
  split; [exact Hlimit|]. split; [reflexivity|]. split; [reflexivity|].
  exact (proj1 (proj2 (breeds_search Scenarios.mockBreeds "ER" 1 Hlimit))).
Defined.

(** ** The routes of routes/breeds.ts *)

(** No request is answered by the route "/search" or the route "/groups":
    "/{id}" is registered before them and matches their paths, so
    [GET /breeds/search] and [GET /breeds/groups] are answered by the id
    route, and, no uuid being spelled "search" or "groups" (a uuid has 36
    characters), with the 400 of its validator, whatever the query. *)
Theorem breeds_routes_shadowed (isUuid : string -> bool) (mockBreeds : list Breed.t)
  (request : BreedsRouter.Request) :
  BreedsRouter.routeOf (BreedsRouter.path request) <> Some BreedsRouter.searchBreeds
  /\ BreedsRouter.routeOf (BreedsRouter.path request) <> Some BreedsRouter.getBreedGroups
  /\ (BreedsRouter.path request = ["search"] \/ BreedsRouter.path request = ["groups"] ->
      BreedsRouter.routeOf (BreedsRouter.path request) = Some BreedsRouter.getBreed
      /\ ((forall id, isUuid id = true -> String.length id = 36%nat) ->
          BreedsRouter.handle isUuid mockBreeds request = BreedsRouter.badRequest)).
Proof.
  assert (Hroute : forall path,
            BreedsRouter.routeOf path = None
            \/ BreedsRouter.routeOf path = Some BreedsRouter.listBreeds
            \/ BreedsRouter.routeOf path = Some BreedsRouter.getBreed).
  { intros [|segment [|segment' path]];
      unfold BreedsRouter.routeOf, BreedsRouter.routes; cbn;
      rewrite ?andb_false_r; cbn; auto. }
  split; [|split].
  - destruct (Hroute (BreedsRouter.path request)) as [H|[H|H]]; rewrite H; discriminate.
  - destruct (Hroute (BreedsRouter.path request)) as [H|[H|H]]; rewrite H; discriminate.
  - intros Hpath. split; [destruct Hpath as [-> | ->]; reflexivity|].
    intros Hlength. unfold BreedsRouter.handle.
    destruct Hpath as [-> | ->]; cbn.
    + destruct (isUuid "search") eqn:Hid; [|reflexivity].
      apply Hlength in Hid. discriminate.
    + destruct (isUuid "groups") eqn:Hid; [|reflexivity].
      apply Hlength in Hid. discriminate.
Qed.

(** [GET /breeds/search?q=ER&limit=1], with a validator that accepts the
    strings of 36 characters. *)
Lemma breeds_routes_shadowed_witness :
  BreedsRouter.path Scenarios.searchRequest = ["search"]
  /\ (forall id, Scenarios.has36 id = true -> String.length id = 36%nat)
  /\ BreedsRouter.routeOf ["search"] = Some BreedsRouter.getBreed
  /\ BreedsRouter.handle Scenarios.has36 Scenarios.mockBreeds Scenarios.searchRequest
     = BreedsRouter.badRequest.
Proof.
  assert (Hpath : BreedsRouter.path Scenarios.searchRequest = ["search"]) by reflexivity.
  assert (Hlength : forall id, Scenarios.has36 id = true -> String.length id = 36%nat)
    by (intros id Hid; now apply Nat.eqb_eq in Hid).
  split; [exact Hpath|]. split; [exact Hlength|]. split; [reflexivity|].
  exact (proj2 (proj2 (proj2 (breeds_routes_shadowed Scenarios.has36 Scenarios.mockBreeds
                                Scenarios.searchRequest)) (or_introl Hpath)) Hlength).
Defined.

Lemma breeds_chain (q : BreedQuery.t) (mockBreeds : list Breed.t) :
  BreedsRoutes.listBreedsRoute mockBreeds q = List.filter (BreedsSpec.matches q) mockBreeds.
Proof.
  unfold BreedsRoutes.listBreedsRoute.
  rewrite !filterIfDefined_matches, !filter_filter.
  apply filter_ext. intros breed. unfold BreedsSpec.matches.
  now rewrite !andb_assoc.
Qed.

(** [GET /breeds] returns, in the order of the collection, exactly the
    breeds that meet every supplied criterion; here [goodWithKids] and
    [goodWithPets] are honoured: every breed returned has the flag asked
    for. *)
Theorem breeds_filter (mockBreeds : list Breed.t) (q : BreedQuery.t) :
  let found := BreedsRoutes.listBreedsRoute mockBreeds q in
  found = List.filter (BreedsSpec.matches q) mockBreeds
  /\ sublist found mockBreeds
  /\ (forall k breed, BreedQuery.goodWithKids q = Some k -> In breed found ->
        Breed.goodWithKids breed = k)
  /\ (forall p breed, BreedQuery.goodWithPets q = Some p -> In breed found ->
        Breed.goodWithPets breed = p)
  /\ (forall g breed, BreedQuery.group q = Some g -> In breed found ->
        Breed.group breed = g).
Proof.
  intros found. unfold found. rewrite breeds_chain.
  split; [reflexivity|]. split; [apply filter_is_sublist|].
  split; [|split].
  - intros k breed Hk Hin. apply filter_In in Hin as [_ Hm].
    unfold BreedsSpec.matches in Hm. rewrite Hk in Hm. simpl in Hm.
    repeat (apply andb_prop in Hm as [Hm ?]).
    now apply Bool.eqb_prop.
  - intros p breed Hp Hin. apply filter_In in Hin as [_ Hm].
    unfold BreedsSpec.matches in Hm. rewrite Hp in Hm. simpl in Hm.
    repeat (apply andb_prop in Hm as [Hm ?]).
    now apply Bool.eqb_prop.
  - intros g breed Hg Hin. apply filter_In in Hin as [_ Hm].
    unfold BreedsSpec.matches in Hm. rewrite Hg in Hm. simpl in Hm.
    repeat (apply andb_prop in Hm as [Hm ?]).
    now apply BreedGroup_eqb_eq.
Qed.

Lemma breeds_filter_witness :
  let q := Scenarios.breedQuery (Some herding) (Some true) in
  BreedQuery.goodWithPets q = Some true
  /\ map Breed.name (BreedsRoutes.listBreedsRoute Scenarios.mockBreeds q) = ["Border Collie"]
  /\ (forall breed, In breed (BreedsRoutes.listBreedsRoute Scenarios.mockBreeds q) ->
        Breed.goodWithPets breed = true).
Proof.
  intros q.
  assert (Hq : BreedQuery.goodWithPets q = Some true) by reflexivity.
  split; [exact Hq|]. split; [reflexivity|].
  intros breed Hin.
  exact (proj1 (proj2 (proj2 (proj2 (breeds_filter Scenarios.mockBreeds q))))
           true breed Hq Hin).
Defined.

(** ** Paging through a list *)

Lemma firstn_plus {A : Type} (a b : nat) (l : list A) :
  firstn (a + b) l = firstn a l ++ firstn b (skipn a l).
Proof.
  revert l. induction a as [|a IH]; intros l; simpl; trivial.
  destruct l as [|x l]; simpl; [now rewrite firstn_nil|]. now rewrite IH.
Qed.

Lemma chunks_cover {A : Type} (n pages : nat) (l : list A) :
  concat (map (fun k => firstn n (skipn (k * n) l)) (seq 0 pages))
  = firstn (pages * n) l.
Proof.
  induction pages as [|pages IH]; [reflexivity|].
  replace (seq 0 (S pages)) with (seq 0 pages ++ [pages]) by (symmetry; apply seq_S).
  rewrite List.map_app, List.concat_app, IH. simpl. rewrite app_nil_r.
  rewrite <- firstn_plus. f_equal. simpl. lia.
Qed.

Lemma paginate_data {A : Type} (filtered : list A) (k : nat) (lim : Z) :
  1 <= lim ->
  data (paginate filtered (Z.of_nat (S k)) lim)
  = firstn (Z.to_nat lim) (skipn (k * Z.to_nat lim) filtered).
Proof.
  intros Hlim. unfold paginate. simpl data.
  rewrite slice_window by nia. f_equal. f_equal. nia.
Qed.

Lemma paginate_pages_cover {A : Type} (filtered : list A) (lim : Z) :
  1 <= lim ->
  concat (map (fun p => data (paginate filtered p lim))
            (pageNumbers (totalPages (pagination (paginate filtered 1 lim)))))
  = filtered.
Proof.
  intros Hlim. unfold pageNumbers.
  set (pages := Z.to_nat (totalPages (pagination (paginate filtered 1 lim)))).
  rewrite <- seq_shift, !map_map.
  rewrite (map_ext _ (fun k => firstn (Z.to_nat lim) (skipn (k * Z.to_nat lim) filtered)))
    by (intros k; now apply paginate_data).
  rewrite chunks_cover. apply firstn_all2.
  unfold pages, paginate. simpl. rewrite Math_ceil_div by lia.
  pose proof (ceil_div_bounds (Z.of_nat (length filtered)) lim ltac:(lia)) as [_ Hcover].
  nia.
Qed.

(** Reading [GET /dogs] page after page, from 1 to [totalPages], with the
    same criteria and limit yields the filtered dogs, each once and in order;
    a page past [totalPages] is empty. *)
Theorem dog_pages_cover (dogs : list Dog.t) (query : DogQuery.t) :
  1 <= DogQuery.limit query ->
  let pages := totalPages (pagination (DogsRoutes.listDogsRoute dogs query)) in
  concat (map (fun p => data (DogsRoutes.listDogsRoute dogs (DogsSpec2.withPage query p)))
            (pageNumbers pages))
  = DogsRoutes.applyFilters query dogs
  /\ (forall p, pages < p ->
        data (DogsRoutes.listDogsRoute dogs (DogsSpec2.withPage query p)) = []).
Proof.
  intros Hlim pages. split.
  - apply (paginate_pages_cover (DogsRoutes.applyFilters query dogs) _ Hlim).
  - intros p Hp. unfold DogsRoutes.listDogsRoute, paginate. simpl data.
    change (DogsRoutes.applyFilters (DogsSpec2.withPage query p) dogs)
      with (DogsRoutes.applyFilters query dogs).
    change (DogQuery.limit (DogsSpec2.withPage query p)) with (DogQuery.limit query).
    change (DogQuery.page (DogsSpec2.withPage query p)) with p.
    assert (Hpages : pages
                     = - ((- Z.of_nat (length (DogsRoutes.applyFilters query dogs)))
                          / DogQuery.limit query)).
    { unfold pages, DogsRoutes.listDogsRoute, paginate. simpl.
      now rewrite Math_ceil_div by lia. }
    pose proof (ceil_div_bounds (Z.of_nat (length (DogsRoutes.applyFilters query dogs)))
                  (DogQuery.limit query) ltac:(lia)) as [Hlow Hcover].
    rewrite <- Hpages in Hlow, Hcover.
    assert (Hnonneg : 0 <= pages) by nia.
    rewrite slice_window by nia.
    rewrite skipn_all2 by nia. apply firstn_nil.
Qed.

(** Twelve dogs, five to a page: pages 1 to 3 give them all, page 4 none. *)
Lemma dog_pages_cover_witness :
  let query := DogsSpec.noCriteria 1 5 in
  1 <= DogQuery.limit query
  /\ totalPages (pagination (DogsRoutes.listDogsRoute Samples.twelveDogs query)) = 3
  /\ data (DogsRoutes.listDogsRoute Samples.twelveDogs (DogsSpec2.withPage query 1))
     ++ data (DogsRoutes.listDogsRoute Samples.twelveDogs (DogsSpec2.withPage query 2))
     ++ data (DogsRoutes.listDogsRoute Samples.twelveDogs (DogsSpec2.withPage query 3))
     = Samples.twelveDogs
  /\ data (DogsRoutes.listDogsRoute Samples.twelveDogs (DogsSpec2.withPage query 4)) = [].
Proof.
  intros query.
  assert (Hlim : 1 <= DogQuery.limit query) by (simpl; lia).
  split; [exact Hlim|]. split; [reflexivity|]. split; [reflexivity|].
  apply (proj2 (dog_pages_cover Samples.twelveDogs query Hlim)).
  vm_compute. reflexivity.
Defined.

(** ** Available dogs and the statistics *)

Lemma filter_orb_length {A : Type} (p q : A -> bool) (l : list A) :
  (length (List.filter (fun x => p x || q x) l)
   <= length (List.filter p l) + length (List.filter q l))%nat.
Proof.
  induction l as [|x l IH]; simpl; trivial.
  destruct (p x), (q x); simpl; lia.
Qed.

Lemma one_dog_per_id (dogs : list Dog.t) (id : string) :
  uniqueIds Dog.id dogs ->
  (length (List.filter (fun dog => String.eqb id (Dog.id dog)) dogs) <= 1)%nat.
Proof.
  unfold uniqueIds. induction dogs as [|dog dogs IH]; simpl; intros Hnd; [lia|].
  apply List.NoDup_cons_iff in Hnd as [Hfresh Hnd].
  destruct (String.eqb_spec id (Dog.id dog)) as [->|_]; [|now apply IH].
  assert (Hnone : List.filter (fun d => String.eqb (Dog.id dog) (Dog.id d)) dogs = []).
  { clear IH Hnd. induction dogs as [|d dogs IH]; simpl; trivial.
    destruct (String.eqb_spec (Dog.id dog) (Dog.id d)) as [Heq|_].
    - exfalso. apply Hfresh. simpl. left. congruence.
    - apply IH. intros Hin. apply Hfresh. simpl. now right. }
  rewrite Hnone. simpl. lia.
Qed.

Lemma adopted_at_most_approved (dogs : list Dog.t)
  (adoptionApplications : list AdoptionApplication.t) :
  uniqueIds Dog.id dogs ->
  Z.of_nat (length (List.filter
              (fun dog => negb (AvailableSpec.notAdopted adoptionApplications dog)) dogs))
  <= AdoptionRoutes.countStatus approved adoptionApplications.
Proof.
  intros Hunique.
  rewrite (filter_ext
             (fun dog => negb (AvailableSpec.notAdopted adoptionApplications dog))
             (fun dog => existsb
                (fun app => AdoptionStatus_eqb (AdoptionApplication.status app) approved
                            && String.eqb (AdoptionApplication.dogId app) (Dog.id dog))
                adoptionApplications))
    by (intros dog; apply negb_involutive).
  unfold AdoptionRoutes.countStatus.
  induction adoptionApplications as [|app apps IH]; simpl.
  - assert (Hnil : forall l : list Dog.t, List.filter (fun _ => false) l = [])
      by (induction l; simpl; trivial).
    rewrite Hnil. simpl. lia.
  - destruct (AdoptionStatus_eqb (AdoptionApplication.status app) approved); simpl.
    + pose proof (filter_orb_length
        (fun dog => String.eqb (AdoptionApplication.dogId app) (Dog.id dog))
        (fun dog => existsb
           (fun app0 => AdoptionStatus_eqb (AdoptionApplication.status app0) approved
                        && String.eqb (AdoptionApplication.dogId app0) (Dog.id dog))
           apps) dogs) as Hor.
      pose proof (one_dog_per_id dogs (AdoptionApplication.dogId app) Hunique) as Hone.
      lia.
    + exact IH.
Qed.

(** With unique dog identifiers, the statistics' [availableForAdoption]
    (dogs minus approved applications) never exceeds the number of dogs the
    available-dogs endpoint lists without criteria. *)
Theorem available_count_bound (mockDogs : list Dog.t)
  (adoptionApplications : list AdoptionApplication.t) (goodWithKids : option bool) :
  uniqueIds Dog.id mockDogs ->
  AdoptionStats.availableForAdoption
    (AdoptionRoutes.getAdoptionStatsRoute mockDogs adoptionApplications)
  <= Z.of_nat (length (AdoptionRoutes.getAvailableDogsRoute mockDogs adoptionApplications
                         (AvailableQuery.mk None None None goodWithKids))).
Proof.
  intros Hunique. rewrite available_is_filter.
  unfold AdoptionRoutes.getAdoptionStatsRoute. simpl.
  rewrite (filter_ext _ (fun dog => AvailableSpec.notAdopted adoptionApplications dog))
    by (intros dog; apply andb_true_r).
  pose proof (adopted_at_most_approved mockDogs adoptionApplications Hunique) as Hle.
  assert (Hsplit : forall (p : Dog.t -> bool) l,
            (length (List.filter p l) + length (List.filter (fun x => negb (p x)) l)
             = length l)%nat).
  { intros p l. induction l as [|x l IH]; simpl; trivial.
    destruct (p x); simpl; lia. }
  specialize (Hsplit (fun dog => AvailableSpec.notAdopted adoptionApplications dog)
                mockDogs).
  cbv beta in Hsplit. lia.
Qed.

(** Six approvals on the five seed dogs: the statistics say -1 dogs are
    available, the list has none. *)
Lemma available_count_bound_witness :
  uniqueIds Dog.id Samples.mockDogs
  /\ AdoptionStats.availableForAdoption
       (AdoptionRoutes.getAdoptionStatsRoute Samples.mockDogs Samples.sixApproved) = -1
  /\ AdoptionRoutes.getAvailableDogsRoute Samples.mockDogs Samples.sixApproved
       (AvailableQuery.mk None None None None) = []
  /\ AdoptionStats.availableForAdoption
       (AdoptionRoutes.getAdoptionStatsRoute Samples.mockDogs Samples.sixApproved)
     <= Z.of_nat (length (AdoptionRoutes.getAvailableDogsRoute Samples.mockDogs
                            Samples.sixApproved (AvailableQuery.mk None None None None))).
Proof.
  assert (Hunique : uniqueIds Dog.id Samples.mockDogs).
  { unfold uniqueIds. simpl. repeat constructor; simpl; intuition discriminate. }
  split; [exact Hunique|]. split; [reflexivity|]. split; [reflexivity|].
  exact (available_count_bound Samples.mockDogs Samples.sixApproved None Hunique).
Defined.

(** ** An inverted date range *)

Lemma ascii_compare_Lt_trans (a b c : ascii) :
  Ascii.compare a b = Lt -> Ascii.compare b c = Lt -> Ascii.compare a c = Lt.
Proof.
  unfold Ascii.compare. rewrite !N.compare_lt_iff. apply N.lt_trans.
Qed.

Lemma string_le_trans (s1 s2 s3 : string) :
  String.leb s1 s2 = true -> String.leb s2 s3 = true -> String.leb s1 s3 = true.
Proof.
  unfold String.leb. revert s2 s3.
  induction s1 as [|a s1 IH]; intros [|b s2] [|c s3]; simpl; trivial; try discriminate.
  destruct (Ascii.compare a b) eqn:Hab; try discriminate.
  - apply Ascii.compare_eq_iff in Hab. subst b.
    destruct (Ascii.compare a c); trivial. apply IH.
  - destruct (Ascii.compare b c) eqn:Hbc; try discriminate.
    + apply Ascii.compare_eq_iff in Hbc. subst c. now rewrite Hab.
    + now rewrite (ascii_compare_Lt_trans a b c Hab Hbc).
Qed.

Lemma slice_nil {A : Type} (start finish : Z) : JS.slice (@nil A) start finish = [].
Proof. unfold JS.slice. now rewrite skipn_nil, firstn_nil. Qed.

(** A health-record query whose [dateTo] lies before its [dateFrom] matches
    no record: the reply is an empty page with total 0 and totalPages 0, not
    an error. *)
Theorem health_date_range_inverted
  (healthRecords : list HealthRecord.t) (query : HealthQuery.t) (from to : string) :
  HealthQuery.dateFrom query = Some from ->
  HealthQuery.dateTo query = Some to ->
  to <> "" ->
  String.ltb to from = true ->
  let reply := HealthRoutes.listHealthRecordsRoute healthRecords query in
  HealthRoutes.applyFilters query healthRecords = []
  /\ data reply = []
  /\ total (pagination reply) = 0
  /\ totalPages (pagination reply) = 0.
Proof.
  intros Hfrom Hto Hnonempty Hlt reply.
  assert (Hnone : HealthRoutes.applyFilters query healthRecords = []).
  { rewrite health_chain.
    rewrite (filter_ext _ (fun _ => false)).
    - induction healthRecords; simpl; trivial.
    - intros record. unfold HealthSpec.matches. rewrite Hfrom, Hto.
      assert (Hgt : String.leb from to = false).
      { unfold String.ltb in Hlt. unfold String.leb.
        rewrite String.compare_antisym.
        destruct (String.compare to from); try discriminate. reflexivity. }
      assert (Htruthy_to : JS.truthy to = true) by (destruct to; [congruence|trivial]).
      assert (Htruthy_from : JS.truthy from = true).
      { destruct from; trivial. unfold String.ltb in Hlt.
        destruct to; simpl in Hlt; discriminate. }
      unfold matchTruthy at 3 4. rewrite Htruthy_to, Htruthy_from.
      unfold JS.str_ge, JS.str_le.
      destruct (String.leb from (HealthRecord.date record)) eqn:H1;
        [|now rewrite andb_false_r].
      destruct (String.leb (HealthRecord.date record) to) eqn:H2;
        [|now rewrite andb_false_r].
      rewrite (string_le_trans _ _ _ H1 H2) in Hgt. discriminate. }
  split; [exact Hnone|].
  unfold reply, HealthRoutes.listHealthRecordsRoute, paginate. rewrite Hnone. simpl.
  split; [apply slice_nil|]. split; trivial.
Qed.

Lemma health_date_range_inverted_witness :
  let query := Scenarios.healthQuery (Some "2024-02-01") (Some "2024-01-01") in
  HealthQuery.dateFrom query = Some "2024-02-01"
  /\ HealthQuery.dateTo query = Some "2024-01-01"
  /\ "2024-01-01" <> ""
  /\ String.ltb "2024-01-01" "2024-02-01" = true
  /\ data (HealthRoutes.listHealthRecordsRoute Samples.mockHealthRecords query) = []
  /\ map HealthRecord.id
       (data (HealthRoutes.listHealthRecordsRoute Samples.mockHealthRecords
                (Scenarios.healthQuery (Some "2024-01-01") (Some "2024-02-01"))))
     = ["h3"].
Proof.
  intros query.
  assert (Hne : "2024-01-01" <> "") by discriminate.
  split; [reflexivity|]. split; [reflexivity|]. split; [exact Hne|].
  split; [reflexivity|]. split; [|reflexivity].
  exact (proj1 (proj2 (health_date_range_inverted Samples.mockHealthRecords query
                         "2024-02-01" "2024-01-01" eq_refl eq_refl Hne eq_refl))).
Defined.
